(** * gltf-viewer-player: day/night lighting and player locomotion

  A shallow embedding of [TimeOfDaySystem] (src/TimeOfDay.js), of
  [CameraController.getForwardVector/getRightVector] and of
  [Player.update] with its two integrators, together with the small part
  of three.js those classes call (colour and scalar interpolation, Euler
  rotations, vector arithmetic).

  Numbers.  A JavaScript number is modelled as a real number: arithmetic
  is exact, there is no rounding, no NaN and no infinity.  Comparisons
  ([>=], [<], [>], [<=]) become boolean tests on reals.  Objects are
  records and every method is a function from the old object state to the
  new one.

  Rounding is written out in the two places where it changes what the
  user sees: the sign of the sun's height at 18:00, which depends on
  [Math.PI] being a double below pi (module [AsComputed]), and the minute
  of the clock text, which is the floor of a rounded product (module
  [TimeDisplay]). *)

From Stdlib Require Import Reals Lra Lia List Bool ZArith Psatz RNsatz.
From Stdlib Require String Ascii DecimalString.
Import ListNotations.

Open Scope R_scope.

(** ** JavaScript comparisons on numbers *)

Definition Rgeb (x y : R) : bool := if Rge_dec x y then true else false.
Definition Rltb (x y : R) : bool := if Rlt_dec x y then true else false.
Definition Rgtb (x y : R) : bool := if Rgt_dec x y then true else false.
Definition Rleb (x y : R) : bool := if Rle_dec x y then true else false.

Infix ">=?" := Rgeb (at level 70, no associativity) : R_scope.
Infix "<?" := Rltb (at level 70, no associativity) : R_scope.
Infix ">?" := Rgtb (at level 70, no associativity) : R_scope.
Infix "<=?" := Rleb (at level 70, no associativity) : R_scope.

(** ** The part of three.js the classes use *)

Module THREE.

(** [THREE.Color]: three channels. *)
Record Color : Type := mkColor { r : R; g : R; b : R }.

(** [SRGBToLinear(c)], the sRGB transfer function of three.js's colour
    management. *)
Definition SRGBToLinear (c : R) : R :=
  if c <? 4045 / 100000 then c * (773993808 / 10000000000)
  else Rpower (c * (9478672986 / 10000000000) + 521327014 / 10000000000)
              (24 / 10).

(** [Color_ofHex] is the constructor [new THREE.Color(hex)], that is
    [setHex(hex, SRGBColorSpace)]: each channel is its byte divided by 255
    and then converted from sRGB to the linear working colour space
    (colour management is enabled by default, and the repository does not
    disable it). *)
Definition Color_ofHex (hex : Z) : Color :=
  {| r := SRGBToLinear (IZR (Z.land (Z.shiftr hex 16) 255) / 255);
     g := SRGBToLinear (IZR (Z.land (Z.shiftr hex 8) 255) / 255);
     b := SRGBToLinear (IZR (Z.land hex 255) / 255) |}.

(** [new THREE.Color().lerpColors(c1, c2, alpha)] *)
Definition Color_lerpColors (c1 c2 : Color) (alpha : R) : Color :=
  {| r := r c1 + (r c2 - r c1) * alpha;
     g := g c1 + (g c2 - g c1) * alpha;
     b := b c1 + (b c2 - b c1) * alpha |}.

(** [THREE.MathUtils.lerp(x, y, t)] *)
Definition MathUtils_lerp (x y t : R) : R := (1 - t) * x + t * y.

(** [THREE.Vector3] *)
Record Vector3 : Type := mkVector3 { x : R; y : R; z : R }.

Definition Vector3_zero : Vector3 := mkVector3 0 0 0.

Definition add (v w : Vector3) : Vector3 :=
  mkVector3 (x v + x w) (y v + y w) (z v + z w).

Definition sub (v w : Vector3) : Vector3 :=
  mkVector3 (x v - x w) (y v - y w) (z v - z w).

Definition multiplyScalar (v : Vector3) (s : R) : Vector3 :=
  mkVector3 (x v * s) (y v * s) (z v * s).

Definition length (v : Vector3) : R :=
  sqrt (x v * x v + y v * y v + z v * z v).

(** [divideScalar(s)] is [multiplyScalar(1 / s)]. *)
Definition divideScalar (v : Vector3) (s : R) : Vector3 :=
  multiplyScalar v (1 / s).

(** [normalize()] is [divideScalar(length() || 1)]: a zero length is
    replaced by 1. *)
Definition normalize (v : Vector3) : Vector3 :=
  divideScalar v (if Req_dec_T (length v) 0 then 1 else length v).

(** [THREE.Euler], with the two rotation orders the repository uses. *)
Inductive Order : Type := XYZ | YXZ.

Record Euler : Type := mkEuler { ex : R; ey : R; ez : R; order : Order }.

(** [THREE.Matrix4], column-major like three.js's [elements]. *)
Record Matrix4 : Type := mkMatrix4 {
  e0 : R; e1 : R; e2 : R; e3 : R;
  e4 : R; e5 : R; e6 : R; e7 : R;
  e8 : R; e9 : R; e10 : R; e11 : R;
  e12 : R; e13 : R; e14 : R; e15 : R }.

(** [Matrix4.makeRotationFromEuler(euler)] *)
Definition makeRotationFromEuler (eu : Euler) : Matrix4 :=
  let a := cos (ex eu) in let b := sin (ex eu) in
  let c := cos (ey eu) in let d := sin (ey eu) in
  let e := cos (ez eu) in let f := sin (ez eu) in
  match order eu with
  | XYZ =>
      let ae := a * e in let af := a * f in
      let be := b * e in let bf := b * f in
      {| e0 := c * e;        e4 := - c * f;       e8 := d;       e12 := 0;
         e1 := af + be * d;  e5 := ae - bf * d;   e9 := - b * c; e13 := 0;
         e2 := bf - ae * d;  e6 := be + af * d;   e10 := a * c;  e14 := 0;
         e3 := 0;            e7 := 0;             e11 := 0;      e15 := 1 |}
  | YXZ =>
      let ce := c * e in let cf := c * f in
      let de := d * e in let df := d * f in
      {| e0 := ce + df * b;  e4 := de * b - cf;   e8 := a * d;   e12 := 0;
         e1 := a * f;        e5 := a * e;         e9 := - b;     e13 := 0;
         e2 := cf * b - de;  e6 := df + ce * b;   e10 := a * c;  e14 := 0;
         e3 := 0;            e7 := 0;             e11 := 0;      e15 := 1 |}
  end.

(** [Vector3.applyMatrix4(m)] *)
Definition applyMatrix4 (v : Vector3) (m : Matrix4) : Vector3 :=
  let w := 1 / (e3 m * x v + e7 m * y v + e11 m * z v + e15 m) in
  mkVector3 ((e0 m * x v + e4 m * y v + e8 m * z v + e12 m) * w)
            ((e1 m * x v + e5 m * y v + e9 m * z v + e13 m) * w)
            ((e2 m * x v + e6 m * y v + e10 m * z v + e14 m) * w).

(** [THREE.Quaternion] and [Quaternion.setFromEuler(euler)] *)
Record Quaternion : Type := mkQuaternion { qx : R; qy : R; qz : R; qw : R }.

Definition setFromEuler (eu : Euler) : Quaternion :=
  let c1 := cos (ex eu / 2) in let c2 := cos (ey eu / 2) in
  let c3 := cos (ez eu / 2) in
  let s1 := sin (ex eu / 2) in let s2 := sin (ey eu / 2) in
  let s3 := sin (ez eu / 2) in
  match order eu with
  | XYZ => {| qx := s1 * c2 * c3 + c1 * s2 * s3;
              qy := c1 * s2 * c3 - s1 * c2 * s3;
              qz := c1 * c2 * s3 + s1 * s2 * c3;
              qw := c1 * c2 * c3 - s1 * s2 * s3 |}
  | YXZ => {| qx := s1 * c2 * c3 + c1 * s2 * s3;
              qy := c1 * s2 * c3 - s1 * c2 * s3;
              qz := c1 * c2 * s3 - s1 * s2 * c3;
              qw := c1 * c2 * c3 + s1 * s2 * s3 |}
  end.

(** [Vector3.applyQuaternion(q)] *)
Definition applyQuaternion (v : Vector3) (q : Quaternion) : Vector3 :=
  let tx := 2 * (qy q * z v - qz q * y v) in
  let ty := 2 * (qz q * x v - qx q * z v) in
  let tz := 2 * (qx q * y v - qy q * x v) in
  mkVector3 (x v + qw q * tx + qy q * tz - qz q * ty)
            (y v + qw q * ty + qz q * tx - qx q * tz)
            (z v + qw q * tz + qx q * ty - qy q * tx).

(** [Vector3.applyEuler(euler)] *)
Definition applyEuler (v : Vector3) (eu : Euler) : Vector3 :=
  applyQuaternion v (setFromEuler eu).

End THREE.

(** ** src/TimeOfDay.js

    The file holds two versions of the class; the first one, with the
    orbit rotation, is the one embedded here. *)

(** One entry of [timeColorPresets]; [lerpColors] returns an object of the
  same shape. *)
Module Preset.
Record t : Type := mk {
  sky : THREE.Color;
  sun : THREE.Color;
  ambient : THREE.Color;
  fog : THREE.Color;
  sunIntensity : R }.
End Preset.

Module TimeOfDaySystem.

Import THREE.

(** The objects the constructor receives and the sun mesh it creates.
    [scene.fog] may be absent. *)
Record Scene : Type := mkScene {
  background : Color;
  scene_fog : option Color }.

Record DirectionalLight : Type := mkDirectionalLight {
  light_color : Color;
  intensity : R;
  light_position : Vector3 }.

Record HemisphereLight : Type := mkHemisphereLight {
  hemi_color : Color;
  groundColor : Color }.

Record SunMesh : Type := mkSunMesh {
  mesh_position : Vector3;
  material_color : Color;
  visible : bool }.

Record OrbitRotation : Type := mkOrbitRotation {
  orbit_x : R; orbit_y : R; orbit_z : R }.

Record t : Type := mk {
  scene : Scene;
  directionalLight : DirectionalLight;
  hemisphereLight : HemisphereLight;
  timeOfDay : R;
  timeSpeed : R;
  enabled : bool;
  sunIntensity : R;
  orbitRotation : OrbitRotation;
  sunMesh : SunMesh }.

(** [this.sunDistance] is set to 50 by the constructor and no method
    assigns it again. *)
Definition sunDistance : R := 50.

(** [this.timeColorPresets] *)
Definition night : Preset.t :=
  Preset.mk (Color_ofHex 0x000000) (Color_ofHex 0x4060ff)
            (Color_ofHex 0x202050) (Color_ofHex 0x000000) (1 / 10).
Definition dawn : Preset.t :=
  Preset.mk (Color_ofHex 0x000000) (Color_ofHex 0xff9a56)
            (Color_ofHex 0xff8c69) (Color_ofHex 0x000000) (6 / 10).
Definition morning : Preset.t :=
  Preset.mk (Color_ofHex 0x000000) (Color_ofHex 0xfffacd)
            (Color_ofHex 0xfff8dc) (Color_ofHex 0x000000) (12 / 10).
Definition noon : Preset.t :=
  Preset.mk (Color_ofHex 0x000000) (Color_ofHex 0xfffaf0)
            (Color_ofHex 0xffffff) (Color_ofHex 0x000000) 2.
Definition afternoon : Preset.t :=
  Preset.mk (Color_ofHex 0x000000) (Color_ofHex 0xffd700)
            (Color_ofHex 0xffefd5) (Color_ofHex 0x000000) (15 / 10).
Definition dusk : Preset.t :=
  Preset.mk (Color_ofHex 0x000000) (Color_ofHex 0xff4500)
            (Color_ofHex 0xff7f50) (Color_ofHex 0x000000) (5 / 10).
Definition evening : Preset.t :=
  Preset.mk (Color_ofHex 0x000000) (Color_ofHex 0x4169e1)
            (Color_ofHex 0x483d8b) (Color_ofHex 0x000000) (2 / 10).

(** [lerpColors(preset1, preset2, t)] *)
Definition lerpColors (preset1 preset2 : Preset.t) (t : R) : Preset.t :=
  {| Preset.sky := Color_lerpColors (Preset.sky preset1) (Preset.sky preset2) t;
     Preset.sun := Color_lerpColors (Preset.sun preset1) (Preset.sun preset2) t;
     Preset.ambient :=
       Color_lerpColors (Preset.ambient preset1) (Preset.ambient preset2) t;
     Preset.fog := Color_lerpColors (Preset.fog preset1) (Preset.fog preset2) t;
     Preset.sunIntensity :=
       MathUtils_lerp (Preset.sunIntensity preset1)
                      (Preset.sunIntensity preset2) t |}.

(** [getColorsForTime(time)] *)
Definition getColorsForTime (time : R) : Preset.t :=
  if (time >=? 0) && (time <? 5) then night
  else if (time >=? 5) && (time <? 7) then
    let t := (time - 5) / 2 in lerpColors night dawn t
  else if (time >=? 7) && (time <? 9) then
    let t := (time - 7) / 2 in lerpColors dawn morning t
  else if (time >=? 9) && (time <? 11) then
    let t := (time - 9) / 2 in lerpColors morning noon t
  else if (time >=? 11) && (time <? 15) then noon
  else if (time >=? 15) && (time <? 17) then
    let t := (time - 15) / 2 in lerpColors noon afternoon t
  else if (time >=? 17) && (time <? 19) then
    let t := (time - 17) / 2 in lerpColors afternoon dusk t
  else if (time >=? 19) && (time <? 21) then
    let t := (time - 19) / 2 in lerpColors dusk evening t
  else
    let t := (time - 21) / 3 in lerpColors evening night t.

(** The rotated sun position computed at the start of
    [updateSunPosition(time)], with [Math.PI] read as pi. *)
Definition sunPosition (orbit : OrbitRotation) (time : R) : Vector3 :=
  let sunAngle := ((time - 6) / 12) * PI in
  let x := cos sunAngle * sunDistance in
  let y := sin sunAngle * sunDistance in
  let z := 0 in
  let position := mkVector3 x y z in
  let euler := mkEuler (orbit_x orbit) (orbit_y orbit) (orbit_z orbit) XYZ in
  let rotationMatrix := makeRotationFromEuler euler in
  applyMatrix4 position rotationMatrix.

(** [updateSunPosition(time)]; the constructor always creates
    [this.sunMesh], so the [if (this.sunMesh)] branch is taken. *)
Definition updateSunPosition (time : R) (s : t) : t :=
  let position := sunPosition (orbitRotation s) time in
  let dl := directionalLight s in
  let colors := getColorsForTime time in
  {| scene := scene s;
     directionalLight :=
       mkDirectionalLight (light_color dl) (intensity dl) position;
     hemisphereLight := hemisphereLight s;
     timeOfDay := timeOfDay s;
     timeSpeed := timeSpeed s;
     enabled := enabled s;
     sunIntensity := sunIntensity s;
     orbitRotation := orbitRotation s;
     sunMesh :=
       mkSunMesh position (Preset.sun colors) (y position >? 0) |}.

(** [updateLighting()] *)
Definition updateLighting (s : t) : t :=
  let colors := getColorsForTime (timeOfDay s) in
  let sc := scene s in
  let s1 :=
    {| scene :=
         mkScene (Preset.sky colors)
                 (match scene_fog sc with
                  | Some _ => Some (Preset.fog colors)
                  | None => None
                  end);
       directionalLight :=
         mkDirectionalLight (Preset.sun colors)
                            (Preset.sunIntensity colors * sunIntensity s)
                            (light_position (directionalLight s));
       hemisphereLight :=
         mkHemisphereLight (Preset.sky colors) (Preset.ambient colors);
       timeOfDay := timeOfDay s;
       timeSpeed := timeSpeed s;
       enabled := enabled s;
       sunIntensity := sunIntensity s;
       orbitRotation := orbitRotation s;
       sunMesh := sunMesh s |} in
  updateSunPosition (timeOfDay s1) s1.

Definition with_timeOfDay (v : R) (s : t) : t :=
  mk (scene s) (directionalLight s) (hemisphereLight s) v (timeSpeed s)
     (enabled s) (sunIntensity s) (orbitRotation s) (sunMesh s).

(** [update(deltaTime)] *)
Definition update (deltaTime : R) (s : t) : t :=
  let s1 :=
    if enabled s then
      let s' :=
        with_timeOfDay (timeOfDay s + (deltaTime * timeSpeed s) / 3600) s in
      if timeOfDay s' >=? 24 then with_timeOfDay (timeOfDay s' - 24) s'
      else s'
    else s in
  updateLighting s1.

(** [setTime(time)] *)
Definition setTime (time : R) (s : t) : t :=
  updateLighting (with_timeOfDay time s).

(** [setTimeSpeed(speed)] *)
Definition setTimeSpeed (speed : R) (s : t) : t :=
  mk (scene s) (directionalLight s) (hemisphereLight s) (timeOfDay s) speed
     (enabled s) (sunIntensity s) (orbitRotation s) (sunMesh s).

(** [setSunIntensity(intensity)] *)
Definition setSunIntensity (intensity : R) (s : t) : t :=
  updateLighting
    (mk (scene s) (directionalLight s) (hemisphereLight s) (timeOfDay s)
        (timeSpeed s) (enabled s) intensity (orbitRotation s) (sunMesh s)).

(** [setEnabled(enabled)] *)
Definition setEnabled (en : bool) (s : t) : t :=
  mk (scene s) (directionalLight s) (hemisphereLight s) (timeOfDay s)
     (timeSpeed s) en (sunIntensity s) (orbitRotation s) (sunMesh s).

Definition with_orbitRotation (o : OrbitRotation) (s : t) : t :=
  mk (scene s) (directionalLight s) (hemisphereLight s) (timeOfDay s)
     (timeSpeed s) (enabled s) (sunIntensity s) o (sunMesh s).

(** [setOrbitPitch], [setOrbitYaw], [setOrbitRoll], [setOrbitRotation] *)
Definition setOrbitPitch (radians : R) (s : t) : t :=
  let o := orbitRotation s in
  updateLighting
    (with_orbitRotation (mkOrbitRotation radians (orbit_y o) (orbit_z o)) s).

Definition setOrbitYaw (radians : R) (s : t) : t :=
  let o := orbitRotation s in
  updateLighting
    (with_orbitRotation (mkOrbitRotation (orbit_x o) radians (orbit_z o)) s).

Definition setOrbitRoll (radians : R) (s : t) : t :=
  let o := orbitRotation s in
  updateLighting
    (with_orbitRotation (mkOrbitRotation (orbit_x o) (orbit_y o) radians) s).

Definition setOrbitRotation (pitch yaw roll : R) (s : t) : t :=
  updateLighting (with_orbitRotation (mkOrbitRotation pitch yaw roll) s).

(** The state the constructor builds around the collaborators it is
    given: noon, speed 10, cycle disabled, intensity 0.8, no orbit tilt,
    a sun mesh at the origin. *)
Definition constructor (sc : Scene) (dl : DirectionalLight)
    (hl : HemisphereLight) : t :=
  {| scene := sc;
     directionalLight := dl;
     hemisphereLight := hl;
     timeOfDay := 12;
     timeSpeed := 10;
     enabled := false;
     sunIntensity := 8 / 10;
     orbitRotation := mkOrbitRotation 0 0 0;
     sunMesh := mkSunMesh Vector3_zero (Color_ofHex 0xfffaf0) true |}.

(** [n] successive calls of [update(deltaTime)]. *)
Fixpoint updates (n : nat) (deltaTime : R) (s : t) : t :=
  match n with
  | O => s
  | S k => updates k deltaTime (update deltaTime s)
  end.

End TimeOfDaySystem.

(** ** The camera controller (third class of src/TimeOfDay.js) *)

Module CameraController.

Import THREE.

(** [this.modes] *)
Inductive Mode : Type := FIRST_PERSON | THIRD_PERSON | FREE_CAMERA.

Definition Mode_eqb (m1 m2 : Mode) : bool :=
  match m1, m2 with
  | FIRST_PERSON, FIRST_PERSON => true
  | THIRD_PERSON, THIRD_PERSON => true
  | FREE_CAMERA, FREE_CAMERA => true
  | _, _ => false
  end.

(** The fields the player reads and writes: [camera.position], the
    current mode and the mouse-look angles. *)
Record t : Type := mk {
  camera_position : Vector3;
  currentMode : Mode;
  yaw : R;
  pitch : R;
  thirdPersonDistance : R;
  thirdPersonHeight : R }.

(** [getForwardVector()] *)
Definition getForwardVector (c : t) : Vector3 :=
  let rotation := mkEuler 0 (yaw c) 0 YXZ in
  let direction := mkVector3 0 0 (-1) in
  applyEuler direction rotation.

(** [getRightVector()] *)
Definition getRightVector (c : t) : Vector3 :=
  let rotation := mkEuler 0 (yaw c) 0 YXZ in
  let direction := mkVector3 1 0 0 in
  applyEuler direction rotation.

Definition with_camera_position (v : Vector3) (c : t) : t :=
  mk v (currentMode c) (yaw c) (pitch c) (thirdPersonDistance c)
     (thirdPersonHeight c).

End CameraController.

(** ** The player (second class of src/unnamed/part_001) *)

(** [this.keys] *)
Module Keys.
Record t : Type := mk {
  forward : bool;
  backward : bool;
  left : bool;
  right : bool;
  jump : bool;
  up : bool;
  down : bool;
  sprint : bool }.

Definition none : t := mk false false false false false false false false.
End Keys.

Module Player.

Import THREE.

(** [this.mesh]: the fields [update] writes. *)
Record Mesh : Type := mkMesh {
  mesh_position : Vector3;
  mesh_scale : R;
  mesh_visible : bool }.

Record t : Type := mk {
  position : Vector3;
  velocity : Vector3;
  speed : R;
  fastSpeed : R;
  jumpForce : R;
  gravity : R;
  isGrounded : bool;
  scale : R;
  eyeHeight : R;
  groundLevel : R;
  mesh : Mesh;
  keys : Keys.t }.

(** The state the constructor builds. *)
Definition constructor : t :=
  {| position := mkVector3 0 0 5;
     velocity := Vector3_zero;
     speed := 30 / 100;
     fastSpeed := 60 / 100;
     jumpForce := 3 / 10;
     gravity := -1;
     isGrounded := false;
     scale := 18 / 1000;
     eyeHeight := 35 / 1000;
     groundLevel := 30 / 100;
     mesh := mkMesh Vector3_zero 1 true;
     keys := Keys.none |}.

(** The key handlers of [setupInput] overwrite entries of [this.keys]
    between two updates. *)
Definition with_keys (k : Keys.t) (p : t) : t :=
  mk (position p) (velocity p) (speed p) (fastSpeed p) (jumpForce p)
     (gravity p) (isGrounded p) (scale p) (eyeHeight p) (groundLevel p)
     (mesh p) k.

(** [setSpeed(speed)] *)
Definition setSpeed (sp : R) (p : t) : t :=
  mk (position p) (velocity p) sp (sp * 2) (jumpForce p)
     (gravity p) (isGrounded p) (scale p) (eyeHeight p) (groundLevel p)
     (mesh p) (keys p).

(** [setGroundLevel(level)] *)
Definition setGroundLevel (level : R) (p : t) : t :=
  let pos := position p in
  mk (if y pos <? level then mkVector3 (x pos) level (z pos) else pos)
     (velocity p) (speed p) (fastSpeed p) (jumpForce p)
     (gravity p) (isGrounded p) (scale p) (eyeHeight p) level
     (mesh p) (keys p).

(** The first half of both integrators: the four directional keys add
    or subtract the camera's forward and right vectors. *)
Definition horizontalDirection (k : Keys.t) (c : CameraController.t)
    : Vector3 :=
  let forward := CameraController.getForwardVector c in
  let right := CameraController.getRightVector c in
  let m0 := Vector3_zero in
  let m1 := if Keys.forward k then add m0 forward else m0 in
  let m2 := if Keys.backward k then sub m1 forward else m1 in
  let m3 := if Keys.left k then sub m2 right else m2 in
  let m4 := if Keys.right k then add m3 right else m3 in
  m4.

(** [updatePlayerMovement(deltaTime, cameraController)] *)
Definition updatePlayerMovement (deltaTime : R) (c : CameraController.t)
    (p : t) : t :=
  let moveDirection := horizontalDirection (keys p) c in
  let moveDirection :=
    if length moveDirection >? 0 then normalize moveDirection
    else moveDirection in
  let currentSpeed := if Keys.sprint (keys p) then fastSpeed p else speed p in
  let moveDirection := multiplyScalar moveDirection currentSpeed in
  (* horizontal velocity, then gravity *)
  let vx := x moveDirection in
  let vz := z moveDirection in
  let vy := y (velocity p) + gravity p * deltaTime in
  (* jump *)
  let jumping := Keys.jump (keys p) && isGrounded p in
  let vy := if jumping then jumpForce p else vy in
  let grounded := if jumping then false else isGrounded p in
  (* position *)
  let px := x (position p) + vx * deltaTime in
  let py := y (position p) + vy * deltaTime in
  let pz := z (position p) + vz * deltaTime in
  (* ground collision *)
  let landed := py <=? groundLevel p in
  let py := if landed then groundLevel p else py in
  let vy := if landed then 0 else vy in
  let grounded := if landed then true else grounded in
  mk (mkVector3 px py pz) (mkVector3 vx vy vz) (speed p) (fastSpeed p)
     (jumpForce p) (gravity p) grounded (scale p) (eyeHeight p)
     (groundLevel p) (mesh p) (keys p).

(** The first half of [updateFreeCamera]: the directional keys as above,
    then [up] adds 1 to the vertical component and [down] subtracts 1. *)
Definition freeDirection (k : Keys.t) (c : CameraController.t) : Vector3 :=
  let moveDirection := horizontalDirection k c in
  let moveDirection :=
    if Keys.up k
    then mkVector3 (x moveDirection) (y moveDirection + 1) (z moveDirection)
    else moveDirection in
  let moveDirection :=
    if Keys.down k
    then mkVector3 (x moveDirection) (y moveDirection - 1) (z moveDirection)
    else moveDirection in
  moveDirection.

(** [updateFreeCamera(deltaTime, cameraController)]: moves the camera
    and copies its position into the player. *)
Definition updateFreeCamera (deltaTime : R) (c : CameraController.t)
    (p : t) : t * CameraController.t :=
  let moveDirection := freeDirection (keys p) c in
  let moveDirection :=
    if length moveDirection >? 0 then normalize moveDirection
    else moveDirection in
  let currentSpeed := if Keys.sprint (keys p) then fastSpeed p else speed p in
  let moveDirection := multiplyScalar moveDirection (currentSpeed * deltaTime) in
  let campos := add (CameraController.camera_position c) moveDirection in
  (mk campos (velocity p) (speed p) (fastSpeed p) (jumpForce p) (gravity p)
      (isGrounded p) (scale p) (eyeHeight p) (groundLevel p) (mesh p)
      (keys p),
   CameraController.with_camera_position campos c).

(** [update(deltaTime, cameraController)] *)
Definition update (deltaTime : R) (c : CameraController.t) (p : t)
    : t * CameraController.t :=
  let mode := CameraController.currentMode c in
  let '(p1, c1) :=
    if CameraController.Mode_eqb mode CameraController.FREE_CAMERA
    then updateFreeCamera deltaTime c p
    else (updatePlayerMovement deltaTime c p, c) in
  (mk (position p1) (velocity p1) (speed p1) (fastSpeed p1) (jumpForce p1)
      (gravity p1) (isGrounded p1) (scale p1) (eyeHeight p1)
      (groundLevel p1)
      (mkMesh (position p1) (scale p1)
              (negb (CameraController.Mode_eqb mode
                       CameraController.FIRST_PERSON)))
      (keys p1),
   c1).

(** One animation frame as the player sees it: the keys held when the
    frame starts, the frame's time step and the camera controller. *)
Record Frame : Type := mkFrame {
  frame_dt : R;
  frame_keys : Keys.t;
  frame_camera : CameraController.t }.

Definition tick (f : Frame) (p : t) : t :=
  fst (update (frame_dt f) (frame_camera f) (with_keys (frame_keys f) p)).

(** The player after the first [n] frames of the sequence [frames]. *)
Fixpoint run (frames : nat -> Frame) (n : nat) (p : t) : t :=
  match n with
  | O => p
  | S k => tick (frames k) (run frames k p)
  end.

End Player.

(** ** Vocabulary of the properties *)

(** Two colours, or two presets, agree within [eps] on every channel. *)
Definition Color_within (eps : R) (c d : THREE.Color) : Prop :=
  Rabs (THREE.r c - THREE.r d) < eps /\
  Rabs (THREE.g c - THREE.g d) < eps /\
  Rabs (THREE.b c - THREE.b d) < eps.

Definition Preset_within (eps : R) (p q : Preset.t) : Prop :=
  Color_within eps (Preset.sky p) (Preset.sky q) /\
  Color_within eps (Preset.sun p) (Preset.sun q) /\
  Color_within eps (Preset.ambient p) (Preset.ambient q) /\
  Color_within eps (Preset.fog p) (Preset.fog q) /\
  Rabs (Preset.sunIntensity p - Preset.sunIntensity q) < eps.

(** [f] tends to [l] when its argument approaches [b] from below. *)
Definition left_limit (f : R -> Preset.t) (b : R) (l : Preset.t) : Prop :=
  forall eps : R, 0 < eps ->
  exists delta : R, 0 < delta /\
    forall t : R, b - delta < t < b -> Preset_within eps (f t) l.

(** [f] tends to [l] when its argument approaches [b] from above, [b]
    included. *)
Definition right_limit (f : R -> Preset.t) (b : R) (l : Preset.t) : Prop :=
  forall eps : R, 0 < eps ->
  exists delta : R, 0 < delta /\
    forall t : R, b <= t < b + delta -> Preset_within eps (f t) l.

(** [f] is continuous at [b]. *)
Definition continuous_at (f : R -> Preset.t) (b : R) : Prop :=
  forall eps : R, 0 < eps ->
  exists delta : R, 0 < delta /\
    forall t : R, b - delta < t < b + delta -> Preset_within eps (f t) (f b).

(** The interval boundaries of [getColorsForTime], each with the formula
    its preceding interval uses. *)
Definition boundaries : list (R * (R -> Preset.t)) :=
  [ (5, fun _ => TimeOfDaySystem.night);
  (7, fun time => TimeOfDaySystem.lerpColors
        TimeOfDaySystem.night TimeOfDaySystem.dawn ((time - 5) / 2));
  (9, fun time => TimeOfDaySystem.lerpColors
        TimeOfDaySystem.dawn TimeOfDaySystem.morning ((time - 7) / 2));
  (11, fun time => TimeOfDaySystem.lerpColors
        TimeOfDaySystem.morning TimeOfDaySystem.noon ((time - 9) / 2));
  (15, fun _ => TimeOfDaySystem.noon);
  (17, fun time => TimeOfDaySystem.lerpColors
        TimeOfDaySystem.noon TimeOfDaySystem.afternoon ((time - 15) / 2));
  (19, fun time => TimeOfDaySystem.lerpColors
        TimeOfDaySystem.afternoon TimeOfDaySystem.dusk ((time - 17) / 2));
  (21, fun time => TimeOfDaySystem.lerpColors
        TimeOfDaySystem.dusk TimeOfDaySystem.evening ((time - 19) / 2)) ].

(** The lighting outputs of [s] are the ones [updateLighting] derives from
    the preset [colors]. *)
Definition LitBy (colors : Preset.t) (s : TimeOfDaySystem.t) : Prop :=
  TimeOfDaySystem.background (TimeOfDaySystem.scene s) = Preset.sky colors /\
  (forall c, TimeOfDaySystem.scene_fog (TimeOfDaySystem.scene s) = Some c ->
           c = Preset.fog colors) /\
  TimeOfDaySystem.light_color (TimeOfDaySystem.directionalLight s)
  = Preset.sun colors /\
  TimeOfDaySystem.intensity (TimeOfDaySystem.directionalLight s)
  = Preset.sunIntensity colors * TimeOfDaySystem.sunIntensity s /\
  TimeOfDaySystem.hemi_color (TimeOfDaySystem.hemisphereLight s)
  = Preset.sky colors /\
  TimeOfDaySystem.groundColor (TimeOfDaySystem.hemisphereLight s)
  = Preset.ambient colors /\
  TimeOfDaySystem.material_color (TimeOfDaySystem.sunMesh s)
  = Preset.sun colors.

(** Collaborators for concrete runs: a black scene with fog, a white
    directional light at the origin, a white hemisphere light. *)
Definition sampleScene : TimeOfDaySystem.Scene :=
  TimeOfDaySystem.mkScene (THREE.Color_ofHex 0x000000)
                        (Some (THREE.Color_ofHex 0x000000)).

Definition sampleDirectionalLight : TimeOfDaySystem.DirectionalLight :=
  TimeOfDaySystem.mkDirectionalLight (THREE.Color_ofHex 0xffffff) 1
                                   THREE.Vector3_zero.

Definition sampleHemisphereLight : TimeOfDaySystem.HemisphereLight :=
  TimeOfDaySystem.mkHemisphereLight (THREE.Color_ofHex 0xffffff)
                                  (THREE.Color_ofHex 0xffffff).

Definition sampleSystem : TimeOfDaySystem.t :=
  TimeOfDaySystem.constructor sampleScene sampleDirectionalLight
                            sampleHemisphereLight.

(** A first-person camera at the origin looking down the negative z axis. *)
Definition sampleCamera : CameraController.t :=
  CameraController.mk THREE.Vector3_zero CameraController.FIRST_PERSON 0 0
                    (1 / 10) (25 / 1000).

(** Length of the horizontal (x, z) displacement from [p] to [p']. *)
Definition horizontalDisplacement (p p' : Player.t) : R :=
  let dx := THREE.x (Player.position p') - THREE.x (Player.position p) in
  let dz := THREE.z (Player.position p') - THREE.z (Player.position p) in
  sqrt (dx * dx + dz * dz).

(** Free fall without ground: height and vertical velocity [m] ticks of
    length [dt] after height [y0] and velocity [v0], under gravity [g]
    (the velocity is updated before the position in each tick). *)
Definition fallV (v0 g dt : R) (m : nat) : R := v0 + INR m * g * dt.

Definition fallY (y0 v0 g dt : R) (m : nat) : R :=
  y0 + INR m * v0 * dt + g * dt * dt * (INR m * (INR m + 1) / 2).

(** Inputs of a frame sequence: the same key set and camera every frame. *)
Definition constantFrames (dt : R) (k : Keys.t) (c : CameraController.t)
    : nat -> Player.Frame :=
  fun _ => Player.mkFrame dt k c.

(** A running clock for concrete runs: the sample system with the cycle
    enabled, set to [time] and to speed [speed]. *)
Definition clockAt (time speed : R) : TimeOfDaySystem.t :=
  TimeOfDaySystem.setTimeSpeed speed
  (TimeOfDaySystem.setEnabled true (TimeOfDaySystem.setTime time sampleSystem)).

(** The orbit rotation the constructor and the reset button set. *)
Definition noTilt : TimeOfDaySystem.OrbitRotation :=
  TimeOfDaySystem.mkOrbitRotation 0 0 0.

(** Key sets for the movement comparisons: forward alone, and forward
    together with right; the other four keys are parameters. *)
Definition forwardKeys (jump up down sprint : bool) : Keys.t :=
  Keys.mk true false false false jump up down sprint.

Definition diagonalKeys (jump up down sprint : bool) : Keys.t :=
  Keys.mk true false false true jump up down sprint.

(** The constructor's player after [setSpeed(-1)]. *)
Definition reversedPlayer : Player.t := Player.setSpeed (-1) Player.constructor.

(** A player standing on the constructor's ground level, grounded and at
    rest, with the constructor's parameters. *)
Definition standingPlayer : Player.t :=
  Player.mk (THREE.mkVector3 0 (30 / 100) 5) THREE.Vector3_zero
          (30 / 100) (60 / 100) (3 / 10) (-1) true (18 / 1000) (35 / 1000)
          (30 / 100) (Player.mkMesh (THREE.mkVector3 0 (30 / 100) 5)
                                    (18 / 1000) false)
          Keys.none.

(** Only the jump key; only the up and down keys. *)
Definition jumpKeys : Keys.t :=
  Keys.mk false false false false true false false false.

Definition upDownKeys : Keys.t :=
  Keys.mk false false false false false true true false.

(** The sample camera switched to free-camera mode. *)
Definition freeCamera : CameraController.t :=
  CameraController.mk THREE.Vector3_zero CameraController.FREE_CAMERA 0 0
                    (1 / 10) (25 / 1000).

(** ** More of the three classes

    The rest of the [TimeOfDaySystem] interface, driven the way
    src/main.js drives it. *)

Module TimeOfDayAPI.

Import TimeOfDaySystem.

(** One call of a state-changing method of the class. *)
Inductive Call : Type :=
| Update (deltaTime : R)
| SetTime (time : R)
| SetTimeSpeed (speed : R)
| SetSunIntensity (intensity : R)
| SetEnabled (en : bool)
| SetOrbitPitch (radians : R)
| SetOrbitYaw (radians : R)
| SetOrbitRoll (radians : R)
| SetOrbitRotation (pitch yaw roll : R).

Definition perform (c : Call) (s : t) : t :=
  match c with
  | Update deltaTime => update deltaTime s
  | SetTime time => setTime time s
  | SetTimeSpeed speed => setTimeSpeed speed s
  | SetSunIntensity intensity => setSunIntensity intensity s
  | SetEnabled en => setEnabled en s
  | SetOrbitPitch radians => setOrbitPitch radians s
  | SetOrbitYaw radians => setOrbitYaw radians s
  | SetOrbitRoll radians => setOrbitRoll radians s
  | SetOrbitRotation pitch yaw roll => setOrbitRotation pitch yaw roll s
  end.

(** The methods that end with [this.updateLighting()]. *)
Definition recomputes (c : Call) : bool :=
  match c with
  | SetTimeSpeed _ | SetEnabled _ => false
  | _ => true
  end.

(** A sequence of calls, oldest first. *)
Fixpoint performAll (cs : list Call) (s : t) : t :=
  match cs with
  | [] => s
  | c :: rest => performAll rest (perform c s)
  end.

End TimeOfDayAPI.

(** A colour whose channels all lie between 0 and 1, and a preset of
    four such colours. *)
Definition Color_in_gamut (c : THREE.Color) : Prop :=
  0 <= THREE.r c <= 1 /\ 0 <= THREE.g c <= 1 /\ 0 <= THREE.b c <= 1.

Definition Preset_in_gamut (p : Preset.t) : Prop :=
  Color_in_gamut (Preset.sky p) /\ Color_in_gamut (Preset.sun p) /\
  Color_in_gamut (Preset.ambient p) /\ Color_in_gamut (Preset.fog p).

(** The clock display: [getTimeString()], which [updateTimeDisplay()] of
    src/main.js repeats line by line for the time label. *)
Module TimeDisplay.

Import String Ascii.

(** [Math.floor] of a number, as an integer. *)
Definition Math_floor (x : R) : Z := Int_part x.

(** [x % 1]: the remainder has the sign of [x]. *)
Definition rem1 (x : R) : R :=
  if x >=? 0 then x - IZR (Int_part x) else x + IZR (Int_part (- x)).

(** [n.toString()] for an integral number (below 10^21 in magnitude, where
    JavaScript prints all digits): decimal digits, a minus sign first for a
    negative one. *)
Definition toString (n : Z) : string :=
  DecimalString.NilZero.string_of_int (Z.to_int n).

(** The first [n] characters of [pad] repeated; [rest] is what is left of
    the current repetition. *)
Fixpoint cycle (n : nat) (pad rest : string) : string :=
  match n with
  | O => EmptyString
  | S k =>
      match rest with
      | String c r => String c (cycle k pad r)
      | EmptyString =>
          match pad with
          | String c r => String c (cycle k pad r)
          | EmptyString => EmptyString
          end
      end
  end.

(** [str.padStart(targetLength, padString)] *)
Definition padStart (targetLength : nat) (padString str : string) : string :=
  if (targetLength <=? length str)%nat then str
  else append (cycle (targetLength - length str) padString padString) str.

(** [getTimeString()].  On doubles [Math.floor] and [% 1] are exact; the
    product by 60 is not, and the rounded product is what is floored.
    [rnd] is that rounding, from the exact product to the double the
    program computes. *)
Definition getTimeString (rnd : R -> R) (s : TimeOfDaySystem.t) : string :=
  let hours := Math_floor (TimeOfDaySystem.timeOfDay s) in
  let minutes := Math_floor (rnd (rem1 (TimeOfDaySystem.timeOfDay s) * 60)) in
  append (padStart 2 "0" (toString hours))
         (append ":" (padStart 2 "0" (toString minutes))).

(** The largest fraction a double below 1 can have, [1 - 2^-53], the
    relative error bound [2^-53] of one rounding, and a bound [2^-47] of
    the rounding error of a product below 60. *)
Definition maxFraction : R := 1 - 1 / 9007199254740992.
Definition unitRoundoff : R := 1 / 9007199254740992.
Definition minuteSlack : R := 1 / 140737488355328.

(** The character of a decimal digit. *)
Definition digit (d : Z) : ascii := ascii_of_nat (48 + Z.to_nat d).

(** The text HH:MM for hours [h] and minutes [m] below 100. *)
Definition clockText (h m : Z) : string :=
  String (digit (h / 10)) (String (digit (h mod 10))
    (String ":" (String (digit (m / 10)) (String (digit (m mod 10))
       EmptyString)))).

End TimeDisplay.

(** ** More of the camera controller and of the frame loop *)

(** Mouse look: the [mousemove] listener of [setupMouseControl], on the
    controller together with the two fields only the listeners use. *)
Module CameraLook.

Record t : Type := mk {
  controller : CameraController.t;
  mouseSensitivity : R;
  isPointerLocked : bool }.

(** The state the constructor builds: sensitivity 0.002, pointer free. *)
Definition constructor (c : CameraController.t) : t := mk c (2 / 1000) false.

Definition pitchMin : R := - PI / 2 + 1 / 10.
Definition pitchMax : R := PI / 2 - 1 / 10.

(** The listener, for a [mousemove] event with the given [movementX] and
    [movementY]. *)
Definition onMouseMove (movementX movementY : R) (m : t) : t :=
  if negb (isPointerLocked m) then m
  else
    let c := controller m in
    let yaw := CameraController.yaw c - movementX * mouseSensitivity m in
    let pitch := CameraController.pitch c - movementY * mouseSensitivity m in
    let pitch := Rmax pitchMin (Rmin pitchMax pitch) in
    mk (CameraController.mk (CameraController.camera_position c)
          (CameraController.currentMode c) yaw pitch
          (CameraController.thirdPersonDistance c)
          (CameraController.thirdPersonHeight c))
       (mouseSensitivity m) (isPointerLocked m).

(** The [pointerlockchange] listener. *)
Definition onPointerLockChange (locked : bool) (m : t) : t :=
  mk (controller m) (mouseSensitivity m) locked.

(** Input events between two frames. *)
Inductive Event : Type :=
| MouseMove (movementX movementY : R)
| PointerLockChange (locked : bool).

Definition handle (e : Event) (m : t) : t :=
  match e with
  | MouseMove dx dy => onMouseMove dx dy m
  | PointerLockChange locked => onPointerLockChange locked m
  end.

Fixpoint handleAll (es : list Event) (m : t) : t :=
  match es with
  | [] => m
  | e :: rest => handleAll rest (handle e m)
  end.

End CameraLook.

(** [CameraController.update(player)]: the camera position it assigns in
    each mode.  (The orientation it also sets, from yaw and pitch or by
    [lookAt], is not part of [CameraController.t].) *)
Module CameraView.

Import THREE.

(** [updateFirstPerson(player)] *)
Definition updateFirstPerson (p : Player.t) (c : CameraController.t)
    : CameraController.t :=
  let pos := Player.position p in
  CameraController.with_camera_position
    (mkVector3 (x pos) (y pos + Player.eyeHeight p) (z pos)) c.

(** [updateThirdPerson(player)] *)
Definition updateThirdPerson (p : Player.t) (c : CameraController.t)
    : CameraController.t :=
  let offset :=
    mkVector3
      (sin (CameraController.yaw c) * CameraController.thirdPersonDistance c)
      (CameraController.thirdPersonHeight c)
      (cos (CameraController.yaw c) * CameraController.thirdPersonDistance c)
  in
  CameraController.with_camera_position (add (Player.position p) offset) c.

(** [updateFreeCamera()] leaves the position alone. *)
Definition updateFreeCamera (c : CameraController.t) : CameraController.t := c.

(** [update(player)] *)
Definition update (p : Player.t) (c : CameraController.t)
    : CameraController.t :=
  match CameraController.currentMode c with
  | CameraController.FIRST_PERSON => updateFirstPerson p c
  | CameraController.THIRD_PERSON => updateThirdPerson p c
  | CameraController.FREE_CAMERA => updateFreeCamera c
  end.

End CameraView.

(** The first two steps of [animate()] in src/main.js:
    [player.update(deltaTime, cameraController)], then
    [cameraController.update(player)], with the keys held at that
    frame. *)
Module Viewer.

Definition step (deltaTime : R) (k : Keys.t)
    (st : Player.t * CameraController.t) : Player.t * CameraController.t :=
  let '(p, c) := st in
  let '(p1, c1) := Player.update deltaTime c (Player.with_keys k p) in
  (p1, CameraView.update p1 c1).

End Viewer.

(** [k] with the sprint key set to [b]. *)
Definition with_sprint (b : bool) (k : Keys.t) : Keys.t :=
  Keys.mk (Keys.forward k) (Keys.backward k) (Keys.left k) (Keys.right k)
          (Keys.jump k) (Keys.up k) (Keys.down k) b.

(** Distance between two points. *)
Definition distance (a b : THREE.Vector3) : R := THREE.length (THREE.sub b a).

(** Dot product. *)
Definition dot (v w : THREE.Vector3) : R :=
  THREE.x v * THREE.x w + THREE.y v * THREE.y w + THREE.z v * THREE.z w.

(** ** The post-processing manager (first class of src/unnamed/part_001)

    The manager keeps the composer's pass list in step with its switches.
    A pass object is created once and reused, so a pass is identified by
    its role. *)
Module PostProcessingManager.

Inductive Pass : Type :=
  RenderPass | BloomPass | SSAOPass | EnhancedPass | GlitchPass.

Definition Pass_eqb (a b : Pass) : bool :=
  match a, b with
  | RenderPass, RenderPass | BloomPass, BloomPass | SSAOPass, SSAOPass
  | EnhancedPass, EnhancedPass | GlitchPass, GlitchPass => true
  | _, _ => false
  end.

(** [GlitchEffect]: its two flags and its uniforms. *)
Record GlitchEffect : Type := mkGlitchEffect {
  isActive : bool;
  autoGlitch : bool;
  u_time : R;
  u_distortion : R;
  u_distortion2 : R;
  u_speed : R;
  u_glitchIntensity : R }.

(** [GlitchEffect.setAutoGlitch(enabled)] *)
Definition setAutoGlitch (en : bool) (g : GlitchEffect) : GlitchEffect :=
  if negb en
  then mkGlitchEffect (isActive g) en (u_time g) 0 0 (u_speed g) 0
  else mkGlitchEffect (isActive g) en (u_time g) (u_distortion g)
                      (u_distortion2 g) (u_speed g) (u_glitchIntensity g).

(** [passes] is [composer.passes]; [bloomPass], [ssaoPass] and
    [glitchPass] tell whether [effectPasses.bloom], [.ssao] and [.glitch]
    have been created ([effectPasses.enhanced] always is). *)
Record t : Type := mk {
  enabled : bool;
  bloomEnabled : bool;
  ssaoEnabled : bool;
  passes : list Pass;
  bloomPass : bool;
  ssaoPass : bool;
  glitchPass : bool;
  glitchEffect : GlitchEffect }.

(** The state the constructor builds: the render pass alone, every switch
    off, the enhanced pass created by [setupEffects]. *)
Definition constructor : t :=
  mk false false false [RenderPass] false false false
     (mkGlitchEffect false false 0 0 0 (2 / 10) 0).

(** [composer.addPass(pass)] appends. *)
Definition addPass (pass : Pass) (ps : list Pass) : list Pass := ps ++ [pass].

(** [composer.removePass(pass)] removes the pass at [indexOf(pass)], if
    any. *)
Fixpoint removePass (pass : Pass) (ps : list Pass) : list Pass :=
  match ps with
  | [] => []
  | q :: rest => if Pass_eqb q pass then rest else q :: removePass pass rest
  end.

(** The loop [while (passes.length > 1) removePass(passes[length - 1])],
    run for at most [fuel] rounds. *)
Fixpoint removeEffectPasses (fuel : nat) (ps : list Pass) : list Pass :=
  match fuel with
  | O => ps
  | S f =>
      if (1 <? length ps)%nat
      then removeEffectPasses f (removePass (last ps RenderPass) ps)
      else ps
  end.

(** [updatePasses()]; the loop gets one round per pass of the list. *)
Definition updatePasses (s : t) : t :=
  let ps := removeEffectPasses (length (passes s)) (passes s) in
  if negb (enabled s)
  then mk (enabled s) (bloomEnabled s) (ssaoEnabled s) ps
          (bloomPass s) (ssaoPass s) (glitchPass s) (glitchEffect s)
  else
    let ps1 := if bloomEnabled s then addPass BloomPass ps else ps in
    let bloom1 := if bloomEnabled s then true else bloomPass s in
    let ps2 := if ssaoEnabled s then addPass SSAOPass ps1 else ps1 in
    let ssao1 := if ssaoEnabled s then true else ssaoPass s in
    let ps3 := addPass EnhancedPass ps2 in
    let ps4 := if isActive (glitchEffect s) then addPass GlitchPass ps3
               else ps3 in
    let glitch1 := if isActive (glitchEffect s) then true else glitchPass s in
    mk (enabled s) (bloomEnabled s) (ssaoEnabled s) ps4
       bloom1 ssao1 glitch1 (glitchEffect s).

(** [setEnabled], [setBloomEnabled], [setSSAOEnabled], [setGlitchEnabled] *)
Definition setEnabled (en : bool) (s : t) : t :=
  updatePasses (mk en (bloomEnabled s) (ssaoEnabled s) (passes s)
                   (bloomPass s) (ssaoPass s) (glitchPass s) (glitchEffect s)).

Definition setBloomEnabled (en : bool) (s : t) : t :=
  updatePasses (mk (enabled s) en (ssaoEnabled s) (passes s)
                   (bloomPass s) (ssaoPass s) (glitchPass s) (glitchEffect s)).

Definition setSSAOEnabled (en : bool) (s : t) : t :=
  updatePasses (mk (enabled s) (bloomEnabled s) en (passes s)
                   (bloomPass s) (ssaoPass s) (glitchPass s) (glitchEffect s)).

Definition setGlitchEnabled (en : bool) (s : t) : t :=
  let g := glitchEffect s in
  let g1 := mkGlitchEffect en (autoGlitch g) (u_time g) (u_distortion g)
              (u_distortion2 g) (u_speed g) (u_glitchIntensity g) in
  updatePasses (mk (enabled s) (bloomEnabled s) (ssaoEnabled s) (passes s)
                   (bloomPass s) (ssaoPass s) (glitchPass s)
                   (setAutoGlitch en g1)).

(** One switch flipped from the settings panel. *)
Inductive Call : Type :=
| SetEnabled (en : bool)
| SetBloomEnabled (en : bool)
| SetSSAOEnabled (en : bool)
| SetGlitchEnabled (en : bool).

Definition perform (c : Call) (s : t) : t :=
  match c with
  | SetEnabled en => setEnabled en s
  | SetBloomEnabled en => setBloomEnabled en s
  | SetSSAOEnabled en => setSSAOEnabled en s
  | SetGlitchEnabled en => setGlitchEnabled en s
  end.

Fixpoint performAll (cs : list Call) (s : t) : t :=
  match cs with
  | [] => s
  | c :: rest => performAll rest (perform c s)
  end.

(** The pass list the switches of [s] call for. *)
Definition chainFor (s : t) : list Pass :=
  RenderPass ::
  (if enabled s
   then (if bloomEnabled s then [BloomPass] else [])
        ++ (if ssaoEnabled s then [SSAOPass] else [])
        ++ [EnhancedPass]
        ++ (if isActive (glitchEffect s) then [GlitchPass] else [])
   else []).

End PostProcessingManager.

(** ** Keyboard input: [Player.setupInput] *)
Module PlayerInput.

Import String.

(** The entries of [this.keys]. *)
Inductive Action : Type :=
  forward | backward | left | right | jump | up | down | sprint.

(** [keyMap[code]]; [None] is [undefined]. *)
Definition keyMap (code : string) : option Action :=
  if String.eqb code "KeyW" then Some forward
  else if String.eqb code "KeyS" then Some backward
  else if String.eqb code "KeyA" then Some left
  else if String.eqb code "KeyD" then Some right
  else if String.eqb code "Space" then Some jump
  else if String.eqb code "KeyQ" then Some down
  else if String.eqb code "KeyE" then Some up
  else if String.eqb code "ShiftLeft" then Some sprint
  else if String.eqb code "ShiftRight" then Some sprint
  else None.

(** [this.keys[action]] and [this.keys[action] = value] *)
Definition getKey (a : Action) (k : Keys.t) : bool :=
  match a with
  | forward => Keys.forward k
  | backward => Keys.backward k
  | left => Keys.left k
  | right => Keys.right k
  | jump => Keys.jump k
  | up => Keys.up k
  | down => Keys.down k
  | sprint => Keys.sprint k
  end.

Definition setKey (a : Action) (v : bool) (k : Keys.t) : Keys.t :=
  match a with
  | forward => Keys.mk v (Keys.backward k) (Keys.left k) (Keys.right k)
                 (Keys.jump k) (Keys.up k) (Keys.down k) (Keys.sprint k)
  | backward => Keys.mk (Keys.forward k) v (Keys.left k) (Keys.right k)
                  (Keys.jump k) (Keys.up k) (Keys.down k) (Keys.sprint k)
  | left => Keys.mk (Keys.forward k) (Keys.backward k) v (Keys.right k)
              (Keys.jump k) (Keys.up k) (Keys.down k) (Keys.sprint k)
  | right => Keys.mk (Keys.forward k) (Keys.backward k) (Keys.left k) v
               (Keys.jump k) (Keys.up k) (Keys.down k) (Keys.sprint k)
  | jump => Keys.mk (Keys.forward k) (Keys.backward k) (Keys.left k)
              (Keys.right k) v (Keys.up k) (Keys.down k) (Keys.sprint k)
  | up => Keys.mk (Keys.forward k) (Keys.backward k) (Keys.left k)
            (Keys.right k) (Keys.jump k) v (Keys.down k) (Keys.sprint k)
  | down => Keys.mk (Keys.forward k) (Keys.backward k) (Keys.left k)
              (Keys.right k) (Keys.jump k) (Keys.up k) v (Keys.sprint k)
  | sprint => Keys.mk (Keys.forward k) (Keys.backward k) (Keys.left k)
                (Keys.right k) (Keys.jump k) (Keys.up k) (Keys.down k) v
  end.

(** A [keydown] ([pressed = true]) or [keyup] event with its [code]. *)
Record KeyEvent : Type := mkKeyEvent { pressed : bool; code : string }.

(** The two listeners. *)
Definition onKey (e : KeyEvent) (k : Keys.t) : Keys.t :=
  match keyMap (code e) with
  | Some a => setKey a (pressed e) k
  | None => k
  end.

Fixpoint onKeys (es : list KeyEvent) (k : Keys.t) : Keys.t :=
  match es with
  | [] => k
  | e :: rest => onKeys rest (onKey e k)
  end.

Definition Action_eqb (a b : Action) : bool :=
  match a, b with
  | forward, forward | backward, backward | left, left | right, right
  | jump, jump | up, up | down, down | sprint, sprint => true
  | _, _ => false
  end.

(** What the most recent event for action [a] in [es] did, starting from
    [before]. *)
Fixpoint lastFor (a : Action) (es : list KeyEvent) (before : bool) : bool :=
  match es with
  | [] => before
  | e :: rest =>
      match keyMap (code e) with
      | Some b => lastFor a rest (if Action_eqb b a then pressed e else before)
      | None => lastFor a rest before
      end
  end.

Definition keyDown (c : string) : KeyEvent := mkKeyEvent true c.
Definition keyUp (c : string) : KeyEvent := mkKeyEvent false c.

Definition shiftLeft : string := "ShiftLeft".
Definition shiftRight : string := "ShiftRight".

End PlayerInput.

(** ** The settings of the path-tracing renderer (src/PathTracer.js) *)
Module PathTracingRenderer.

(** The fields of the library's path tracer that the renderer writes, and
    its sample counter, which [reset()] clears. *)
Record WebGLPathTracer : Type := mkWebGLPathTracer {
  pt_bounces : R;
  pt_transmissiveBounces : R;
  pt_renderScale : R;
  pt_filterGlossyFactor : R;
  pt_tilesX : R;
  pt_tilesY : R;
  pt_samples : nat }.

(** [pathTracer] is [None] while [this.pathTracer] is null. *)
Record t : Type := mk {
  renderScale : R;
  bounces : R;
  transmissiveBounces : R;
  filterGlossyFactor : R;
  tilesX : R;
  tilesY : R;
  pathTracer : option WebGLPathTracer }.

(** The settings the constructor chooses, before any path tracer
    exists. *)
Definition constructor : t := mk 1 5 10 (1 / 2) 2 2 None.

(** [updateSettings()] *)
Definition updateSettings (s : t) : t :=
  match pathTracer s with
  | None => s
  | Some pt =>
      mk (renderScale s) (bounces s) (transmissiveBounces s)
         (filterGlossyFactor s) (tilesX s) (tilesY s)
         (Some (mkWebGLPathTracer (bounces s) (transmissiveBounces s)
                  (renderScale s) (filterGlossyFactor s)
                  (pt_tilesX pt) (pt_tilesY pt) (pt_samples pt)))
  end.

(** [reset()] *)
Definition reset (s : t) : t :=
  match pathTracer s with
  | None => s
  | Some pt =>
      mk (renderScale s) (bounces s) (transmissiveBounces s)
         (filterGlossyFactor s) (tilesX s) (tilesY s)
         (Some (mkWebGLPathTracer (pt_bounces pt) (pt_transmissiveBounces pt)
                  (pt_renderScale pt) (pt_filterGlossyFactor pt)
                  (pt_tilesX pt) (pt_tilesY pt) 0))
  end.

(** [setRenderScale(scale)] *)
Definition setRenderScale (scale : R) (s : t) : t :=
  reset (updateSettings
    (mk (Rmax (1 / 10) (Rmin 1 scale)) (bounces s) (transmissiveBounces s)
        (filterGlossyFactor s) (tilesX s) (tilesY s) (pathTracer s))).

(** [setBounces(bounces)] *)
Definition setBounces (b : R) (s : t) : t :=
  reset (updateSettings
    (mk (renderScale s) (Rmax 1 (Rmin 20 b)) (transmissiveBounces s)
        (filterGlossyFactor s) (tilesX s) (tilesY s) (pathTracer s))).

(** [setTransmissiveBounces(bounces)] *)
Definition setTransmissiveBounces (b : R) (s : t) : t :=
  reset (updateSettings
    (mk (renderScale s) (bounces s) (Rmax 1 (Rmin 20 b))
        (filterGlossyFactor s) (tilesX s) (tilesY s) (pathTracer s))).

(** [setTiles(x, y)] *)
Definition setTiles (tx ty : R) (s : t) : t :=
  match pathTracer s with
  | None =>
      mk (renderScale s) (bounces s) (transmissiveBounces s)
         (filterGlossyFactor s) tx ty None
  | Some pt =>
      reset (mk (renderScale s) (bounces s) (transmissiveBounces s)
                (filterGlossyFactor s) tx ty
                (Some (mkWebGLPathTracer (pt_bounces pt)
                         (pt_transmissiveBounces pt) (pt_renderScale pt)
                         (pt_filterGlossyFactor pt) tx ty (pt_samples pt))))
  end.

(** [setFilterGlossyFactor(factor)]: no [reset()] here. *)
Definition setFilterGlossyFactor (factor : R) (s : t) : t :=
  updateSettings
    (mk (renderScale s) (bounces s) (transmissiveBounces s)
        (Rmax 0 (Rmin 1 factor)) (tilesX s) (tilesY s) (pathTracer s)).

Inductive Call : Type :=
| SetRenderScale (scale : R)
| SetBounces (b : R)
| SetTransmissiveBounces (b : R)
| SetTiles (tx ty : R)
| SetFilterGlossyFactor (factor : R).

Definition perform (c : Call) (s : t) : t :=
  match c with
  | SetRenderScale scale => setRenderScale scale s
  | SetBounces b => setBounces b s
  | SetTransmissiveBounces b => setTransmissiveBounces b s
  | SetTiles tx ty => setTiles tx ty s
  | SetFilterGlossyFactor factor => setFilterGlossyFactor factor s
  end.

Fixpoint performAll (cs : list Call) (s : t) : t :=
  match cs with
  | [] => s
  | c :: rest => performAll rest (perform c s)
  end.

(** The four clamped settings are inside their ranges. *)
Definition InRange (s : t) : Prop :=
  1 / 10 <= renderScale s <= 1 /\
  1 <= bounces s <= 20 /\
  1 <= transmissiveBounces s <= 20 /\
  0 <= filterGlossyFactor s <= 1.

End PathTracingRenderer.

(** The path tracer, when there is one, carries the renderer's settings. *)
Definition PathTracerSynced (s : PathTracingRenderer.t) : Prop :=
  match PathTracingRenderer.pathTracer s with
  | None => True
  | Some pt =>
      PathTracingRenderer.pt_bounces pt = PathTracingRenderer.bounces s /\
      PathTracingRenderer.pt_transmissiveBounces pt
        = PathTracingRenderer.transmissiveBounces s /\
      PathTracingRenderer.pt_renderScale pt
        = PathTracingRenderer.renderScale s /\
      PathTracingRenderer.pt_filterGlossyFactor pt
        = PathTracingRenderer.filterGlossyFactor s /\
      PathTracingRenderer.pt_tilesX pt = PathTracingRenderer.tilesX s /\
      PathTracingRenderer.pt_tilesY pt = PathTracingRenderer.tilesY s
  end.

(** The sample count of the path tracer, 0 when there is none (the
    [samples] getter). *)
Definition samplesOf (s : PathTracingRenderer.t) : nat :=
  match PathTracingRenderer.pathTracer s with
  | None => O
  | Some pt => PathTracingRenderer.pt_samples pt
  end.

(** The sample camera switched to third-person mode. *)
Definition thirdPersonCamera : CameraController.t :=
  CameraController.mk THREE.Vector3_zero CameraController.THIRD_PERSON 0 0
                      (1 / 10) (25 / 1000).

(** The sample camera's mouse look with the pointer locked. *)
Definition lockedLook : CameraLook.t :=
  CameraLook.onPointerLockChange true (CameraLook.constructor sampleCamera).

(** Two colours, or two presets, differ by at most [eps] on every
    channel. *)
Definition Color_near (eps : R) (c d : THREE.Color) : Prop :=
  Rabs (THREE.r c - THREE.r d) <= eps /\
  Rabs (THREE.g c - THREE.g d) <= eps /\
  Rabs (THREE.b c - THREE.b d) <= eps.

Definition Preset_near (eps : R) (p q : Preset.t) : Prop :=
  Color_near eps (Preset.sky p) (Preset.sky q) /\
  Color_near eps (Preset.sun p) (Preset.sun q) /\
  Color_near eps (Preset.ambient p) (Preset.ambient q) /\
  Color_near eps (Preset.fog p) (Preset.fog q) /\
  Rabs (Preset.sunIntensity p - Preset.sunIntensity q) <= eps.

(** The manager after post-processing, bloom and SSAO have been switched
    on: four passes. *)
Definition fullManager : PostProcessingManager.t :=
  PostProcessingManager.setSSAOEnabled true
    (PostProcessingManager.setBloomEnabled true
       (PostProcessingManager.setEnabled true
          PostProcessingManager.constructor)).

(** A path tracer that carries the constructor's settings, 7 samples
    in. *)
Definition tracingRenderer : PathTracingRenderer.t :=
  PathTracingRenderer.mk 1 5 10 (1 / 2) 2 2
    (Some (PathTracingRenderer.mkWebGLPathTracer 5 10 1 (1 / 2) 2 2 7)).

(** ** The class without orbit controls

    src/TimeOfDay.js holds a second copy of [TimeOfDaySystem], the one from
    before the orbit controls: no [orbitRotation] field and none of its
    setters, the same constructor values, presets, [getColorsForTime],
    [lerpColors] and clock, and its own [updateSunPosition].  It is modelled
    on the same record; the [orbitRotation] field is carried along and
    never read. *)
Module FixedOrbit.

Import THREE TimeOfDaySystem.

(** The sun position computed at the start of [updateSunPosition(time)]. *)
Definition sunPosition (time : R) : Vector3 :=
  let sunAngle := ((time - 6) / 12) * PI in
  let x := cos sunAngle * sunDistance in
  let y := sin sunAngle * sunDistance in
  let z := sunDistance * (5 / 10) in
  mkVector3 x y z.

(** [updateSunPosition(time)] *)
Definition updateSunPosition (time : R) (s : t) : t :=
  let position := sunPosition time in
  let dl := directionalLight s in
  let colors := getColorsForTime time in
  {| scene := scene s;
     directionalLight :=
       mkDirectionalLight (light_color dl) (intensity dl) position;
     hemisphereLight := hemisphereLight s;
     timeOfDay := timeOfDay s;
     timeSpeed := timeSpeed s;
     enabled := enabled s;
     sunIntensity := sunIntensity s;
     orbitRotation := orbitRotation s;
     sunMesh :=
       mkSunMesh position (Preset.sun colors) (y position >? 0) |}.

(** [updateLighting()] *)
Definition updateLighting (s : t) : t :=
  let colors := getColorsForTime (timeOfDay s) in
  let sc := scene s in
  let s1 :=
    {| scene :=
         mkScene (Preset.sky colors)
                 (match scene_fog sc with
                  | Some _ => Some (Preset.fog colors)
                  | None => None
                  end);
       directionalLight :=
         mkDirectionalLight (Preset.sun colors)
                            (Preset.sunIntensity colors * sunIntensity s)
                            (light_position (directionalLight s));
       hemisphereLight :=
         mkHemisphereLight (Preset.sky colors) (Preset.ambient colors);
       timeOfDay := timeOfDay s;
       timeSpeed := timeSpeed s;
       enabled := enabled s;
       sunIntensity := sunIntensity s;
       orbitRotation := orbitRotation s;
       sunMesh := sunMesh s |} in
  updateSunPosition (timeOfDay s1) s1.

(** [update(deltaTime)] *)
Definition update (deltaTime : R) (s : t) : t :=
  let s1 :=
    if enabled s then
      let s' :=
        with_timeOfDay (timeOfDay s + (deltaTime * timeSpeed s) / 3600) s in
      if timeOfDay s' >=? 24 then with_timeOfDay (timeOfDay s' - 24) s'
      else s'
    else s in
  updateLighting s1.

End FixedOrbit.

(** ** The sun on the horizon: [Math.PI] as the program has it

    [Math.PI] is not the number pi but the double nearest to it,
    884279719003555 / 2^48, a little less than pi.  Read as pi (as
    [TimeOfDaySystem.sunPosition] does) it moves the sun by less than
    10^-14, but it decides the sign of the sun's height where the ideal
    height is exactly zero: at 18:00 the program computes
    [Math.sin(Math.PI) * 50], which is positive.  [updateSunPosition] is
    therefore given a second time, with [Math.PI] as the double; sine,
    cosine and the arithmetic stay exact. *)
Module AsComputed.

Import THREE TimeOfDaySystem.

Definition Math_PI : R := 884279719003555 / 281474976710656.

(** The rotated sun position computed at the start of
    [updateSunPosition(time)]. *)
Definition sunPosition (orbit : OrbitRotation) (time : R) : Vector3 :=
  let sunAngle := ((time - 6) / 12) * Math_PI in
  let x := cos sunAngle * sunDistance in
  let y := sin sunAngle * sunDistance in
  let z := 0 in
  let position := mkVector3 x y z in
  let euler := mkEuler (orbit_x orbit) (orbit_y orbit) (orbit_z orbit) XYZ in
  let rotationMatrix := makeRotationFromEuler euler in
  applyMatrix4 position rotationMatrix.

(** [updateSunPosition(time)] *)
Definition updateSunPosition (time : R) (s : t) : t :=
  let position := sunPosition (orbitRotation s) time in
  let dl := directionalLight s in
  let colors := getColorsForTime time in
  {| scene := scene s;
     directionalLight :=
       mkDirectionalLight (light_color dl) (intensity dl) position;
     hemisphereLight := hemisphereLight s;
     timeOfDay := timeOfDay s;
     timeSpeed := timeSpeed s;
     enabled := enabled s;
     sunIntensity := sunIntensity s;
     orbitRotation := orbitRotation s;
     sunMesh :=
       mkSunMesh position (Preset.sun colors) (y position >? 0) |}.


End AsComputed.



(** * Properties *)

(** ** Comparisons *)

Lemma Rgeb_true : forall x y : R, x >= y -> (x >=? y) = true.
Proof. intros x y H. unfold Rgeb. destruct (Rge_dec x y); [reflexivity | contradiction]. Qed.

Lemma Rgeb_false : forall x y : R, x < y -> (x >=? y) = false.
Proof. intros x y H. unfold Rgeb. destruct (Rge_dec x y); [lra | reflexivity]. Qed.

Lemma Rltb_true : forall x y : R, x < y -> (x <? y) = true.
Proof. intros x y H. unfold Rltb. destruct (Rlt_dec x y); [reflexivity | contradiction]. Qed.

Lemma Rltb_false : forall x y : R, x >= y -> (x <? y) = false.
Proof. intros x y H. unfold Rltb. destruct (Rlt_dec x y); [lra | reflexivity]. Qed.

Lemma Rgtb_true : forall x y : R, x > y -> (x >? y) = true.
Proof. intros x y H. unfold Rgtb. destruct (Rgt_dec x y); [reflexivity | contradiction]. Qed.

Lemma Rgtb_false : forall x y : R, x <= y -> (x >? y) = false.
Proof. intros x y H. unfold Rgtb. destruct (Rgt_dec x y); [lra | reflexivity]. Qed.

Lemma Rleb_true : forall x y : R, x <= y -> (x <=? y) = true.
Proof. intros x y H. unfold Rleb. destruct (Rle_dec x y); [reflexivity | contradiction]. Qed.

Lemma Rleb_false : forall x y : R, x > y -> (x <=? y) = false.
Proof. intros x y H. unfold Rleb. destruct (Rle_dec x y); [lra | reflexivity]. Qed.


(** Settle every comparison of the goal whose outcome follows linearly
    from the context. *)
Ltac js_cmp :=
  repeat (first
    [ rewrite Rgeb_true by lra | rewrite Rgeb_false by lra
    | rewrite Rltb_true by lra | rewrite Rltb_false by lra
    | rewrite Rgtb_true by lra | rewrite Rgtb_false by lra
    | rewrite Rleb_true by lra | rewrite Rleb_false by lra ]);
  cbn [andb orb negb].

(** Turn the bytes of a hexadecimal colour into numerals. *)
Ltac eval_hex :=
  cbv [THREE.Color_ofHex];
  repeat match goal with
  | |- context [IZR ?n] =>
      lazymatch n with
      | Z.land _ _ => let v := eval vm_compute in n in change n with v
      end
  end.

(** ** Interpolation *)

Lemma Color_lerpColors_0 : forall c1 c2 : THREE.Color,
  THREE.Color_lerpColors c1 c2 0 = c1.
Proof.
  intros [r1 g1 b1] [r2 g2 b2]. unfold THREE.Color_lerpColors. cbn.
  f_equal; ring.
Qed.

Lemma Color_lerpColors_1 : forall c1 c2 : THREE.Color,
  THREE.Color_lerpColors c1 c2 1 = c2.
Proof.
  intros [r1 g1 b1] [r2 g2 b2]. unfold THREE.Color_lerpColors. cbn.
  f_equal; ring.
Qed.

Lemma lerpColors_0 : forall p q : Preset.t,
  TimeOfDaySystem.lerpColors p q 0 = p.
Proof.
  intros [a1 b1 c1 d1 i1] [a2 b2 c2 d2 i2].
  unfold TimeOfDaySystem.lerpColors. cbn.
  rewrite !Color_lerpColors_0. f_equal. unfold THREE.MathUtils_lerp. ring.
Qed.

Lemma lerpColors_1 : forall p q : Preset.t,
  TimeOfDaySystem.lerpColors p q 1 = q.
Proof.
  intros [a1 b1 c1 d1 i1] [a2 b2 c2 d2 i2].
  unfold TimeOfDaySystem.lerpColors. cbn.
  rewrite !Color_lerpColors_1. f_equal. unfold THREE.MathUtils_lerp. ring.
Qed.

(** ** [getColorsForTime] on each of its nine intervals *)

Section Intervals.

Import TimeOfDaySystem.

Variable time : R.

Lemma colors_0_5 : 0 <= time < 5 -> getColorsForTime time = night.
Proof. intros H. unfold getColorsForTime. js_cmp. reflexivity. Qed.

Lemma colors_5_7 : 5 <= time < 7 ->
  getColorsForTime time = lerpColors night dawn ((time - 5) / 2).
Proof. intros H. unfold getColorsForTime. js_cmp. reflexivity. Qed.

Lemma colors_7_9 : 7 <= time < 9 ->
  getColorsForTime time = lerpColors dawn morning ((time - 7) / 2).
Proof. intros H. unfold getColorsForTime. js_cmp. reflexivity. Qed.

Lemma colors_9_11 : 9 <= time < 11 ->
  getColorsForTime time = lerpColors morning noon ((time - 9) / 2).
Proof. intros H. unfold getColorsForTime. js_cmp. reflexivity. Qed.

Lemma colors_11_15 : 11 <= time < 15 -> getColorsForTime time = noon.
Proof. intros H. unfold getColorsForTime. js_cmp. reflexivity. Qed.

Lemma colors_15_17 : 15 <= time < 17 ->
  getColorsForTime time = lerpColors noon afternoon ((time - 15) / 2).
Proof. intros H. unfold getColorsForTime. js_cmp. reflexivity. Qed.

Lemma colors_17_19 : 17 <= time < 19 ->
  getColorsForTime time = lerpColors afternoon dusk ((time - 17) / 2).
Proof. intros H. unfold getColorsForTime. js_cmp. reflexivity. Qed.

Lemma colors_19_21 : 19 <= time < 21 ->
  getColorsForTime time = lerpColors dusk evening ((time - 19) / 2).
Proof. intros H. unfold getColorsForTime. js_cmp. reflexivity. Qed.

(** The last branch is an [else]: it also takes every time below 0 and
    every time from 24 on. *)
Lemma colors_else : time < 0 \/ 21 <= time ->
  getColorsForTime time = lerpColors evening night ((time - 21) / 3).
Proof.
  intros [H | H]; unfold getColorsForTime; js_cmp; reflexivity.
Qed.

End Intervals.

(** ** Colour management: every stored channel lies between 0 and 1 *)

Lemma SRGBToLinear_gamut : forall c : R,
  0 <= c <= 1 -> 0 <= THREE.SRGBToLinear c <= 1.
Proof.
  intros c Hc. unfold THREE.SRGBToLinear.
  destruct (Rlt_dec c (4045 / 100000)) as [Hlow | Hhigh].
  - rewrite Rltb_true by exact Hlow. lra.
  - rewrite Rltb_false by lra. split.
    + left. unfold Rpower. apply exp_pos.
    + assert (H1 : Rpower 1 (24 / 10) = 1).
      { unfold Rpower. rewrite ln_1, Rmult_0_r. apply exp_0. }
      apply Rle_trans with (Rpower 1 (24 / 10));
        [apply Rle_Rpower_l; lra | rewrite H1; lra].
Qed.

Lemma byte_channel_range : forall n : Z, 0 <= IZR (Z.land n 255) / 255 <= 1.
Proof.
  intros n.
  assert (E : Z.land n 255 = (n mod 256)%Z).
  { change 255%Z with (Z.ones 8). rewrite Z.land_ones by lia. reflexivity. }
  rewrite E.
  destruct (Z.mod_pos_bound n 256 ltac:(lia)) as [H0 H1].
  apply IZR_le in H0.
  assert (H2 : IZR (n mod 256) <= 255) by (apply IZR_le; lia).
  lra.
Qed.

Lemma Color_ofHex_gamut : forall hex : Z,
  Color_in_gamut (THREE.Color_ofHex hex).
Proof.
  intros hex. unfold Color_in_gamut, THREE.Color_ofHex.
  cbn [THREE.r THREE.g THREE.b].
  split; [| split]; apply SRGBToLinear_gamut; apply byte_channel_range.
Qed.

Lemma Preset_ofHex_gamut : forall (sky sun ambient fog : Z) (i : R),
  Preset_in_gamut
    (Preset.mk (THREE.Color_ofHex sky) (THREE.Color_ofHex sun)
               (THREE.Color_ofHex ambient) (THREE.Color_ofHex fog) i).
Proof.
  intros. unfold Preset_in_gamut.
  cbn [Preset.sky Preset.sun Preset.ambient Preset.fog].
  split; [| split; [| split]]; apply Color_ofHex_gamut.
Qed.

(** ** Interpolated values *)

(** A channel interpolated between two values of [0, 1] stays there and
    moves by at most the change of the fraction. *)
Lemma channel_lerp_gamut : forall a b s : R,
  0 <= a <= 1 -> 0 <= b <= 1 -> 0 <= s <= 1 -> 0 <= a + (b - a) * s <= 1.
Proof.
  intros a b s Ha Hb Hs.
  replace (a + (b - a) * s) with (a * (1 - s) + b * s) by ring.
  assert (0 <= a * (1 - s)) by (apply Rmult_le_pos; lra).
  assert (0 <= b * s) by (apply Rmult_le_pos; lra).
  assert (0 <= (1 - a) * (1 - s)) by (apply Rmult_le_pos; lra).
  assert (0 <= (1 - b) * s) by (apply Rmult_le_pos; lra).
  lra.
Qed.

Lemma scaled_step : forall d u : R, Rabs d <= 1 -> Rabs (d * u) <= Rabs u.
Proof.
  intros d u Hd. rewrite Rabs_mult.
  pose proof (Rabs_pos u) as Hu.
  assert (0 <= (1 - Rabs d) * Rabs u) by (apply Rmult_le_pos; lra).
  lra.
Qed.

Lemma channel_lerp_near : forall a b s s' : R,
  0 <= a <= 1 -> 0 <= b <= 1 ->
  Rabs (a + (b - a) * s - (a + (b - a) * s')) <= Rabs (s - s').
Proof.
  intros a b s s' Ha Hb.
  replace (a + (b - a) * s - (a + (b - a) * s')) with ((b - a) * (s - s'))
    by ring.
  apply scaled_step. apply Rabs_le. lra.
Qed.

Lemma Color_lerpColors_gamut : forall (c1 c2 : THREE.Color) (s : R),
  Color_in_gamut c1 -> Color_in_gamut c2 -> 0 <= s <= 1 ->
  Color_in_gamut (THREE.Color_lerpColors c1 c2 s).
Proof.
  intros c1 c2 s (R1 & G1 & B1) (R2 & G2 & B2) Hs.
  unfold Color_in_gamut, THREE.Color_lerpColors.
  cbn [THREE.r THREE.g THREE.b].
  split; [| split]; apply channel_lerp_gamut; assumption.
Qed.

Lemma Color_lerpColors_near : forall (c1 c2 : THREE.Color) (s s' : R),
  Color_in_gamut c1 -> Color_in_gamut c2 ->
  Color_near (Rabs (s - s'))
    (THREE.Color_lerpColors c1 c2 s) (THREE.Color_lerpColors c1 c2 s').
Proof.
  intros c1 c2 s s' (R1 & G1 & B1) (R2 & G2 & B2).
  unfold Color_near, THREE.Color_lerpColors.
  cbn [THREE.r THREE.g THREE.b].
  split; [| split]; apply channel_lerp_near; assumption.
Qed.

Lemma lerpColors_gamut : forall (p q : Preset.t) (s : R),
  Preset_in_gamut p -> Preset_in_gamut q -> 0 <= s <= 1 ->
  Preset_in_gamut (TimeOfDaySystem.lerpColors p q s).
Proof.
  intros p q s (P1 & P2 & P3 & P4) (Q1 & Q2 & Q3 & Q4) Hs.
  unfold Preset_in_gamut, TimeOfDaySystem.lerpColors.
  cbn [Preset.sky Preset.sun Preset.ambient Preset.fog].
  split; [| split; [| split]]; apply Color_lerpColors_gamut; assumption.
Qed.

(** The interpolated intensity stays between two bounds of both ends. *)
Lemma lerp_between : forall lo hi x y s : R,
  lo <= x <= hi -> lo <= y <= hi -> 0 <= s <= 1 ->
  lo <= THREE.MathUtils_lerp x y s <= hi.
Proof.
  intros lo hi x y s Hx Hy Hs. unfold THREE.MathUtils_lerp.
  assert (0 <= (1 - s) * (x - lo)) by (apply Rmult_le_pos; lra).
  assert (0 <= s * (y - lo)) by (apply Rmult_le_pos; lra).
  assert (0 <= (1 - s) * (hi - x)) by (apply Rmult_le_pos; lra).
  assert (0 <= s * (hi - y)) by (apply Rmult_le_pos; lra).
  lra.
Qed.

(** Two presets of an interpolation between presets in gamut, with
    intensities at most 1 apart, differ by at most the difference of the
    fractions. *)
Lemma lerpColors_near : forall (p q : Preset.t) (s s' : R),
  Preset_in_gamut p -> Preset_in_gamut q ->
  Rabs (Preset.sunIntensity q - Preset.sunIntensity p) <= 1 ->
  Preset_near (Rabs (s - s'))
    (TimeOfDaySystem.lerpColors p q s) (TimeOfDaySystem.lerpColors p q s').
Proof.
  intros p q s s' (P1 & P2 & P3 & P4) (Q1 & Q2 & Q3 & Q4) Hi.
  unfold Preset_near, TimeOfDaySystem.lerpColors.
  cbn [Preset.sky Preset.sun Preset.ambient Preset.fog Preset.sunIntensity].
  split; [| split; [| split; [| split]]];
    try (apply Color_lerpColors_near; assumption).
  unfold THREE.MathUtils_lerp.
  replace ((1 - s) * Preset.sunIntensity p + s * Preset.sunIntensity q
           - ((1 - s') * Preset.sunIntensity p + s' * Preset.sunIntensity q))
    with ((Preset.sunIntensity q - Preset.sunIntensity p) * (s - s'))
    by ring.
  apply scaled_step. exact Hi.
Qed.

(** ** Distances between presets *)

Lemma Color_near_refl : forall (eps : R) (c : THREE.Color),
  0 <= eps -> Color_near eps c c.
Proof.
  intros eps c Heps. unfold Color_near.
  rewrite !Rminus_diag, Rabs_R0. repeat split; exact Heps.
Qed.

Lemma Preset_near_refl : forall (eps : R) (p : Preset.t),
  0 <= eps -> Preset_near eps p p.
Proof.
  intros eps p Heps. unfold Preset_near.
  rewrite Rminus_diag, Rabs_R0.
  repeat (split; [apply Color_near_refl; exact Heps |]). exact Heps.
Qed.

Lemma Color_near_sym : forall (eps : R) (c d : THREE.Color),
  Color_near eps c d -> Color_near eps d c.
Proof.
  intros eps c d (H1 & H2 & H3). unfold Color_near.
  rewrite (Rabs_minus_sym (THREE.r d)), (Rabs_minus_sym (THREE.g d)),
    (Rabs_minus_sym (THREE.b d)).
  repeat split; assumption.
Qed.

Lemma Preset_near_sym : forall (eps : R) (p q : Preset.t),
  Preset_near eps p q -> Preset_near eps q p.
Proof.
  intros eps p q (H1 & H2 & H3 & H4 & H5). unfold Preset_near.
  rewrite (Rabs_minus_sym (Preset.sunIntensity q)).
  repeat split; try apply Color_near_sym; assumption.
Qed.

Lemma Color_near_weaken : forall (d e : R) (c c' : THREE.Color),
  d <= e -> Color_near d c c' -> Color_near e c c'.
Proof.
  intros d e c c' Hle (H1 & H2 & H3). unfold Color_near.
  repeat split; lra.
Qed.

Lemma Preset_near_weaken : forall (d e : R) (p q : Preset.t),
  d <= e -> Preset_near d p q -> Preset_near e p q.
Proof.
  intros d e p q Hle (H1 & H2 & H3 & H4 & H5). unfold Preset_near.
  split; [apply (Color_near_weaken d); assumption |].
  split; [apply (Color_near_weaken d); assumption |].
  split; [apply (Color_near_weaken d); assumption |].
  split; [apply (Color_near_weaken d); assumption |].
  lra.
Qed.

Lemma step_triangle : forall a b c d e : R,
  Rabs (a - b) <= d -> Rabs (b - c) <= e -> Rabs (a - c) <= d + e.
Proof.
  intros a b c d e H1 H2.
  replace (a - c) with ((a - b) + (b - c)) by ring.
  pose proof (Rabs_triang (a - b) (b - c)). lra.
Qed.

Lemma Color_near_trans : forall (d e : R) (c1 c2 c3 : THREE.Color),
  Color_near d c1 c2 -> Color_near e c2 c3 -> Color_near (d + e) c1 c3.
Proof.
  intros d e c1 c2 c3 (H1 & H2 & H3) (K1 & K2 & K3). unfold Color_near.
  split; [| split]; eapply step_triangle; eassumption.
Qed.

Lemma Preset_near_trans : forall (d e : R) (p q r : Preset.t),
  Preset_near d p q -> Preset_near e q r -> Preset_near (d + e) p r.
Proof.
  intros d e p q r (H1 & H2 & H3 & H4 & H5) (K1 & K2 & K3 & K4 & K5).
  unfold Preset_near.
  split; [eapply Color_near_trans; eassumption |].
  split; [eapply Color_near_trans; eassumption |].
  split; [eapply Color_near_trans; eassumption |].
  split; [eapply Color_near_trans; eassumption |].
  eapply step_triangle; eassumption.
Qed.

Lemma Color_near_within : forall (d eps : R) (c c' : THREE.Color),
  d < eps -> Color_near d c c' -> Color_within eps c c'.
Proof.
  intros d eps c c' Hlt (H1 & H2 & H3). unfold Color_within.
  repeat split; lra.
Qed.

Lemma Preset_near_within : forall (d eps : R) (p q : Preset.t),
  d < eps -> Preset_near d p q -> Preset_within eps p q.
Proof.
  intros d eps p q Hlt (H1 & H2 & H3 & H4 & H5). unfold Preset_within.
  split; [apply (Color_near_within d); assumption |].
  split; [apply (Color_near_within d); assumption |].
  split; [apply (Color_near_within d); assumption |].
  split; [apply (Color_near_within d); assumption |].
  lra.
Qed.

(** ** The colour curve, piece by piece *)

(** Unfold presets and interpolation down to arithmetic; the colour
    channels stay folded, the intensities become numerals. *)
Ltac preset_arith :=
  cbv [Preset_within Color_within
       TimeOfDaySystem.lerpColors THREE.Color_lerpColors THREE.MathUtils_lerp
       Preset.sky Preset.sun Preset.ambient Preset.fog Preset.sunIntensity
       THREE.r THREE.g THREE.b
       TimeOfDaySystem.night TimeOfDaySystem.dawn TimeOfDaySystem.morning
       TimeOfDaySystem.noon TimeOfDaySystem.afternoon TimeOfDaySystem.dusk
       TimeOfDaySystem.evening];
  eval_hex.

(** The value at each boundary is the starting preset of the interval
    that begins there. *)
Lemma colors_at_boundaries :
  TimeOfDaySystem.getColorsForTime 5 = TimeOfDaySystem.night /\
  TimeOfDaySystem.getColorsForTime 7 = TimeOfDaySystem.dawn /\
  TimeOfDaySystem.getColorsForTime 9 = TimeOfDaySystem.morning /\
  TimeOfDaySystem.getColorsForTime 11 = TimeOfDaySystem.noon /\
  TimeOfDaySystem.getColorsForTime 15 = TimeOfDaySystem.noon /\
  TimeOfDaySystem.getColorsForTime 17 = TimeOfDaySystem.afternoon /\
  TimeOfDaySystem.getColorsForTime 19 = TimeOfDaySystem.dusk /\
  TimeOfDaySystem.getColorsForTime 21 = TimeOfDaySystem.evening.
Proof.
  repeat split.
  - rewrite colors_5_7 by lra. replace ((5 - 5) / 2) with 0 by lra.
    apply lerpColors_0.
  - rewrite colors_7_9 by lra. replace ((7 - 7) / 2) with 0 by lra.
    apply lerpColors_0.
  - rewrite colors_9_11 by lra. replace ((9 - 9) / 2) with 0 by lra.
    apply lerpColors_0.
  - apply colors_11_15. lra.
  - rewrite colors_15_17 by lra. replace ((15 - 15) / 2) with 0 by lra.
    apply lerpColors_0.
  - rewrite colors_17_19 by lra. replace ((17 - 17) / 2) with 0 by lra.
    apply lerpColors_0.
  - rewrite colors_19_21 by lra. replace ((19 - 19) / 2) with 0 by lra.
    apply lerpColors_0.
  - rewrite colors_else by lra. replace ((21 - 21) / 3) with 0 by lra.
    apply lerpColors_0.
Qed.

(** On a closed interval [[lo, hi]] where the curve is the interpolation
    from [p] to [q] over a width [w] of at least two hours, two values
    differ by at most half the time between them. *)
Lemma lerp_piece_lipschitz :
  forall (p q : Preset.t) (lo hi w : R),
    2 <= w ->
    Preset_in_gamut p -> Preset_in_gamut q ->
    Rabs (Preset.sunIntensity q - Preset.sunIntensity p) <= 1 ->
    (forall t, lo <= t <= hi ->
       TimeOfDaySystem.getColorsForTime t
       = TimeOfDaySystem.lerpColors p q ((t - lo) / w)) ->
    forall s t : R, lo <= s -> s <= t -> t <= hi ->
      Preset_near ((t - s) / 2)
        (TimeOfDaySystem.getColorsForTime s)
        (TimeOfDaySystem.getColorsForTime t).
Proof.
  intros p q lo hi w Hw Hp Hq Hi Hf s t Hs Hst Ht.
  rewrite (Hf s) by lra. rewrite (Hf t) by lra.
  apply (Preset_near_weaken (Rabs ((s - lo) / w - (t - lo) / w))).
  - replace ((s - lo) / w - (t - lo) / w) with (- ((t - s) / w))
      by (field; lra).
    rewrite Rabs_Ropp.
    assert (Hinv : / w <= / 2) by (apply Rinv_le_contravar; lra).
    assert (Hpos : 0 <= (t - s) * (/ 2 - / w))
      by (apply Rmult_le_pos; lra).
    assert (0 <= (t - s) / w).
    { apply Rmult_le_pos; [lra |]. left. apply Rinv_0_lt_compat. lra. }
    rewrite Rabs_pos_eq by assumption.
    unfold Rdiv. lra.
  - apply lerpColors_near; assumption.
Qed.

Lemma flat_piece_lipschitz :
  forall (p : Preset.t) (lo hi : R),
    (forall t, lo <= t <= hi -> TimeOfDaySystem.getColorsForTime t = p) ->
    forall s t : R, lo <= s -> s <= t -> t <= hi ->
      Preset_near ((t - s) / 2)
        (TimeOfDaySystem.getColorsForTime s)
        (TimeOfDaySystem.getColorsForTime t).
Proof.
  intros p lo hi Hf s t Hs Hst Ht.
  rewrite (Hf s) by lra. rewrite (Hf t) by lra.
  apply Preset_near_refl. lra.
Qed.

(** Two adjacent pieces with the bound give one piece with the bound. *)
Lemma lipschitz_glue :
  forall (f : R -> Preset.t) (a b c : R),
    (forall s t : R, a <= s -> s <= t -> t <= b ->
       Preset_near ((t - s) / 2) (f s) (f t)) ->
    (forall s t : R, b <= s -> s <= t -> t <= c ->
       Preset_near ((t - s) / 2) (f s) (f t)) ->
    forall s t : R, a <= s -> s <= t -> t <= c ->
      Preset_near ((t - s) / 2) (f s) (f t).
Proof.
  intros f a b c Hab Hbc s t Hs Hst Ht.
  destruct (Rle_dec t b) as [Htb | Htb]; [apply Hab; lra |].
  destruct (Rle_dec b s) as [Hbs | Hbs]; [apply Hbc; lra |].
  replace ((t - s) / 2) with ((b - s) / 2 + (t - b) / 2) by field.
  apply (Preset_near_trans _ _ _ (f b)); [apply Hab | apply Hbc]; lra.
Qed.

(** The formula of each interval also gives the value at the interval's
    right end. *)
Lemma colors_on_0_5 : forall t : R, 0 <= t <= 5 ->
  TimeOfDaySystem.getColorsForTime t = TimeOfDaySystem.night.
Proof.
  intros t H. destruct (Rlt_dec t 5) as [Hlt | Hge].
  - apply colors_0_5. lra.
  - replace t with 5 by lra. apply colors_at_boundaries.
Qed.

Lemma colors_on_5_7 : forall t : R, 5 <= t <= 7 ->
  TimeOfDaySystem.getColorsForTime t
  = TimeOfDaySystem.lerpColors TimeOfDaySystem.night TimeOfDaySystem.dawn
      ((t - 5) / 2).
Proof.
  intros t H. destruct (Rlt_dec t 7) as [Hlt | Hge].
  - apply colors_5_7. lra.
  - replace t with 7 by lra. replace ((7 - 5) / 2) with 1 by lra.
    rewrite lerpColors_1. apply colors_at_boundaries.
Qed.

Lemma colors_on_7_9 : forall t : R, 7 <= t <= 9 ->
  TimeOfDaySystem.getColorsForTime t
  = TimeOfDaySystem.lerpColors TimeOfDaySystem.dawn TimeOfDaySystem.morning
      ((t - 7) / 2).
Proof.
  intros t H. destruct (Rlt_dec t 9) as [Hlt | Hge].
  - apply colors_7_9. lra.
  - replace t with 9 by lra. replace ((9 - 7) / 2) with 1 by lra.
    rewrite lerpColors_1. apply colors_at_boundaries.
Qed.

Lemma colors_on_9_11 : forall t : R, 9 <= t <= 11 ->
  TimeOfDaySystem.getColorsForTime t
  = TimeOfDaySystem.lerpColors TimeOfDaySystem.morning TimeOfDaySystem.noon
      ((t - 9) / 2).
Proof.
  intros t H. destruct (Rlt_dec t 11) as [Hlt | Hge].
  - apply colors_9_11. lra.
  - replace t with 11 by lra. replace ((11 - 9) / 2) with 1 by lra.
    rewrite lerpColors_1. apply colors_at_boundaries.
Qed.

Lemma colors_on_11_15 : forall t : R, 11 <= t <= 15 ->
  TimeOfDaySystem.getColorsForTime t = TimeOfDaySystem.noon.
Proof.
  intros t H. destruct (Rlt_dec t 15) as [Hlt | Hge].
  - apply colors_11_15. lra.
  - replace t with 15 by lra. apply colors_at_boundaries.
Qed.

Lemma colors_on_15_17 : forall t : R, 15 <= t <= 17 ->
  TimeOfDaySystem.getColorsForTime t
  = TimeOfDaySystem.lerpColors TimeOfDaySystem.noon TimeOfDaySystem.afternoon
      ((t - 15) / 2).
Proof.
  intros t H. destruct (Rlt_dec t 17) as [Hlt | Hge].
  - apply colors_15_17. lra.
  - replace t with 17 by lra. replace ((17 - 15) / 2) with 1 by lra.
    rewrite lerpColors_1. apply colors_at_boundaries.
Qed.

Lemma colors_on_17_19 : forall t : R, 17 <= t <= 19 ->
  TimeOfDaySystem.getColorsForTime t
  = TimeOfDaySystem.lerpColors TimeOfDaySystem.afternoon TimeOfDaySystem.dusk
      ((t - 17) / 2).
Proof.
  intros t H. destruct (Rlt_dec t 19) as [Hlt | Hge].
  - apply colors_17_19. lra.
  - replace t with 19 by lra. replace ((19 - 17) / 2) with 1 by lra.
    rewrite lerpColors_1. apply colors_at_boundaries.
Qed.

Lemma colors_on_19_21 : forall t : R, 19 <= t <= 21 ->
  TimeOfDaySystem.getColorsForTime t
  = TimeOfDaySystem.lerpColors TimeOfDaySystem.dusk TimeOfDaySystem.evening
      ((t - 19) / 2).
Proof.
  intros t H. destruct (Rlt_dec t 21) as [Hlt | Hge].
  - apply colors_19_21. lra.
  - replace t with 21 by lra. replace ((21 - 19) / 2) with 1 by lra.
    rewrite lerpColors_1. apply colors_at_boundaries.
Qed.

Lemma colors_on_21_24 : forall t : R, 21 <= t <= 24 ->
  TimeOfDaySystem.getColorsForTime t
  = TimeOfDaySystem.lerpColors TimeOfDaySystem.evening TimeOfDaySystem.night
      ((t - 21) / 3).
Proof. intros t H. apply colors_else. lra. Qed.

(** The intensities of two presets. *)
Ltac intensity_step :=
  cbv [Preset.sunIntensity
       TimeOfDaySystem.night TimeOfDaySystem.dawn TimeOfDaySystem.morning
       TimeOfDaySystem.noon TimeOfDaySystem.afternoon TimeOfDaySystem.dusk
       TimeOfDaySystem.evening];
  apply Rabs_le; lra.

(** A piece of the curve between two presets of the table. *)
Ltac lerp_piece formula :=
  refine (lerp_piece_lipschitz _ _ _ _ _ _ _ _ _ formula);
  [ lra | apply Preset_ofHex_gamut | apply Preset_ofHex_gamut
  | intensity_step ].

(** Over one day, from 0 to 24, the curve moves by at most half the time
    elapsed. *)
Lemma colors_lipschitz_ordered : forall s t : R,
  0 <= s -> s <= t -> t <= 24 ->
  Preset_near ((t - s) / 2)
    (TimeOfDaySystem.getColorsForTime s) (TimeOfDaySystem.getColorsForTime t).
Proof.
  apply (lipschitz_glue _ 0 21 24); [| lerp_piece colors_on_21_24].
  apply (lipschitz_glue _ 0 19 21); [| lerp_piece colors_on_19_21].
  apply (lipschitz_glue _ 0 17 19); [| lerp_piece colors_on_17_19].
  apply (lipschitz_glue _ 0 15 17); [| lerp_piece colors_on_15_17].
  apply (lipschitz_glue _ 0 11 15);
    [| apply (flat_piece_lipschitz _ _ _ colors_on_11_15)].
  apply (lipschitz_glue _ 0 9 11); [| lerp_piece colors_on_9_11].
  apply (lipschitz_glue _ 0 7 9); [| lerp_piece colors_on_7_9].
  apply (lipschitz_glue _ 0 5 7); [| lerp_piece colors_on_5_7].
  apply (flat_piece_lipschitz _ _ _ colors_on_0_5).
Qed.

Lemma colors_lipschitz : forall s t : R,
  0 <= s <= 24 -> 0 <= t <= 24 ->
  Preset_near (Rabs (t - s) / 2)
    (TimeOfDaySystem.getColorsForTime s) (TimeOfDaySystem.getColorsForTime t).
Proof.
  intros s t Hs Ht. destruct (Rle_dec s t) as [Hle | Hgt].
  - rewrite Rabs_pos_eq by lra. apply colors_lipschitz_ordered; lra.
  - rewrite Rabs_left by lra.
    replace (- (t - s)) with (s - t) by ring.
    apply Preset_near_sym. apply colors_lipschitz_ordered; lra.
Qed.

(** ** Continuity of the colour curve *)

Lemma colors_left_limit : forall b : R, 0 < b <= 24 ->
  left_limit TimeOfDaySystem.getColorsForTime b
    (TimeOfDaySystem.getColorsForTime b).
Proof.
  intros b Hb eps Heps. exists (Rmin eps b). split.
  - apply Rmin_glb_lt; lra.
  - intros t Ht.
    pose proof (Rmin_l eps b). pose proof (Rmin_r eps b).
    apply (Preset_near_within (Rabs (b - t) / 2)).
    + rewrite Rabs_pos_eq by lra. lra.
    + apply colors_lipschitz; lra.
Qed.

Lemma colors_right_limit : forall b : R, 0 <= b < 24 ->
  right_limit TimeOfDaySystem.getColorsForTime b
    (TimeOfDaySystem.getColorsForTime b).
Proof.
  intros b Hb eps Heps. exists (Rmin eps (24 - b)). split.
  - apply Rmin_glb_lt; lra.
  - intros t Ht.
    pose proof (Rmin_l eps (24 - b)). pose proof (Rmin_r eps (24 - b)).
    apply (Preset_near_within (Rabs (b - t) / 2)).
    + rewrite Rabs_left1 by lra. lra.
    + apply colors_lipschitz; lra.
Qed.

(** Both one-sided limits at the value give continuity. *)
Lemma continuous_of_limits : forall (f : R -> Preset.t) (b : R),
  left_limit f b (f b) -> right_limit f b (f b) -> continuous_at f b.
Proof.
  intros f b Hl Hr eps Heps.
  destruct (Hl eps Heps) as [d1 [Hd1 H1]].
  destruct (Hr eps Heps) as [d2 [Hd2 H2]].
  exists (Rmin d1 d2). split; [apply Rmin_glb_lt; assumption |].
  intros t Ht. pose proof (Rmin_l d1 d2). pose proof (Rmin_r d1 d2).
  destruct (Rlt_dec t b) as [Hlt | Hge].
  - apply H1. lra.
  - apply H2. lra.
Qed.

Lemma colors_continuous_inside : forall b : R, 0 < b < 24 ->
  continuous_at TimeOfDaySystem.getColorsForTime b.
Proof.
  intros b Hb. apply continuous_of_limits.
  - apply colors_left_limit. lra.
  - apply colors_right_limit. lra.
Qed.

(** C1.  The colour and intensity curve is continuous over the day.  For
    each boundary [b] of {5, 7, 9, 11, 15, 17, 19, 21}, paired with the
    formula [f] of the interval that ends at [b]: the code uses [f] on the
    two hours before [b]; [f] evaluated at [b] (interpolation fraction 1)
    is exactly [getColorsForTime b]; [getColorsForTime b] is the limit of
    [getColorsForTime t] as [t] approaches [b] from below; and the curve is
    continuous at [b].  At the wrap, the 21-24 formula ends at the night
    preset, which is the value on all of [0, 5): the limit of the curve as
    [t] approaches 24 from below is its value at 0, which is also its limit
    at 0 from above.  Inside the intervals too: the curve is continuous at
    every time strictly between 0 and 24. *)
Theorem getColorsForTime_continuous_at_boundaries :
  (forall (b : R) (f : R -> Preset.t), In (b, f) boundaries ->
     (forall t, b - 2 <= t < b -> TimeOfDaySystem.getColorsForTime t = f t) /\
     f b = TimeOfDaySystem.getColorsForTime b /\
     left_limit TimeOfDaySystem.getColorsForTime b
       (TimeOfDaySystem.getColorsForTime b) /\
     continuous_at TimeOfDaySystem.getColorsForTime b) /\
  (TimeOfDaySystem.lerpColors TimeOfDaySystem.evening TimeOfDaySystem.night
     ((24 - 21) / 3) = TimeOfDaySystem.night /\
   (forall t, 0 <= t < 5 ->
      TimeOfDaySystem.getColorsForTime t = TimeOfDaySystem.night) /\
   left_limit TimeOfDaySystem.getColorsForTime 24
     (TimeOfDaySystem.getColorsForTime 0) /\
   right_limit TimeOfDaySystem.getColorsForTime 0
     (TimeOfDaySystem.getColorsForTime 0)) /\
  (forall b : R, 0 < b < 24 ->
     continuous_at TimeOfDaySystem.getColorsForTime b).
Proof.
  destruct colors_at_boundaries as (B5 & B7 & B9 & B11 & B15 & B17 & B19 & B21).
  split; [| split].
  - intros b f Hin. simpl in Hin.
    repeat (destruct Hin as [Hin | Hin];
            [injection Hin as <- <- | ]); try contradiction;
      (split; [| split; [| split;
         [apply colors_left_limit; lra
         | apply colors_continuous_inside; lra]]]).
    + intros t Ht. apply colors_0_5. lra.
    + symmetry. exact B5.
    + intros t Ht. apply colors_5_7. lra.
    + symmetry. apply colors_on_5_7. lra.
    + intros t Ht. apply colors_7_9. lra.
    + symmetry. apply colors_on_7_9. lra.
    + intros t Ht. apply colors_9_11. lra.
    + symmetry. apply colors_on_9_11. lra.
    + intros t Ht. apply colors_11_15. lra.
    + symmetry. exact B15.
    + intros t Ht. apply colors_15_17. lra.
    + symmetry. apply colors_on_15_17. lra.
    + intros t Ht. apply colors_17_19. lra.
    + symmetry. apply colors_on_17_19. lra.
    + intros t Ht. apply colors_19_21. lra.
    + symmetry. apply colors_on_19_21. lra.
  - assert (E24 : TimeOfDaySystem.getColorsForTime 24
                  = TimeOfDaySystem.getColorsForTime 0).
    { rewrite (colors_on_21_24 24) by lra. rewrite (colors_0_5 0) by lra.
      replace ((24 - 21) / 3) with 1 by lra. apply lerpColors_1. }
    split; [| split; [| split]].
    + replace ((24 - 21) / 3) with 1 by lra. apply lerpColors_1.
    + intros t Ht. apply colors_0_5. lra.
    + rewrite <- E24. apply colors_left_limit. lra.
    + apply colors_right_limit. lra.
  - exact colors_continuous_inside.
Qed.

(** ** The clock *)

Lemma updateLighting_timeOfDay : forall s : TimeOfDaySystem.t,
  TimeOfDaySystem.timeOfDay (TimeOfDaySystem.updateLighting s)
  = TimeOfDaySystem.timeOfDay s.
Proof. reflexivity. Qed.

Lemma updateLighting_timeSpeed : forall s : TimeOfDaySystem.t,
  TimeOfDaySystem.timeSpeed (TimeOfDaySystem.updateLighting s)
  = TimeOfDaySystem.timeSpeed s.
Proof. reflexivity. Qed.

Lemma updateLighting_enabled : forall s : TimeOfDaySystem.t,
  TimeOfDaySystem.enabled (TimeOfDaySystem.updateLighting s)
  = TimeOfDaySystem.enabled s.
Proof. reflexivity. Qed.

Lemma updateLighting_LitBy : forall s : TimeOfDaySystem.t,
  LitBy (TimeOfDaySystem.getColorsForTime (TimeOfDaySystem.timeOfDay s))
        (TimeOfDaySystem.updateLighting s).
Proof.
  intros s. unfold LitBy. cbn. repeat split.
  intros c H. destruct (TimeOfDaySystem.scene_fog (TimeOfDaySystem.scene s));
    congruence.
Qed.

(** The stored time after [update]: unchanged when the cycle is disabled,
    advanced and reduced by 24 at most once when it is enabled. *)
Lemma update_timeOfDay : forall (dt : R) (s : TimeOfDaySystem.t),
  TimeOfDaySystem.timeOfDay (TimeOfDaySystem.update dt s) =
  if TimeOfDaySystem.enabled s then
    let t' := TimeOfDaySystem.timeOfDay s
              + dt * TimeOfDaySystem.timeSpeed s / 3600 in
    if t' >=? 24 then t' - 24 else t'
  else TimeOfDaySystem.timeOfDay s.
Proof.
  intros dt s. unfold TimeOfDaySystem.update.
  rewrite updateLighting_timeOfDay.
  destruct (TimeOfDaySystem.enabled s); [| reflexivity].
  cbn. destruct (_ >=? 24); reflexivity.
Qed.

Lemma update_timeSpeed : forall (dt : R) (s : TimeOfDaySystem.t),
  TimeOfDaySystem.timeSpeed (TimeOfDaySystem.update dt s)
  = TimeOfDaySystem.timeSpeed s.
Proof.
  intros dt s. unfold TimeOfDaySystem.update.
  rewrite updateLighting_timeSpeed.
  destruct (TimeOfDaySystem.enabled s); [| reflexivity].
  cbn. destruct (_ >=? 24); reflexivity.
Qed.

Lemma update_enabled : forall (dt : R) (s : TimeOfDaySystem.t),
  TimeOfDaySystem.enabled (TimeOfDaySystem.update dt s)
  = TimeOfDaySystem.enabled s.
Proof.
  intros dt s. unfold TimeOfDaySystem.update.
  rewrite updateLighting_enabled.
  destruct (TimeOfDaySystem.enabled s) eqn:E; [| exact E].
  cbn. destruct (_ >=? 24); exact E.
Qed.

Lemma update_LitBy : forall (dt : R) (s : TimeOfDaySystem.t),
  LitBy (TimeOfDaySystem.getColorsForTime
           (TimeOfDaySystem.timeOfDay (TimeOfDaySystem.update dt s)))
        (TimeOfDaySystem.update dt s).
Proof.
  intros dt s. unfold TimeOfDaySystem.update.
  rewrite updateLighting_timeOfDay. apply updateLighting_LitBy.
Qed.

(** With the cycle disabled no number of updates moves the clock. *)
Lemma updates_disabled : forall (n : nat) (dt : R) (s : TimeOfDaySystem.t),
  TimeOfDaySystem.enabled s = false ->
  TimeOfDaySystem.timeOfDay (TimeOfDaySystem.updates n dt s)
  = TimeOfDaySystem.timeOfDay s.
Proof.
  induction n as [| n IH]; intros dt s Hen; [reflexivity |].
  cbn [TimeOfDaySystem.updates]. rewrite IH.
  - rewrite update_timeOfDay, Hen. reflexivity.
  - rewrite update_enabled. exact Hen.
Qed.

(** With speed 0 a clock below 24 is a fixed point of the advance. *)
Lemma updates_frozen : forall (n : nat) (dt : R) (s : TimeOfDaySystem.t),
  TimeOfDaySystem.timeSpeed s = 0 ->
  TimeOfDaySystem.timeOfDay s < 24 ->
  TimeOfDaySystem.timeOfDay (TimeOfDaySystem.updates n dt s)
  = TimeOfDaySystem.timeOfDay s.
Proof.
  induction n as [| n IH]; intros dt s Hspeed Hlt; [reflexivity |].
  assert (Hone : TimeOfDaySystem.timeOfDay (TimeOfDaySystem.update dt s)
                 = TimeOfDaySystem.timeOfDay s).
  { rewrite update_timeOfDay. destruct (TimeOfDaySystem.enabled s);
      [| reflexivity].
    cbv zeta. rewrite Hspeed. js_cmp. lra. }
  cbn [TimeOfDaySystem.updates]. rewrite IH.
  - exact Hone.
  - rewrite update_timeSpeed. exact Hspeed.
  - rewrite Hone. exact Hlt.
Qed.

Lemma setTime_timeOfDay : forall (time : R) (s : TimeOfDaySystem.t),
  TimeOfDaySystem.timeOfDay (TimeOfDaySystem.setTime time s) = time.
Proof. reflexivity. Qed.

Lemma clockAt_fields : forall time speed : R,
  TimeOfDaySystem.timeOfDay (clockAt time speed) = time /\
  TimeOfDaySystem.timeSpeed (clockAt time speed) = speed /\
  TimeOfDaySystem.enabled (clockAt time speed) = true.
Proof. intros time speed. repeat split. Qed.

(** C2, as stated, fails in its last clause.  [setTime] stores any
    number, and with the cycle enabled [update] subtracts 24 from a stored
    time of 24 or more even at speed 0: after [setTime(30)],
    [setEnabled(true)] and [setTimeSpeed(0)] one [update(1)] stores 6, and
    from a stored 24 it stores 0. *)
Lemma speed_zero_update_moves_time :
  TimeOfDaySystem.timeSpeed (clockAt 30 0) = 0 /\
  TimeOfDaySystem.timeOfDay (clockAt 30 0) = 30 /\
  TimeOfDaySystem.timeOfDay (TimeOfDaySystem.update 1 (clockAt 30 0)) = 6 /\
  TimeOfDaySystem.timeOfDay (clockAt 24 0) = 24 /\
  TimeOfDaySystem.timeOfDay (TimeOfDaySystem.update 1 (clockAt 24 0)) = 0 /\
  ~ (forall (n : nat) (dt : R) (s : TimeOfDaySystem.t),
       TimeOfDaySystem.timeOfDay
         (TimeOfDaySystem.updates n dt (TimeOfDaySystem.setTimeSpeed 0 s))
       = TimeOfDaySystem.timeOfDay s).
Proof.
  assert (H30 : TimeOfDaySystem.timeOfDay
                  (TimeOfDaySystem.update 1 (clockAt 30 0)) = 6).
  { rewrite update_timeOfDay.
    destruct (clockAt_fields 30 0) as (-> & -> & ->).
    cbv zeta. js_cmp. lra. }
  assert (H24 : TimeOfDaySystem.timeOfDay
                  (TimeOfDaySystem.update 1 (clockAt 24 0)) = 0).
  { rewrite update_timeOfDay.
    destruct (clockAt_fields 24 0) as (-> & -> & ->).
    cbv zeta. js_cmp. lra. }
  split; [reflexivity |]. split; [reflexivity |]. split; [exact H30 |].
  split; [reflexivity |]. split; [exact H24 |].
  intros Hall.
  specialize (Hall 1%nat 1 (clockAt 30 0)).
  change (TimeOfDaySystem.timeOfDay
            (TimeOfDaySystem.update 1 (clockAt 30 0)) = 30) in Hall.
  rewrite H30 in Hall. lra.
Qed.

(** C2, amended.  [update(dt)] with the cycle enabled advances [timeOfDay]
    by exactly [dt * timeSpeed / 3600] hours and then wraps at 24 (24 is
    subtracted when the sum has reached it); with the cycle disabled it
    leaves [timeOfDay] unchanged and is exactly a lighting recomputation;
    in both cases the lighting outputs are the ones of the stored time.
    After [setTimeSpeed(0)], any number of [update(dt)] calls leave
    [timeOfDay] unchanged when the cycle is disabled or the stored time is
    below 24; with the cycle enabled and a stored time of 24 or more, one
    [update] at speed 0 subtracts 24. *)
Theorem update_advances_timeOfDay :
  forall (dt : R) (s : TimeOfDaySystem.t),
    (TimeOfDaySystem.enabled s = true ->
       let t' := TimeOfDaySystem.timeOfDay s
                 + dt * TimeOfDaySystem.timeSpeed s / 3600 in
       (t' < 24 ->
          TimeOfDaySystem.timeOfDay (TimeOfDaySystem.update dt s) = t') /\
       (24 <= t' ->
          TimeOfDaySystem.timeOfDay (TimeOfDaySystem.update dt s) = t' - 24)) /\
    (TimeOfDaySystem.enabled s = false ->
       TimeOfDaySystem.timeOfDay (TimeOfDaySystem.update dt s)
       = TimeOfDaySystem.timeOfDay s /\
       TimeOfDaySystem.update dt s = TimeOfDaySystem.updateLighting s) /\
    LitBy (TimeOfDaySystem.getColorsForTime
             (TimeOfDaySystem.timeOfDay (TimeOfDaySystem.update dt s)))
          (TimeOfDaySystem.update dt s) /\
    (TimeOfDaySystem.enabled s = false \/ TimeOfDaySystem.timeOfDay s < 24 ->
       forall n : nat,
         TimeOfDaySystem.timeOfDay
           (TimeOfDaySystem.updates n dt (TimeOfDaySystem.setTimeSpeed 0 s))
         = TimeOfDaySystem.timeOfDay s) /\
    (TimeOfDaySystem.enabled s = true -> 24 <= TimeOfDaySystem.timeOfDay s ->
       TimeOfDaySystem.timeOfDay
         (TimeOfDaySystem.update dt (TimeOfDaySystem.setTimeSpeed 0 s))
       = TimeOfDaySystem.timeOfDay s - 24).
Proof.
  intros dt s. split; [| split; [| split; [| split]]].
  - intros Hen t'. split; intros Ht'; rewrite update_timeOfDay, Hen;
      subst t'; cbv zeta; js_cmp; reflexivity.
  - intros Hen. split.
    + rewrite update_timeOfDay, Hen. reflexivity.
    + unfold TimeOfDaySystem.update. rewrite Hen. reflexivity.
  - apply update_LitBy.
  - intros [Hen | Hlt] n.
    + rewrite updates_disabled; [reflexivity | exact Hen].
    + rewrite updates_frozen; [reflexivity | reflexivity | exact Hlt].
  - intros Hen Hge. rewrite update_timeOfDay.
    change (TimeOfDaySystem.enabled (TimeOfDaySystem.setTimeSpeed 0 s))
      with (TimeOfDaySystem.enabled s).
    rewrite Hen.
    change (TimeOfDaySystem.timeOfDay (TimeOfDaySystem.setTimeSpeed 0 s))
      with (TimeOfDaySystem.timeOfDay s).
    change (TimeOfDaySystem.timeSpeed (TimeOfDaySystem.setTimeSpeed 0 s))
      with 0.
    cbv zeta. js_cmp. lra.
Qed.

(** C3, as stated, fails.  From 0.5 h a negative speed of -3600 leads one
    second later to -0.5 h, and from 23.9 h a speed of 90000 (25 hours per
    second) leads to 24.9 h: the single subtraction of 24 leaves both
    outside [0, 24). *)
Lemma update_leaves_range :
  0 <= TimeOfDaySystem.timeOfDay (clockAt (1 / 2) (-3600)) < 24 /\
  TimeOfDaySystem.timeOfDay
    (TimeOfDaySystem.update 1 (clockAt (1 / 2) (-3600))) = - (1 / 2) /\
  0 <= TimeOfDaySystem.timeOfDay (clockAt (239 / 10) 90000) < 24 /\
  TimeOfDaySystem.timeOfDay
    (TimeOfDaySystem.update 1 (clockAt (239 / 10) 90000)) = 249 / 10 /\
  ~ (forall (dt : R) (s : TimeOfDaySystem.t),
       0 <= TimeOfDaySystem.timeOfDay s < 24 -> 0 <= dt ->
       0 <= TimeOfDaySystem.timeOfDay (TimeOfDaySystem.update dt s) < 24).
Proof.
  assert (H1 : TimeOfDaySystem.timeOfDay
                 (TimeOfDaySystem.update 1 (clockAt (1 / 2) (-3600)))
               = - (1 / 2)).
  { rewrite update_timeOfDay.
    destruct (clockAt_fields (1 / 2) (-3600)) as (-> & -> & ->).
    cbv zeta. js_cmp. lra. }
  assert (H2 : TimeOfDaySystem.timeOfDay
                 (TimeOfDaySystem.update 1 (clockAt (239 / 10) 90000))
               = 249 / 10).
  { rewrite update_timeOfDay.
    destruct (clockAt_fields (239 / 10) 90000) as (-> & -> & ->).
    cbv zeta. js_cmp. lra. }
  destruct (clockAt_fields (1 / 2) (-3600)) as (T1 & _ & _).
  destruct (clockAt_fields (239 / 10) 90000) as (T2 & _ & _).
  repeat split; try (rewrite ?T1, ?T2; lra); try assumption.
  intros Hall.
  assert (Hr : 0 <= TimeOfDaySystem.timeOfDay (clockAt (1 / 2) (-3600)) < 24)
    by (rewrite T1; lra).
  specialize (Hall 1 (clockAt (1 / 2) (-3600)) Hr).
  rewrite H1 in Hall. lra.
Qed.

(** C3, amended.  From a [timeOfDay] in [0, 24), [update(dt)] with the
    cycle enabled stores a [timeOfDay] in [0, 24) exactly when the advanced
    time [timeOfDay + dt * timeSpeed / 3600] lies in [0, 48): the wrap
    subtracts 24 once.  In particular it does so whenever the advance
    [dt * timeSpeed / 3600] is between 0 and 24 hours.  With the cycle
    disabled the stored time does not move.  The wrap is a real one:
    from 23.9 h at speed 3600 one second leads to 0.9 h. *)
Theorem update_keeps_timeOfDay_in_range :
  forall (dt : R) (s : TimeOfDaySystem.t),
    0 <= TimeOfDaySystem.timeOfDay s < 24 ->
    (TimeOfDaySystem.enabled s = true ->
       (0 <= TimeOfDaySystem.timeOfDay (TimeOfDaySystem.update dt s) < 24
        <-> 0 <= TimeOfDaySystem.timeOfDay s
                 + dt * TimeOfDaySystem.timeSpeed s / 3600 < 48)) /\
    (0 <= dt * TimeOfDaySystem.timeSpeed s / 3600 <= 24 ->
       0 <= TimeOfDaySystem.timeOfDay (TimeOfDaySystem.update dt s) < 24) /\
    (TimeOfDaySystem.enabled s = false ->
       TimeOfDaySystem.timeOfDay (TimeOfDaySystem.update dt s)
       = TimeOfDaySystem.timeOfDay s /\
       0 <= TimeOfDaySystem.timeOfDay (TimeOfDaySystem.update dt s) < 24) /\
    TimeOfDaySystem.timeOfDay
      (TimeOfDaySystem.update 1 (clockAt (239 / 10) 3600)) = 9 / 10.
Proof.
  intros dt s Hrange. split; [| split; [| split]].
  - intros Hen. rewrite update_timeOfDay, Hen. cbv zeta.
    destruct (Rge_dec (TimeOfDaySystem.timeOfDay s
                       + dt * TimeOfDaySystem.timeSpeed s / 3600) 24).
    + rewrite Rgeb_true by assumption. lra.
    + rewrite Rgeb_false by lra. lra.
  - intros Hadv. rewrite update_timeOfDay.
    destruct (TimeOfDaySystem.enabled s); [| exact Hrange]. cbv zeta.
    destruct (Rge_dec (TimeOfDaySystem.timeOfDay s
                       + dt * TimeOfDaySystem.timeSpeed s / 3600) 24).
    + rewrite Rgeb_true by assumption. lra.
    + rewrite Rgeb_false by lra. lra.
  - intros Hen. rewrite update_timeOfDay, Hen.
    split; [reflexivity | exact Hrange].
  - rewrite update_timeOfDay.
    destruct (clockAt_fields (239 / 10) 3600) as (-> & -> & ->).
    cbv zeta. js_cmp. lra.
Qed.

(** C10, as stated, fails.  [setTime(30)] stores 30, which is not in
    [0, 24), and the directional light gets the intensity of the
    evening-to-night branch at fraction 3, a negative number, not the one of
    6 h, the representative of 30 in range. *)
Lemma setTime_does_not_wrap :
  TimeOfDaySystem.timeOfDay (TimeOfDaySystem.setTime 30 sampleSystem) = 30 /\
  ~ (0 <= TimeOfDaySystem.timeOfDay (TimeOfDaySystem.setTime 30 sampleSystem)
     < 24) /\
  TimeOfDaySystem.intensity
    (TimeOfDaySystem.directionalLight (TimeOfDaySystem.setTime 30 sampleSystem))
  = - (8 / 100) /\
  TimeOfDaySystem.intensity
    (TimeOfDaySystem.directionalLight (TimeOfDaySystem.setTime 6 sampleSystem))
  = 28 / 100.
Proof.
  split; [reflexivity |]. split; [rewrite setTime_timeOfDay; lra |].
  split.
  - destruct (updateLighting_LitBy
                (TimeOfDaySystem.with_timeOfDay 30 sampleSystem))
      as (_ & _ & _ & Hi & _).
    unfold TimeOfDaySystem.setTime. rewrite Hi. cbn.
    rewrite colors_else by lra. preset_arith. lra.
  - destruct (updateLighting_LitBy
                (TimeOfDaySystem.with_timeOfDay 6 sampleSystem))
      as (_ & _ & _ & Hi & _).
    unfold TimeOfDaySystem.setTime. rewrite Hi. cbn.
    rewrite colors_5_7 by lra. preset_arith. lra.
Qed.

(** C10, amended.  [setTime(t)] stores [t] as it is given, without
    clamping or wrapping, so the stored time lies in [0, 24) exactly when
    [t] does; the lighting is recomputed at once from the stored [t], and
    for [t] below 0 or from 24 on it is the evening-to-night interpolation
    at the fraction [(t - 21) / 3], which is outside [0, 1] for every such
    [t] but 24. *)
Theorem setTime_stores_time_unchanged :
  forall (time : R) (s : TimeOfDaySystem.t),
    TimeOfDaySystem.timeOfDay (TimeOfDaySystem.setTime time s) = time /\
    (0 <= TimeOfDaySystem.timeOfDay (TimeOfDaySystem.setTime time s) < 24
     <-> 0 <= time < 24) /\
    LitBy (TimeOfDaySystem.getColorsForTime time)
          (TimeOfDaySystem.setTime time s) /\
    (time < 0 \/ 24 <= time ->
       TimeOfDaySystem.getColorsForTime time
       = TimeOfDaySystem.lerpColors TimeOfDaySystem.evening
           TimeOfDaySystem.night ((time - 21) / 3)) /\
    (time < 0 \/ 24 < time -> ~ (0 <= (time - 21) / 3 <= 1)).
Proof.
  intros time s. split; [reflexivity |]. split; [| split; [| split]].
  - rewrite setTime_timeOfDay. tauto.
  - apply (updateLighting_LitBy (TimeOfDaySystem.with_timeOfDay time s)).
  - intros Hout. apply colors_else. lra.
  - intros Hout. lra.
Qed.

(** ** The sun *)

(** Without tilt the rotation matrix is the identity on the base orbit. *)
Lemma sunPosition_noTilt : forall time : R,
  TimeOfDaySystem.sunPosition noTilt time =
  THREE.mkVector3
    (cos ((time - 6) / 12 * PI) * TimeOfDaySystem.sunDistance)
    (sin ((time - 6) / 12 * PI) * TimeOfDaySystem.sunDistance)
    0.
Proof.
  intros time.
  unfold TimeOfDaySystem.sunPosition, noTilt, THREE.applyMatrix4,
    THREE.makeRotationFromEuler.
  cbn [THREE.order THREE.ex THREE.ey THREE.ez THREE.x THREE.y THREE.z
       TimeOfDaySystem.orbit_x TimeOfDaySystem.orbit_y TimeOfDaySystem.orbit_z
       THREE.e0 THREE.e1 THREE.e2 THREE.e3 THREE.e4 THREE.e5 THREE.e6 THREE.e7
       THREE.e8 THREE.e9 THREE.e10 THREE.e11 THREE.e12 THREE.e13 THREE.e14
       THREE.e15].
  rewrite sin_0, cos_0. f_equal; field.
Qed.

(** The sign of the sine of the sun angle over one day. *)
Lemma sunAngle_sin_pos : forall time : R,
  6 < time < 18 -> 0 < sin ((time - 6) / 12 * PI).
Proof.
  intros time H. pose proof PI_RGT_0 as Hpi.
  apply sin_gt_0; nra.
Qed.

Lemma sunAngle_sin_nonpos : forall time : R,
  0 <= time <= 6 \/ 18 <= time < 24 -> sin ((time - 6) / 12 * PI) <= 0.
Proof.
  intros time [H | H]; pose proof PI_RGT_0 as Hpi.
  - assert (Hneg : 0 <= sin (- ((time - 6) / 12 * PI)))
      by (apply sin_ge_0; nra).
    rewrite sin_neg in Hneg. lra.
  - apply sin_le_0; nra.
Qed.


Lemma updateLighting_visible : forall s : TimeOfDaySystem.t,
  TimeOfDaySystem.visible
    (TimeOfDaySystem.sunMesh (TimeOfDaySystem.updateLighting s))
  = (THREE.y (TimeOfDaySystem.sunPosition
                (TimeOfDaySystem.orbitRotation s)
                (TimeOfDaySystem.timeOfDay s)) >? 0).
Proof. reflexivity. Qed.

Lemma visible_noTilt : forall s : TimeOfDaySystem.t,
  TimeOfDaySystem.orbitRotation s = noTilt ->
  0 <= TimeOfDaySystem.timeOfDay s < 24 ->
  TimeOfDaySystem.visible
    (TimeOfDaySystem.sunMesh (TimeOfDaySystem.updateLighting s))
  = (TimeOfDaySystem.timeOfDay s >? 6) && (TimeOfDaySystem.timeOfDay s <? 18).
Proof.
  intros s Htilt Hrange.
  rewrite updateLighting_visible, Htilt, sunPosition_noTilt.
  cbn [THREE.y]. unfold TimeOfDaySystem.sunDistance.
  destruct (Rlt_dec 6 (TimeOfDaySystem.timeOfDay s)) as [H6 | H6];
    [destruct (Rlt_dec (TimeOfDaySystem.timeOfDay s) 18) as [H18 | H18] |].
  - pose proof (sunAngle_sin_pos _ (conj H6 H18)). js_cmp. reflexivity.
  - assert (Hs : sin ((TimeOfDaySystem.timeOfDay s - 6) / 12 * PI) <= 0)
      by (apply sunAngle_sin_nonpos; lra).
    js_cmp. reflexivity.
  - assert (Hs : sin ((TimeOfDaySystem.timeOfDay s - 6) / 12 * PI) <= 0)
      by (apply sunAngle_sin_nonpos; lra).
    js_cmp. reflexivity.
Qed.

(** *** [Math.PI] against pi *)















(** With speed 0 and a time below 24, [update] is a lighting
    recomputation whether the cycle is enabled or not. *)
Lemma update_frozen_is_updateLighting :
  forall (dt : R) (s : TimeOfDaySystem.t),
    TimeOfDaySystem.timeSpeed s = 0 ->
    TimeOfDaySystem.timeOfDay s < 24 ->
    TimeOfDaySystem.update dt s = TimeOfDaySystem.updateLighting s.
Proof.
  intros dt s Hspeed Hlt. unfold TimeOfDaySystem.update.
  destruct (TimeOfDaySystem.enabled s); [| reflexivity].
  cbn [TimeOfDaySystem.timeOfDay TimeOfDaySystem.with_timeOfDay].
  rewrite Hspeed.
  replace (TimeOfDaySystem.timeOfDay s + dt * 0 / 3600)
    with (TimeOfDaySystem.timeOfDay s) by lra.
  js_cmp. destruct s. reflexivity.
Qed.

(** C5.  On [11, 15) [getColorsForTime] returns the noon preset itself.
    Consequently, at [timeOfDay = 12] with speed 0 and global
    [sunIntensity = 1], [update] writes a directional-light intensity of
    [noon.sunIntensity * 1], which is 2, and the noon sun colour; with the
    constructor's untilted orbit the sun mesh is visible. *)
Theorem noon_plateau_and_scenario :
  (forall time : R, 11 <= time < 15 ->
     TimeOfDaySystem.getColorsForTime time = TimeOfDaySystem.noon) /\
  (forall (dt : R) (s : TimeOfDaySystem.t),
     TimeOfDaySystem.timeOfDay s = 12 ->
     TimeOfDaySystem.timeSpeed s = 0 ->
     TimeOfDaySystem.sunIntensity s = 1 ->
     TimeOfDaySystem.intensity
       (TimeOfDaySystem.directionalLight (TimeOfDaySystem.update dt s))
     = Preset.sunIntensity TimeOfDaySystem.noon * 1 /\
     Preset.sunIntensity TimeOfDaySystem.noon * 1 = 2 /\
     TimeOfDaySystem.light_color
       (TimeOfDaySystem.directionalLight (TimeOfDaySystem.update dt s))
     = Preset.sun TimeOfDaySystem.noon /\
     Preset.sun TimeOfDaySystem.noon = THREE.Color_ofHex 0xfffaf0 /\
     (TimeOfDaySystem.orbitRotation s = noTilt ->
      TimeOfDaySystem.visible
        (TimeOfDaySystem.sunMesh (TimeOfDaySystem.update dt s)) = true)).
Proof.
  split; [exact colors_11_15 |].
  intros dt s Htime Hspeed Hint.
  rewrite update_frozen_is_updateLighting by (try assumption; lra).
  destruct (updateLighting_LitBy s) as (_ & _ & Hc & Hi & _).
  rewrite Htime, colors_11_15 in Hc, Hi by lra.
  split; [| split; [| split; [| split]]].
  - rewrite Hi. cbn [TimeOfDaySystem.sunIntensity TimeOfDaySystem.updateLighting
                     TimeOfDaySystem.updateSunPosition].
    rewrite Hint. reflexivity.
  - cbn. lra.
  - exact Hc.
  - reflexivity.
  - intros Htilt. rewrite visible_noTilt by (try assumption; lra).
    rewrite Htime. js_cmp. reflexivity.
Qed.

(** ** Camera vectors *)

Ltac three_arith :=
  cbv [CameraController.getForwardVector CameraController.getRightVector
       THREE.applyEuler THREE.applyQuaternion THREE.setFromEuler
       THREE.add THREE.sub THREE.multiplyScalar THREE.Vector3_zero
       THREE.order THREE.ex THREE.ey THREE.ez
       THREE.qx THREE.qy THREE.qz THREE.qw THREE.x THREE.y THREE.z].

Lemma getForwardVector_eq : forall c : CameraController.t,
  CameraController.getForwardVector c
  = THREE.mkVector3 (- sin (CameraController.yaw c)) 0
                    (- cos (CameraController.yaw c)).
Proof.
  intros c. three_arith.
  replace (0 / 2) with 0 by lra. rewrite sin_0, cos_0.
  set (h := CameraController.yaw c / 2).
  replace (CameraController.yaw c) with (2 * h) by (unfold h; field).
  rewrite sin_2a, cos_2a_sin. f_equal; ring.
Qed.

Lemma getRightVector_eq : forall c : CameraController.t,
  CameraController.getRightVector c
  = THREE.mkVector3 (cos (CameraController.yaw c)) 0
                    (- sin (CameraController.yaw c)).
Proof.
  intros c. three_arith.
  replace (0 / 2) with 0 by lra. rewrite sin_0, cos_0.
  set (h := CameraController.yaw c / 2).
  replace (CameraController.yaw c) with (2 * h) by (unfold h; field).
  rewrite sin_2a, cos_2a_sin. f_equal; ring.
Qed.

Lemma sin_cos_square : forall a : R, sin a * sin a + cos a * cos a = 1.
Proof. intros a. pose proof (sin2_cos2 a) as H. unfold Rsqr in H. exact H. Qed.

(** The direction built from the four directional keys is horizontal. *)
Lemma horizontalDirection_y :
  forall (k : Keys.t) (c : CameraController.t),
    THREE.y (Player.horizontalDirection k c) = 0.
Proof.
  intros k c. unfold Player.horizontalDirection.
  rewrite getForwardVector_eq, getRightVector_eq.
  destruct (Keys.forward k), (Keys.backward k), (Keys.left k), (Keys.right k);
    three_arith; ring.
Qed.

Lemma horizontalDirection_forward :
  forall (j u d sp : bool) (c : CameraController.t),
    Player.horizontalDirection (forwardKeys j u d sp) c
    = THREE.mkVector3 (0 + - sin (CameraController.yaw c)) (0 + 0)
                      (0 + - cos (CameraController.yaw c)).
Proof.
  intros. unfold Player.horizontalDirection, forwardKeys.
  rewrite getForwardVector_eq. reflexivity.
Qed.

Lemma horizontalDirection_diagonal :
  forall (j u d sp : bool) (c : CameraController.t),
    Player.horizontalDirection (diagonalKeys j u d sp) c
    = THREE.mkVector3
        (0 + - sin (CameraController.yaw c) + cos (CameraController.yaw c))
        (0 + 0 + 0)
        (0 + - cos (CameraController.yaw c) + - sin (CameraController.yaw c)).
Proof.
  intros. unfold Player.horizontalDirection, diagonalKeys.
  rewrite getForwardVector_eq, getRightVector_eq. reflexivity.
Qed.

(** ** Normalisation *)

Lemma length_square : forall v : THREE.Vector3,
  THREE.length v * THREE.length v
  = THREE.x v * THREE.x v + THREE.y v * THREE.y v + THREE.z v * THREE.z v.
Proof.
  intros v. unfold THREE.length. apply sqrt_sqrt. nra.
Qed.

Lemma normalize_components : forall v : THREE.Vector3,
  THREE.length v > 0 ->
  THREE.normalize v
  = THREE.mkVector3 (THREE.x v * (1 / THREE.length v))
                    (THREE.y v * (1 / THREE.length v))
                    (THREE.z v * (1 / THREE.length v)).
Proof.
  intros v Hpos. unfold THREE.normalize, THREE.divideScalar, THREE.multiplyScalar.
  destruct (Req_dec_T (THREE.length v) 0) as [H0 | _]; [lra | reflexivity].
Qed.

(** A normalised horizontal vector has horizontal length 1. *)
Lemma normalize_horizontal_unit : forall v : THREE.Vector3,
  THREE.y v = 0 -> THREE.length v > 0 ->
  THREE.x (THREE.normalize v) * THREE.x (THREE.normalize v)
  + THREE.z (THREE.normalize v) * THREE.z (THREE.normalize v) = 1.
Proof.
  intros v Hy Hpos. rewrite normalize_components by assumption.
  cbn [THREE.x THREE.z].
  pose proof (length_square v) as Hsq. rewrite Hy in Hsq.
  set (L := THREE.length v) in *.
  replace (THREE.x v * (1 / L) * (THREE.x v * (1 / L))
           + THREE.z v * (1 / L) * (THREE.z v * (1 / L)))
    with ((THREE.x v * THREE.x v + 0 * 0 + THREE.z v * THREE.z v) / (L * L))
    by (field; lra).
  rewrite <- Hsq. field. lra.
Qed.

(** ** One grounded tick *)

(** In first- and third-person mode a tick is [updatePlayerMovement] on
    the player with the frame's keys; the mesh fields aside. *)
Lemma tick_grounded : forall (f : Player.Frame) (p : Player.t),
  CameraController.currentMode (Player.frame_camera f)
    <> CameraController.FREE_CAMERA ->
  let q := Player.updatePlayerMovement (Player.frame_dt f)
             (Player.frame_camera f) (Player.with_keys (Player.frame_keys f) p)
  in
  Player.position (Player.tick f p) = Player.position q /\
  Player.velocity (Player.tick f p) = Player.velocity q /\
  Player.isGrounded (Player.tick f p) = Player.isGrounded q.
Proof.
  intros f p Hmode q. subst q. unfold Player.tick, Player.update.
  destruct (CameraController.currentMode (Player.frame_camera f));
    try contradiction; repeat split.
Qed.

Lemma tick_parameters : forall (f : Player.Frame) (p : Player.t),
  Player.gravity (Player.tick f p) = Player.gravity p /\
  Player.groundLevel (Player.tick f p) = Player.groundLevel p /\
  Player.jumpForce (Player.tick f p) = Player.jumpForce p /\
  Player.speed (Player.tick f p) = Player.speed p /\
  Player.fastSpeed (Player.tick f p) = Player.fastSpeed p.
Proof.
  intros f p. unfold Player.tick, Player.update.
  destruct (CameraController.currentMode (Player.frame_camera f));
    repeat split.
Qed.

(** The vertical part of a grounded tick. *)
Lemma tick_vertical : forall (f : Player.Frame) (p : Player.t),
  CameraController.currentMode (Player.frame_camera f)
    <> CameraController.FREE_CAMERA ->
  let jumping := Keys.jump (Player.frame_keys f) && Player.isGrounded p in
  let vy := if jumping then Player.jumpForce p
            else THREE.y (Player.velocity p)
                 + Player.gravity p * Player.frame_dt f in
  let py := THREE.y (Player.position p) + vy * Player.frame_dt f in
  THREE.y (Player.position (Player.tick f p))
    = (if py <=? Player.groundLevel p then Player.groundLevel p else py) /\
  THREE.y (Player.velocity (Player.tick f p))
    = (if py <=? Player.groundLevel p then 0 else vy) /\
  Player.isGrounded (Player.tick f p)
    = (if py <=? Player.groundLevel p then true
       else if jumping then false else Player.isGrounded p).
Proof.
  intros f p Hmode jumping vy py.
  destruct (tick_grounded f p Hmode) as (-> & -> & ->).
  subst py vy jumping. repeat split.
Qed.

(** The horizontal part of a grounded tick. *)
Lemma tick_horizontal : forall (f : Player.Frame) (p : Player.t),
  CameraController.currentMode (Player.frame_camera f)
    <> CameraController.FREE_CAMERA ->
  let m := Player.horizontalDirection (Player.frame_keys f)
             (Player.frame_camera f) in
  let n := if THREE.length m >? 0 then THREE.normalize m else m in
  let cur := if Keys.sprint (Player.frame_keys f) then Player.fastSpeed p
             else Player.speed p in
  THREE.x (Player.position (Player.tick f p))
    = THREE.x (Player.position p) + THREE.x n * cur * Player.frame_dt f /\
  THREE.z (Player.position (Player.tick f p))
    = THREE.z (Player.position p) + THREE.z n * cur * Player.frame_dt f.
Proof.
  intros f p Hmode m n cur.
  destruct (tick_grounded f p Hmode) as (-> & _ & _).
  subst cur n m. repeat split.
Qed.

(** C7.  Every update in first- or third-person mode ends with
    [position.y >= groundLevel] (and leaves [groundLevel] as it was).  In
    particular, from [position.y = groundLevel] with [isGrounded] set, a
    vertical velocity that is zero or carries gravity only (not positive),
    gravity not positive, and frames with a non-negative time step and the
    jump key up, [position.y] is exactly [groundLevel] after every number of
    updates, and the player stays grounded. *)
Theorem ground_plane_invariant :
  (forall (dt : R) (c : CameraController.t) (p : Player.t),
     CameraController.currentMode c <> CameraController.FREE_CAMERA ->
     Player.groundLevel (fst (Player.update dt c p)) = Player.groundLevel p /\
     THREE.y (Player.position (fst (Player.update dt c p)))
       >= Player.groundLevel p) /\
  (forall (frames : nat -> Player.Frame) (p : Player.t),
     THREE.y (Player.position p) = Player.groundLevel p ->
     Player.isGrounded p = true ->
     THREE.y (Player.velocity p) <= 0 ->
     Player.gravity p <= 0 ->
     (forall i : nat,
        0 <= Player.frame_dt (frames i) /\
        Keys.jump (Player.frame_keys (frames i)) = false /\
        CameraController.currentMode (Player.frame_camera (frames i))
          <> CameraController.FREE_CAMERA) ->
     forall n : nat,
       THREE.y (Player.position (Player.run frames n p)) = Player.groundLevel p
       /\ Player.isGrounded (Player.run frames n p) = true).
Proof.
  split.
  - intros dt c p Hmode.
    pose (f := Player.mkFrame dt (Player.keys p) c).
    assert (Htick : fst (Player.update dt c p) = Player.tick f p).
    { unfold Player.tick, f. cbn [Player.frame_dt Player.frame_camera
                                  Player.frame_keys].
      destruct p; reflexivity. }
    rewrite Htick.
    destruct (tick_parameters f p) as (_ & -> & _).
    split; [reflexivity |].
    destruct (tick_vertical f p Hmode) as (-> & _ & _).
    match goal with
    | |- (if ?a <=? ?b then _ else _) >= _ =>
        destruct (Rle_dec a b);
        [rewrite Rleb_true by assumption | rewrite Rleb_false by lra]; lra
    end.
  - intros frames p Hy Hg Hv Hgrav Hframes n.
    assert (Hinv :
      THREE.y (Player.position (Player.run frames n p)) = Player.groundLevel p
      /\ Player.isGrounded (Player.run frames n p) = true
      /\ THREE.y (Player.velocity (Player.run frames n p)) <= 0
      /\ Player.gravity (Player.run frames n p) = Player.gravity p
      /\ Player.groundLevel (Player.run frames n p) = Player.groundLevel p).
    { induction n as [| n IH]; [cbn; repeat split; assumption |].
      destruct IH as (IHy & IHg & IHv & IHgrav & IHlevel).
      cbn [Player.run].
      destruct (Hframes n) as (Hdt & Hjump & Hmode).
      destruct (tick_parameters (frames n) (Player.run frames n p))
        as (Pg & Pl & _).
      destruct (tick_vertical (frames n) (Player.run frames n p) Hmode)
        as (Ty & Tv & Tg).
      rewrite Hjump in Ty, Tv, Tg. cbn [andb] in Ty, Tv, Tg.
      rewrite IHy, IHgrav, IHlevel in Ty, Tv, Tg.
      assert (Hland :
        Player.groundLevel p
        + (THREE.y (Player.velocity (Player.run frames n p))
           + Player.gravity p * Player.frame_dt (frames n))
          * Player.frame_dt (frames n)
        <= Player.groundLevel p) by nra.
      rewrite Rleb_true in Ty, Tv, Tg by exact Hland.
      rewrite Ty, Tv, Tg, Pg, Pl, IHgrav, IHlevel.
      repeat split; lra. }
    destruct Hinv as (H1 & H2 & _). split; assumption.
Qed.

(** ** Horizontal speed *)

(** Whenever some direction is asked for, one grounded tick moves the
    player horizontally by the current speed times the time step. *)
Lemma horizontalDisplacement_tick : forall (f : Player.Frame) (p : Player.t),
  CameraController.currentMode (Player.frame_camera f)
    <> CameraController.FREE_CAMERA ->
  THREE.length (Player.horizontalDirection (Player.frame_keys f)
                  (Player.frame_camera f)) > 0 ->
  horizontalDisplacement p (Player.tick f p)
  = Rabs ((if Keys.sprint (Player.frame_keys f) then Player.fastSpeed p
           else Player.speed p) * Player.frame_dt f).
Proof.
  intros f p Hmode Hpos. unfold horizontalDisplacement. cbv zeta.
  destruct (tick_horizontal f p Hmode) as (-> & ->).
  rewrite Rgtb_true by assumption.
  pose proof (normalize_horizontal_unit _
                (horizontalDirection_y (Player.frame_keys f)
                   (Player.frame_camera f)) Hpos) as Hunit.
  set (n := THREE.normalize _) in *.
  set (cur := if Keys.sprint (Player.frame_keys f) then _ else _).
  rewrite <- sqrt_Rsqr_abs. f_equal. unfold Rsqr.
  transitivity ((THREE.x n * THREE.x n + THREE.z n * THREE.z n)
                * (cur * Player.frame_dt f * (cur * Player.frame_dt f))).
  - ring.
  - rewrite Hunit. ring.
Qed.

Lemma forward_direction_length :
  forall (j u d sp : bool) (c : CameraController.t),
    THREE.length (Player.horizontalDirection (forwardKeys j u d sp) c) = 1.
Proof.
  intros. rewrite horizontalDirection_forward. unfold THREE.length.
  cbn [THREE.x THREE.y THREE.z].
  pose proof (sin_cos_square (CameraController.yaw c)) as H.
  apply sqrt_lem_1; nra.
Qed.

Lemma diagonal_direction_length :
  forall (j u d sp : bool) (c : CameraController.t),
    THREE.length (Player.horizontalDirection (diagonalKeys j u d sp) c)
    = sqrt 2.
Proof.
  intros. rewrite horizontalDirection_diagonal. unfold THREE.length.
  cbn [THREE.x THREE.y THREE.z].
  pose proof (sin_cos_square (CameraController.yaw c)) as H.
  f_equal. nra.
Qed.

(** C8, as stated, fails.  After [setSpeed(-1)] one second of forward
    movement displaces the player by a length of 1, while [speed * dt] is
    -1: a length is never negative. *)
Lemma displacement_is_not_speed_times_dt :
  horizontalDisplacement reversedPlayer
    (Player.tick (Player.mkFrame 1 (forwardKeys false false false false)
                    sampleCamera) reversedPlayer) = 1 /\
  Player.speed reversedPlayer * 1 = -1 /\
  horizontalDisplacement reversedPlayer
    (Player.tick (Player.mkFrame 1 (forwardKeys false false false false)
                    sampleCamera) reversedPlayer)
  <> Player.speed reversedPlayer * 1.
Proof.
  assert (H : horizontalDisplacement reversedPlayer
                (Player.tick (Player.mkFrame 1
                                (forwardKeys false false false false)
                                sampleCamera) reversedPlayer) = 1).
  { rewrite horizontalDisplacement_tick.
    - cbn [Player.frame_keys Player.frame_dt forwardKeys Keys.sprint
           reversedPlayer Player.setSpeed Player.speed].
      replace (-1 * 1) with (-1) by ring.
      rewrite Rabs_left by lra. ring.
    - cbn. discriminate.
    - cbn [Player.frame_keys Player.frame_camera].
      rewrite forward_direction_length. lra. }
  assert (Hs : Player.speed reversedPlayer * 1 = -1) by (cbn; ring).
  repeat split; [exact H | exact Hs |].
  rewrite H, Hs. lra.
Qed.

(** C8, amended.  In first- or third-person mode, for every yaw, speed
    and time step, the horizontal displacement of one tick with forward and
    right both pressed has the same length as with forward alone, and both
    lengths are the absolute value of [speed * dt], where [speed] is
    [fastSpeed] under sprint: the move direction is normalised.  When
    [speed * dt] is not negative, both are [speed * dt]. *)
Theorem diagonal_not_faster :
  forall (p : Player.t) (c : CameraController.t) (dt : R)
         (j u d sp : bool),
    CameraController.currentMode c <> CameraController.FREE_CAMERA ->
    let cur := if sp then Player.fastSpeed p else Player.speed p in
    let diagonal :=
      horizontalDisplacement p
        (Player.tick (Player.mkFrame dt (diagonalKeys j u d sp) c) p) in
    let straight :=
      horizontalDisplacement p
        (Player.tick (Player.mkFrame dt (forwardKeys j u d sp) c) p) in
    diagonal = straight /\
    straight = Rabs (cur * dt) /\
    (0 <= cur * dt -> diagonal = cur * dt /\ straight = cur * dt).
Proof.
  intros p c dt j u d sp Hmode cur diagonal straight.
  assert (Hs : straight = Rabs (cur * dt)).
  { subst straight. rewrite horizontalDisplacement_tick.
    - reflexivity.
    - exact Hmode.
    - cbn [Player.frame_keys Player.frame_camera].
      rewrite forward_direction_length. lra. }
  assert (Hd : diagonal = Rabs (cur * dt)).
  { subst diagonal. rewrite horizontalDisplacement_tick.
    - reflexivity.
    - exact Hmode.
    - cbn [Player.frame_keys Player.frame_camera].
      rewrite diagonal_direction_length. apply sqrt_lt_R0. lra. }
  split; [congruence |]. split; [exact Hs |].
  intros Hnonneg. rewrite Hd, Hs, Rabs_pos_eq by assumption. split; reflexivity.
Qed.

(** ** Free camera *)

Lemma freeDirection_up_down :
  forall (k : Keys.t) (c : CameraController.t),
    Keys.up k = true -> Keys.down k = true ->
    THREE.y (Player.freeDirection k c) = 0.
Proof.
  intros k c Hup Hdown. unfold Player.freeDirection.
  rewrite Hup, Hdown. cbn [THREE.y].
  rewrite horizontalDirection_y. ring.
Qed.

Lemma normalize_y_zero : forall v : THREE.Vector3,
  THREE.y v = 0 -> THREE.y (THREE.normalize v) = 0.
Proof.
  intros v Hy. unfold THREE.normalize, THREE.divideScalar, THREE.multiplyScalar.
  cbn [THREE.y]. rewrite Hy. ring.
Qed.

(** C9.  In free-camera mode, a tick with [up] and [down] both held leaves
    the camera's y coordinate unchanged, for every yaw, speed, time step and
    state of the other keys: the vertical component of the move direction is
    +1 - 1 = 0 before normalisation.  The player's y coordinate is the
    camera's after the tick. *)
Theorem free_camera_up_down_cancel :
  forall (p : Player.t) (c : CameraController.t) (dt : R) (k : Keys.t),
    CameraController.currentMode c = CameraController.FREE_CAMERA ->
    Keys.up k = true -> Keys.down k = true ->
    THREE.y (Player.freeDirection k c) = 0 /\
    THREE.y (CameraController.camera_position
               (snd (Player.update dt c (Player.with_keys k p))))
    = THREE.y (CameraController.camera_position c) /\
    THREE.y (Player.position (fst (Player.update dt c (Player.with_keys k p))))
    = THREE.y (CameraController.camera_position c).
Proof.
  intros p c dt k Hmode Hup Hdown.
  pose proof (freeDirection_up_down k c Hup Hdown) as Hy.
  split; [exact Hy |].
  unfold Player.update. rewrite Hmode.
  cbn [CameraController.Mode_eqb].
  unfold Player.updateFreeCamera.
  cbn [fst snd Player.position CameraController.camera_position
       CameraController.with_camera_position Player.keys Player.with_keys].
  set (m := Player.freeDirection k c) in *.
  assert (Hn : THREE.y (if THREE.length m >? 0 then THREE.normalize m else m)
               = 0).
  { destruct (THREE.length m >? 0);
      [apply normalize_y_zero; exact Hy | exact Hy]. }
  unfold THREE.add, THREE.multiplyScalar. cbn [THREE.y].
  rewrite Hn. split; ring.
Qed.

(** ** Jump and fall *)

Lemma fallV_S : forall (v0 g dt : R) (m : nat),
  fallV v0 g dt (S m) = fallV v0 g dt m + g * dt.
Proof. intros. unfold fallV. rewrite S_INR. ring. Qed.

Lemma fallY_S : forall (y0 v0 g dt : R) (m : nat),
  fallY y0 v0 g dt (S m) = fallY y0 v0 g dt m + fallV v0 g dt (S m) * dt.
Proof. intros. unfold fallY, fallV. rewrite S_INR. field. Qed.

Lemma fallY_0 : forall y0 v0 g dt : R, fallY y0 v0 g dt 0 = y0.
Proof. intros. unfold fallY. change (INR 0) with 0. field. Qed.

Lemma fallV_0 : forall v0 g dt : R, fallV v0 g dt 0 = v0.
Proof. intros. unfold fallV. change (INR 0) with 0. ring. Qed.

(** Under negative gravity the free-fall height gets below any level. *)
Lemma fall_reaches_ground : forall y0 v0 g dt level : R,
  g < 0 -> 0 < dt -> exists N : nat, fallY y0 v0 g dt N <= level.
Proof.
  intros y0 v0 g dt level Hg Hdt.
  set (A := - g * dt * dt / 2).
  assert (Hdt2 : 0 < dt * dt) by (apply Rmult_lt_0_compat; assumption).
  assert (HA : 0 < A).
  { unfold A. replace (- g * dt * dt / 2) with ((- g) * (dt * dt) * / 2)
      by field.
    apply Rmult_lt_0_compat; [apply Rmult_lt_0_compat |]; lra. }
  set (B := Rabs (v0 * dt)). set (C := Rabs (y0 - level)).
  assert (HB : v0 * dt <= B) by apply Rle_abs.
  assert (HC : y0 - level <= C) by apply Rle_abs.
  assert (HB0 : 0 <= B) by apply Rabs_pos.
  assert (HC0 : 0 <= C) by apply Rabs_pos.
  destruct (INR_unbounded ((B + C) / A + 1)) as [N HN].
  exists N. unfold fallY. set (n := INR N) in *.
  assert (Hq : 0 <= (B + C) / A).
  { apply Rmult_le_pos; [lra |]. left. apply Rinv_0_lt_compat. exact HA. }
  assert (Hn1 : 1 <= n) by lra.
  assert (HAn : B + C <= A * n).
  { replace (B + C) with (A * ((B + C) / A)) by (field; lra). nra. }
  assert (H1 : n * (v0 * dt) <= n * B) by nra.
  assert (H2 : C <= n * C) by nra.
  assert (H3 : n * (B + C) <= n * (A * n)) by nra.
  replace (g * dt * dt * (n * (n + 1) / 2)) with (- (A * n * n) - A * n)
    by (unfold A; field).
  nra.
Qed.

(** A decidable property that holds somewhere holds at a first index. *)
Lemma first_index : forall P : nat -> Prop,
  (forall n, P n \/ ~ P n) ->
  forall N : nat, P N ->
    exists n : nat, P n /\ forall j : nat, (j < n)%nat -> ~ P j.
Proof.
  intros P Hdec N HN.
  assert (Hbound : forall M : nat,
            (exists n, P n /\ forall j, (j < n)%nat -> ~ P j)
            \/ (forall j, (j < M)%nat -> ~ P j)).
  { induction M as [| M [Hfound | Hnone]].
    - right. intros j Hj. lia.
    - left. exact Hfound.
    - destruct (Hdec M) as [HM | HM].
      + left. exists M. split; assumption.
      + right. intros j Hj.
        destruct (Nat.eq_dec j M) as [-> | Hne]; [exact HM |].
        apply Hnone. lia. }
  destruct (Hbound (S N)) as [Hfound | Hnone]; [exact Hfound |].
  exfalso. apply (Hnone N); [lia | exact HN].
Qed.

(** While the free-fall height stays above the ground, an airborne player
    follows it, whatever keys are held. *)
Lemma airborne_closed_form :
  forall (frames : nat -> Player.Frame) (p : Player.t) (dt : R),
    (forall i : nat,
       Player.frame_dt (frames i) = dt /\
       CameraController.currentMode (Player.frame_camera (frames i))
         <> CameraController.FREE_CAMERA) ->
    Player.isGrounded p = false ->
    forall m : nat,
      (forall j : nat, (j <= m)%nat ->
         Player.groundLevel p
         < fallY (THREE.y (Player.position p)) (THREE.y (Player.velocity p))
                 (Player.gravity p) dt j) ->
      THREE.y (Player.position (Player.run frames m p))
        = fallY (THREE.y (Player.position p)) (THREE.y (Player.velocity p))
                (Player.gravity p) dt m /\
      THREE.y (Player.velocity (Player.run frames m p))
        = fallV (THREE.y (Player.velocity p)) (Player.gravity p) dt m /\
      Player.isGrounded (Player.run frames m p) = false /\
      Player.gravity (Player.run frames m p) = Player.gravity p /\
      Player.groundLevel (Player.run frames m p) = Player.groundLevel p.
Proof.
  intros frames p dt Hframes Hair.
  induction m as [| m IH]; intros Habove.
  - cbn [Player.run]. rewrite fallY_0, fallV_0. repeat split. exact Hair.
  - destruct IH as (IHy & IHv & IHg & IHgrav & IHlevel).
    { intros j Hj. apply Habove. lia. }
    cbn [Player.run].
    destruct (Hframes m) as (Hdt & Hmode).
    destruct (tick_parameters (frames m) (Player.run frames m p))
      as (Pg & Pl & _).
    destruct (tick_vertical (frames m) (Player.run frames m p) Hmode)
      as (Ty & Tv & Tg).
    rewrite IHg, andb_false_r, IHy, IHv, IHgrav, IHlevel, Hdt in Ty, Tv, Tg.
    rewrite <- fallV_S in Ty, Tv, Tg. rewrite <- fallY_S in Ty, Tv, Tg.
    pose proof (Habove (S m) (Nat.le_refl _)) as Hup.
    rewrite Rleb_false in Ty, Tv, Tg by lra.
    rewrite Ty, Tv, Tg, Pg, Pl. repeat split; assumption.
Qed.

(** The tick on which the jump starts. *)
Lemma jump_tick :
  forall (p : Player.t) (c : CameraController.t) (k : Keys.t) (dt : R),
    CameraController.currentMode c <> CameraController.FREE_CAMERA ->
    Keys.jump k = true -> Player.isGrounded p = true ->
    Player.groundLevel p <= THREE.y (Player.position p) ->
    0 < Player.jumpForce p -> 0 < dt ->
    let p1 := Player.tick (Player.mkFrame dt k c) p in
    THREE.y (Player.position p1)
      = THREE.y (Player.position p) + Player.jumpForce p * dt /\
    THREE.y (Player.velocity p1) = Player.jumpForce p /\
    Player.isGrounded p1 = false.
Proof.
  intros p c k dt Hmode Hjump Hg Hy Hforce Hdt p1. subst p1.
  destruct (tick_vertical (Player.mkFrame dt k c) p Hmode) as (Ty & Tv & Tg).
  cbn [Player.frame_keys Player.frame_dt] in Ty, Tv, Tg.
  rewrite Hjump, Hg in Ty, Tv, Tg. cbn [andb] in Ty, Tv, Tg.
  assert (Hup : Player.jumpForce p * dt > 0)
    by (apply Rmult_lt_0_compat; assumption).
  rewrite Rleb_false in Ty, Tv, Tg by lra.
  repeat split; assumption.
Qed.

(** C6.  In first- or third-person mode, a tick with the jump key pressed
    while [isGrounded] is set (the player not below the ground, [jumpForce]
    and the time step positive) ends with [velocity.y = jumpForce] and
    [isGrounded] cleared.  Then, under negative gravity and the same time
    step every frame, there is a number [n] of further ticks such that the
    player is airborne, above the ground, with
    [velocity.y = jumpForce + m * gravity * dt], after each [m < n] of them,
    and after [n] ticks [position.y] is exactly [groundLevel], [isGrounded]
    is set and [velocity.y] is 0.  Keys held during the fall do not matter:
    the jump key has no effect in the air. *)
Theorem jump_then_fall :
  forall (p : Player.t) (c : CameraController.t) (k : Keys.t) (dt : R)
         (frames : nat -> Player.Frame),
    CameraController.currentMode c <> CameraController.FREE_CAMERA ->
    Keys.jump k = true -> Player.isGrounded p = true ->
    Player.groundLevel p <= THREE.y (Player.position p) ->
    0 < Player.jumpForce p -> 0 < dt -> Player.gravity p < 0 ->
    (forall i : nat,
       Player.frame_dt (frames i) = dt /\
       CameraController.currentMode (Player.frame_camera (frames i))
         <> CameraController.FREE_CAMERA) ->
    let p1 := Player.tick (Player.mkFrame dt k c) p in
    THREE.y (Player.velocity p1) = Player.jumpForce p /\
    Player.isGrounded p1 = false /\
    exists n : nat,
      (forall m : nat, (m < n)%nat ->
         Player.isGrounded (Player.run frames m p1) = false /\
         Player.groundLevel p < THREE.y (Player.position (Player.run frames m p1))
         /\ THREE.y (Player.velocity (Player.run frames m p1))
            = Player.jumpForce p + INR m * Player.gravity p * dt) /\
      THREE.y (Player.position (Player.run frames n p1)) = Player.groundLevel p
      /\ Player.isGrounded (Player.run frames n p1) = true
      /\ THREE.y (Player.velocity (Player.run frames n p1)) = 0.
Proof.
  intros p c k dt frames Hmode Hjump Hg Hy Hforce Hdt Hgrav Hframes p1.
  destruct (jump_tick p c k dt Hmode Hjump Hg Hy Hforce Hdt)
    as (Jy & Jv & Jg).
  fold p1 in Jy, Jv, Jg.
  destruct (tick_parameters (Player.mkFrame dt k c) p) as (Pg & Pl & _).
  fold p1 in Pg, Pl.
  split; [exact Jv |]. split; [exact Jg |].
  set (y1 := THREE.y (Player.position p1)) in *.
  set (P := fun j : nat =>
              fallY y1 (Player.jumpForce p) (Player.gravity p) dt j
              <= Player.groundLevel p).
  assert (Hdec : forall j, P j \/ ~ P j).
  { intros j. unfold P.
    destruct (Rle_dec (fallY y1 (Player.jumpForce p) (Player.gravity p) dt j)
                      (Player.groundLevel p)); [left | right]; assumption. }
  destruct (fall_reaches_ground y1 (Player.jumpForce p) (Player.gravity p) dt
              (Player.groundLevel p) Hgrav Hdt) as [N HN].
  destruct (first_index P Hdec N HN) as [n [Hn Hfirst]].
  assert (Hy1 : Player.groundLevel p < y1).
  { rewrite Jy.
    assert (Player.jumpForce p * dt > 0)
      by (apply Rmult_lt_0_compat; assumption).
    lra. }
  assert (Hclosed : forall m : nat, (m < n)%nat ->
            THREE.y (Player.position (Player.run frames m p1))
              = fallY y1 (Player.jumpForce p) (Player.gravity p) dt m /\
            THREE.y (Player.velocity (Player.run frames m p1))
              = fallV (Player.jumpForce p) (Player.gravity p) dt m /\
            Player.isGrounded (Player.run frames m p1) = false /\
            Player.gravity (Player.run frames m p1) = Player.gravity p /\
            Player.groundLevel (Player.run frames m p1) = Player.groundLevel p).
  { intros m Hm.
    pose proof (airborne_closed_form frames p1 dt Hframes Jg m) as Hc.
    fold y1 in Hc. rewrite Jv, Pg, Pl in Hc. apply Hc.
    intros j Hj. apply Rnot_le_lt. apply (Hfirst j). lia. }
  destruct n as [| n0].
  { exfalso. unfold P in Hn. rewrite fallY_0 in Hn. lra. }
  exists (S n0). split.
  - intros m Hm. destruct (Hclosed m Hm) as (Cy & Cv & Cg & _).
    split; [exact Cg |]. split.
    + rewrite Cy. apply Rnot_le_lt. apply (Hfirst m). exact Hm.
    + rewrite Cv. reflexivity.
  - destruct (Hclosed n0 (Nat.lt_succ_diag_r n0)) as (Cy & Cv & Cg & Cgrav & Cl).
    cbn [Player.run].
    destruct (Hframes n0) as (Fdt & Fmode).
    destruct (tick_vertical (frames n0) (Player.run frames n0 p1) Fmode)
      as (Ty & Tv & Tg).
    rewrite Cg, andb_false_r, Cy, Cv, Cgrav, Cl, Fdt in Ty, Tv, Tg.
    rewrite <- fallV_S in Ty, Tv, Tg. rewrite <- fallY_S in Ty, Tv, Tg.
    unfold P in Hn.
    rewrite Rleb_true in Ty, Tv, Tg by exact Hn.
    repeat split; assumption.
Qed.

(** * Instances

    Each conditional theorem above, applied to a concrete state. *)

Lemma getColorsForTime_continuous_at_boundaries_witness :
  In (7, fun time : R =>
           TimeOfDaySystem.lerpColors TimeOfDaySystem.night
             TimeOfDaySystem.dawn ((time - 5) / 2)) boundaries /\
  left_limit TimeOfDaySystem.getColorsForTime 7
    (TimeOfDaySystem.getColorsForTime 7).
Proof.
  assert (Hin : In (7, fun time : R =>
                         TimeOfDaySystem.lerpColors TimeOfDaySystem.night
                           TimeOfDaySystem.dawn ((time - 5) / 2)) boundaries)
    by (simpl; right; left; reflexivity).
  split; [exact Hin |].
  exact (proj1 (proj2 (proj2
           (proj1 getColorsForTime_continuous_at_boundaries 7 _ Hin)))).
Defined.

Lemma update_advances_timeOfDay_witness :
  TimeOfDaySystem.enabled (clockAt 12 10) = true /\
  TimeOfDaySystem.timeOfDay (TimeOfDaySystem.update 1 (clockAt 12 10))
  = 12 + 1 * 10 / 3600 /\
  TimeOfDaySystem.timeOfDay
    (TimeOfDaySystem.updates 3 1
       (TimeOfDaySystem.setTimeSpeed 0 (clockAt 12 10))) = 12.
Proof.
  destruct (update_advances_timeOfDay 1 (clockAt 12 10))
    as (Hen & _ & _ & Hfrozen & _).
  split; [reflexivity |]. split.
  - apply (proj1 (Hen eq_refl)).
    change (12 + 1 * 10 / 3600 < 24). lra.
  - apply (Hfrozen ltac:(right; change (12 < 24); lra) 3%nat).
Defined.

Lemma update_keeps_timeOfDay_in_range_witness :
  0 <= TimeOfDaySystem.timeOfDay (clockAt (239 / 10) 3600) < 24 /\
  0 <= TimeOfDaySystem.timeOfDay
         (TimeOfDaySystem.update 1 (clockAt (239 / 10) 3600)) < 24.
Proof.
  assert (Hr : 0 <= TimeOfDaySystem.timeOfDay (clockAt (239 / 10) 3600) < 24)
    by (change (0 <= 239 / 10 < 24); lra).
  split; [exact Hr |].
  apply (proj1 (proj2 (update_keeps_timeOfDay_in_range 1
                         (clockAt (239 / 10) 3600) Hr))).
  change (0 <= 1 * 3600 / 3600 <= 24). lra.
Defined.


Lemma noon_plateau_and_scenario_witness :
  TimeOfDaySystem.getColorsForTime 14 = TimeOfDaySystem.noon /\
  TimeOfDaySystem.intensity
    (TimeOfDaySystem.directionalLight
       (TimeOfDaySystem.update (1 / 60)
          (TimeOfDaySystem.setSunIntensity 1
             (TimeOfDaySystem.setTimeSpeed 0 sampleSystem))))
  = Preset.sunIntensity TimeOfDaySystem.noon * 1 /\
  TimeOfDaySystem.visible
    (TimeOfDaySystem.sunMesh
       (TimeOfDaySystem.update (1 / 60)
          (TimeOfDaySystem.setSunIntensity 1
             (TimeOfDaySystem.setTimeSpeed 0 sampleSystem)))) = true.
Proof.
  destruct noon_plateau_and_scenario as (Hplateau & Hscenario).
  split; [apply Hplateau; lra |].
  destruct (Hscenario (1 / 60)
              (TimeOfDaySystem.setSunIntensity 1
                 (TimeOfDaySystem.setTimeSpeed 0 sampleSystem))
              eq_refl eq_refl eq_refl) as (Hi & _ & _ & _ & Hv).
  split; [exact Hi | exact (Hv eq_refl)].
Defined.

Lemma jump_then_fall_witness :
  Player.isGrounded standingPlayer = true /\
  exists n : nat,
    THREE.y (Player.position
               (Player.run (constantFrames (1 / 10) Keys.none sampleCamera) n
                  (Player.tick (Player.mkFrame (1 / 10) jumpKeys sampleCamera)
                     standingPlayer)))
    = Player.groundLevel standingPlayer.
Proof.
  split; [reflexivity |].
  destruct (jump_then_fall standingPlayer sampleCamera jumpKeys (1 / 10)
              (constantFrames (1 / 10) Keys.none sampleCamera))
    as (_ & _ & n & _ & Hland & _).
  - cbn. discriminate.
  - reflexivity.
  - reflexivity.
  - cbn. lra.
  - cbn. lra.
  - lra.
  - cbn. lra.
  - intros i. split; [reflexivity | cbn; discriminate].
  - exists n. exact Hland.
Defined.

Lemma ground_plane_invariant_witness :
  THREE.y (Player.position standingPlayer) = Player.groundLevel standingPlayer
  /\ THREE.y (Player.position
                (Player.run (constantFrames (1 / 60) Keys.none sampleCamera) 5
                   standingPlayer))
     = Player.groundLevel standingPlayer
  /\ THREE.y (Player.position
                (fst (Player.update (1 / 60) sampleCamera standingPlayer)))
     >= Player.groundLevel standingPlayer.
Proof.
  destruct ground_plane_invariant as (Hone & Hmany).
  split; [reflexivity |]. split.
  - apply (Hmany (constantFrames (1 / 60) Keys.none sampleCamera)
             standingPlayer).
    + reflexivity.
    + reflexivity.
    + cbn. lra.
    + cbn. lra.
    + intros i. split; [cbn; lra |]. split; [reflexivity | cbn; discriminate].
  - apply (Hone (1 / 60) sampleCamera standingPlayer). cbn. discriminate.
Defined.

Lemma diagonal_not_faster_witness :
  horizontalDisplacement standingPlayer
    (Player.tick (Player.mkFrame 1 (diagonalKeys false false false false)
                    sampleCamera) standingPlayer)
  = 30 / 100 * 1.
Proof.
  destruct (diagonal_not_faster standingPlayer sampleCamera 1
              false false false false) as (_ & _ & Hpos).
  - cbn. discriminate.
  - apply (proj1 (Hpos ltac:(cbn; lra))).
Defined.

Lemma free_camera_up_down_cancel_witness :
  CameraController.currentMode freeCamera = CameraController.FREE_CAMERA /\
  THREE.y (CameraController.camera_position
             (snd (Player.update (1 / 60) freeCamera
                     (Player.with_keys upDownKeys standingPlayer))))
  = THREE.y (CameraController.camera_position freeCamera).
Proof.
  split; [reflexivity |].
  apply (proj1 (proj2 (free_camera_up_down_cancel standingPlayer freeCamera
                         (1 / 60) upDownKeys eq_refl eq_refl eq_refl))).
Defined.

Lemma setTime_stores_time_unchanged_witness :
  TimeOfDaySystem.timeOfDay (TimeOfDaySystem.setTime 30 sampleSystem) = 30 /\
  TimeOfDaySystem.getColorsForTime 30
  = TimeOfDaySystem.lerpColors TimeOfDaySystem.evening TimeOfDaySystem.night
      ((30 - 21) / 3).
Proof.
  destruct (setTime_stores_time_unchanged 30 sampleSystem)
    as (Hstored & _ & _ & Hcolors & _).
  split; [exact Hstored |].
  apply Hcolors. right. lra.
Defined.

(** * Further properties of the day/night system *)

(** [updateLighting] reads the clock, the intensity, the orbit and whether
    the scene has fog, and overwrites every output: recomputing twice is
    recomputing once. *)
Lemma updateLighting_idempotent : forall s : TimeOfDaySystem.t,
  TimeOfDaySystem.updateLighting (TimeOfDaySystem.updateLighting s)
  = TimeOfDaySystem.updateLighting s.
Proof.
  intros [[bg fog] dl hl time speed en int orbit mesh].
  destruct fog; reflexivity.
Qed.

Lemma updateLighting_setTimeSpeed :
  forall (v : R) (s : TimeOfDaySystem.t),
    TimeOfDaySystem.updateLighting (TimeOfDaySystem.setTimeSpeed v s)
    = TimeOfDaySystem.setTimeSpeed v (TimeOfDaySystem.updateLighting s).
Proof. intros v s. reflexivity. Qed.

Lemma updateLighting_setEnabled :
  forall (en : bool) (s : TimeOfDaySystem.t),
    TimeOfDaySystem.updateLighting (TimeOfDaySystem.setEnabled en s)
    = TimeOfDaySystem.setEnabled en (TimeOfDaySystem.updateLighting s).
Proof. intros en s. reflexivity. Qed.

Lemma perform_recomputes :
  forall (c : TimeOfDayAPI.Call) (s : TimeOfDaySystem.t),
    TimeOfDayAPI.recomputes c = true ->
    TimeOfDaySystem.updateLighting (TimeOfDayAPI.perform c s)
    = TimeOfDayAPI.perform c s.
Proof.
  intros c s Hc. destruct c; try discriminate Hc;
    cbn [TimeOfDayAPI.perform];
    unfold TimeOfDaySystem.update, TimeOfDaySystem.setTime,
      TimeOfDaySystem.setSunIntensity, TimeOfDaySystem.setOrbitPitch,
      TimeOfDaySystem.setOrbitYaw, TimeOfDaySystem.setOrbitRoll,
      TimeOfDaySystem.setOrbitRotation;
    apply updateLighting_idempotent.
Qed.

Lemma perform_keeps_fresh :
  forall (c : TimeOfDayAPI.Call) (s : TimeOfDaySystem.t),
    TimeOfDaySystem.updateLighting s = s ->
    TimeOfDaySystem.updateLighting (TimeOfDayAPI.perform c s)
    = TimeOfDayAPI.perform c s.
Proof.
  intros c s Hs. destruct (TimeOfDayAPI.recomputes c) eqn:Hc.
  - apply perform_recomputes. exact Hc.
  - destruct c; try discriminate Hc; cbn [TimeOfDayAPI.perform].
    + rewrite updateLighting_setTimeSpeed, Hs. reflexivity.
    + rewrite updateLighting_setEnabled, Hs. reflexivity.
Qed.

Lemma performAll_keeps_fresh :
  forall (cs : list TimeOfDayAPI.Call) (s : TimeOfDaySystem.t),
    TimeOfDaySystem.updateLighting s = s ->
    TimeOfDaySystem.updateLighting (TimeOfDayAPI.performAll cs s)
    = TimeOfDayAPI.performAll cs s.
Proof.
  induction cs as [| c cs IH]; intros s Hs; [exact Hs |].
  cbn [TimeOfDayAPI.performAll]. apply IH. apply perform_keeps_fresh. exact Hs.
Qed.

(** X1.  The lighting outputs never go stale.  Once one method that
    recomputes the lighting has run ([update] or any setter but
    [setTimeSpeed] and [setEnabled]), then after every further sequence of
    calls the state is a fixed point of [updateLighting]: scene, lights and
    sun mesh carry the colours of the stored time, and light and sun mesh
    sit at the sun position of the stored time and orbit. *)
Theorem lighting_never_stale :
  forall (c : TimeOfDayAPI.Call) (cs : list TimeOfDayAPI.Call)
         (s0 : TimeOfDaySystem.t),
    TimeOfDayAPI.recomputes c = true ->
    let s := TimeOfDayAPI.performAll cs (TimeOfDayAPI.perform c s0) in
    TimeOfDaySystem.updateLighting s = s /\
    LitBy (TimeOfDaySystem.getColorsForTime (TimeOfDaySystem.timeOfDay s)) s /\
    TimeOfDaySystem.light_position (TimeOfDaySystem.directionalLight s)
    = TimeOfDaySystem.sunPosition (TimeOfDaySystem.orbitRotation s)
        (TimeOfDaySystem.timeOfDay s) /\
    TimeOfDaySystem.mesh_position (TimeOfDaySystem.sunMesh s)
    = TimeOfDaySystem.sunPosition (TimeOfDaySystem.orbitRotation s)
        (TimeOfDaySystem.timeOfDay s).
Proof.
  intros c cs s0 Hc s.
  assert (Hfresh : TimeOfDaySystem.updateLighting s = s).
  { apply performAll_keeps_fresh. apply perform_recomputes. exact Hc. }
  split; [exact Hfresh |]. split; [| split].
  - pose proof (updateLighting_LitBy s) as HL. rewrite Hfresh in HL. exact HL.
  - transitivity (TimeOfDaySystem.light_position
                    (TimeOfDaySystem.directionalLight
                       (TimeOfDaySystem.updateLighting s)));
      [rewrite Hfresh; reflexivity | reflexivity].
  - transitivity (TimeOfDaySystem.mesh_position
                    (TimeOfDaySystem.sunMesh
                       (TimeOfDaySystem.updateLighting s)));
      [rewrite Hfresh; reflexivity | reflexivity].
Qed.

(** X2.  Setting the three orbit angles one axis at a time, in either
    order, gives the same state as [setOrbitRotation] with the three
    angles. *)
Theorem setOrbitRotation_by_axis :
  forall (p y r : R) (s : TimeOfDaySystem.t),
    TimeOfDaySystem.setOrbitRoll r
      (TimeOfDaySystem.setOrbitYaw y (TimeOfDaySystem.setOrbitPitch p s))
    = TimeOfDaySystem.setOrbitRotation p y r s /\
    TimeOfDaySystem.setOrbitPitch p
      (TimeOfDaySystem.setOrbitYaw y (TimeOfDaySystem.setOrbitRoll r s))
    = TimeOfDaySystem.setOrbitRotation p y r s.
Proof.
  intros p y r [[bg fog] dl hl time speed en int orbit mesh].
  destruct fog; split; reflexivity.
Qed.

(** Rotating by an XYZ Euler matrix keeps the length of a vector. *)
Lemma rotation_preserves_length : forall (ax ay az : R) (v : THREE.Vector3),
  THREE.length
    (THREE.applyMatrix4 v
       (THREE.makeRotationFromEuler (THREE.mkEuler ax ay az THREE.XYZ)))
  = THREE.length v.
Proof.
  intros ax ay az [X Y Z].
  unfold THREE.length, THREE.applyMatrix4, THREE.makeRotationFromEuler.
  cbn [THREE.order THREE.ex THREE.ey THREE.ez THREE.x THREE.y THREE.z
       THREE.e0 THREE.e1 THREE.e2 THREE.e3 THREE.e4 THREE.e5 THREE.e6 THREE.e7
       THREE.e8 THREE.e9 THREE.e10 THREE.e11 THREE.e12 THREE.e13 THREE.e14
       THREE.e15].
  replace (1 / (0 * X + 0 * Y + 0 * Z + 1)) with 1 by (field; lra).
  pose proof (sin_cos_square ax) as Hx.
  pose proof (sin_cos_square ay) as Hy.
  pose proof (sin_cos_square az) as Hz.
  set (a := cos ax) in *. set (b := sin ax) in *.
  set (c := cos ay) in *. set (d := sin ay) in *.
  set (e := cos az) in *. set (f := sin az) in *.
  f_equal. nsatz.
Qed.

(** X3.  For every orbit rotation and every time, the sun position is at
    distance [sunDistance] (50) from the origin; so are the directional
    light and the sun mesh after every lighting recomputation. *)
Theorem sun_stays_at_sunDistance :
  forall (orbit : TimeOfDaySystem.OrbitRotation) (time : R),
    THREE.length (TimeOfDaySystem.sunPosition orbit time)
    = TimeOfDaySystem.sunDistance /\
    forall s : TimeOfDaySystem.t,
      THREE.length
        (TimeOfDaySystem.light_position
           (TimeOfDaySystem.directionalLight
              (TimeOfDaySystem.updateLighting s))) = 50 /\
      THREE.length
        (TimeOfDaySystem.mesh_position
           (TimeOfDaySystem.sunMesh (TimeOfDaySystem.updateLighting s))) = 50.
Proof.
  assert (Hlen : forall orbit time,
            THREE.length (TimeOfDaySystem.sunPosition orbit time)
            = TimeOfDaySystem.sunDistance).
  { intros [ox oy oz] time. unfold TimeOfDaySystem.sunPosition.
    cbv zeta. cbn [TimeOfDaySystem.orbit_x TimeOfDaySystem.orbit_y
                   TimeOfDaySystem.orbit_z].
    rewrite rotation_preserves_length.
    unfold THREE.length, TimeOfDaySystem.sunDistance.
    cbn [THREE.x THREE.y THREE.z].
    pose proof (sin_cos_square ((time - 6) / 12 * PI)) as H.
    apply sqrt_lem_1; nra. }
  intros orbit time. split; [apply Hlen |].
  intros s. split; apply (Hlen (TimeOfDaySystem.orbitRotation s)).
Qed.

Lemma sunAngle_plus_24 : forall time : R,
  (time + 24 - 6) / 12 * PI = (time - 6) / 12 * PI + 2 * PI.
Proof. intros. field. Qed.

Lemma sunPosition_plus_24 :
  forall (orbit : TimeOfDaySystem.OrbitRotation) (time : R),
    TimeOfDaySystem.sunPosition orbit (time + 24)
    = TimeOfDaySystem.sunPosition orbit time.
Proof.
  intros orbit time. unfold TimeOfDaySystem.sunPosition. cbv zeta.
  rewrite sunAngle_plus_24, sin_plus, cos_plus, sin_2PI, cos_2PI.
  replace (sin ((time - 6) / 12 * PI) * 1 + cos ((time - 6) / 12 * PI) * 0)
    with (sin ((time - 6) / 12 * PI)) by ring.
  replace (cos ((time - 6) / 12 * PI) * 1 - sin ((time - 6) / 12 * PI) * 0)
    with (cos ((time - 6) / 12 * PI)) by ring.
  reflexivity.
Qed.

(** X4.  The sun's path has period 24 hours, so the wrap of the clock
    never makes the sun jump: after an [update] with the cycle enabled the
    directional light and the sun mesh are at the sun position of the
    advanced, unwrapped time. *)
Theorem wrap_does_not_move_the_sun :
  (forall (orbit : TimeOfDaySystem.OrbitRotation) (time : R),
     TimeOfDaySystem.sunPosition orbit (time + 24)
     = TimeOfDaySystem.sunPosition orbit time) /\
  (forall (dt : R) (s : TimeOfDaySystem.t),
     TimeOfDaySystem.enabled s = true ->
     let unwrapped := TimeOfDaySystem.timeOfDay s
                      + dt * TimeOfDaySystem.timeSpeed s / 3600 in
     TimeOfDaySystem.light_position
       (TimeOfDaySystem.directionalLight (TimeOfDaySystem.update dt s))
     = TimeOfDaySystem.sunPosition (TimeOfDaySystem.orbitRotation s) unwrapped
     /\
     TimeOfDaySystem.mesh_position
       (TimeOfDaySystem.sunMesh (TimeOfDaySystem.update dt s))
     = TimeOfDaySystem.sunPosition (TimeOfDaySystem.orbitRotation s) unwrapped).
Proof.
  split; [exact sunPosition_plus_24 |].
  intros dt s Hen unwrapped.
  assert (Hpos : forall s1 : TimeOfDaySystem.t,
            TimeOfDaySystem.light_position
              (TimeOfDaySystem.directionalLight
                 (TimeOfDaySystem.updateLighting s1))
            = TimeOfDaySystem.sunPosition (TimeOfDaySystem.orbitRotation s1)
                (TimeOfDaySystem.timeOfDay s1) /\
            TimeOfDaySystem.mesh_position
              (TimeOfDaySystem.sunMesh (TimeOfDaySystem.updateLighting s1))
            = TimeOfDaySystem.sunPosition (TimeOfDaySystem.orbitRotation s1)
                (TimeOfDaySystem.timeOfDay s1))
    by (intros s1; split; reflexivity).
  unfold TimeOfDaySystem.update. rewrite Hen.
  cbn [TimeOfDaySystem.timeOfDay TimeOfDaySystem.with_timeOfDay].
  fold unwrapped.
  destruct (unwrapped >=? 24).
  - destruct (Hpos (TimeOfDaySystem.with_timeOfDay (unwrapped - 24)
                      (TimeOfDaySystem.with_timeOfDay unwrapped s)))
      as (-> & ->).
    cbn [TimeOfDaySystem.timeOfDay TimeOfDaySystem.with_timeOfDay
         TimeOfDaySystem.orbitRotation].
    rewrite <- (sunPosition_plus_24 _ (unwrapped - 24)).
    replace (unwrapped - 24 + 24) with unwrapped by ring.
    split; reflexivity.
  - destruct (Hpos (TimeOfDaySystem.with_timeOfDay unwrapped s)) as (-> & ->).
    split; reflexivity.
Qed.

(** The interval a time of the day belongs to. *)
Lemma day_intervals : forall time : R,
  0 <= time <= 24 ->
  0 <= time < 5 \/ 5 <= time < 7 \/ 7 <= time < 9 \/ 9 <= time < 11 \/
  11 <= time < 15 \/ 15 <= time < 17 \/ 17 <= time < 19 \/
  19 <= time < 21 \/ 21 <= time <= 24.
Proof. intros time H. lra. Qed.

(** An interpolation between two presets in gamut with intensities in
    [0.1, 2] is again such a preset. *)
Lemma lerpColors_day_gamut : forall (p q : Preset.t) (s : R),
  Preset_in_gamut p -> Preset_in_gamut q ->
  1 / 10 <= Preset.sunIntensity p <= 2 ->
  1 / 10 <= Preset.sunIntensity q <= 2 ->
  0 <= s <= 1 ->
  Preset_in_gamut (TimeOfDaySystem.lerpColors p q s) /\
  1 / 10 <= Preset.sunIntensity (TimeOfDaySystem.lerpColors p q s) <= 2.
Proof.
  intros p q s Hp Hq Hip Hiq Hs. split.
  - apply lerpColors_gamut; assumption.
  - unfold TimeOfDaySystem.lerpColors. cbn [Preset.sunIntensity].
    apply lerp_between; assumption.
Qed.

Ltac intensity_range :=
  cbv [Preset.sunIntensity
       TimeOfDaySystem.night TimeOfDaySystem.dawn TimeOfDaySystem.morning
       TimeOfDaySystem.noon TimeOfDaySystem.afternoon TimeOfDaySystem.dusk
       TimeOfDaySystem.evening];
  lra.

Ltac table_gamut :=
  first
    [ split; [apply Preset_ofHex_gamut | intensity_range]
    | apply lerpColors_day_gamut;
      [ apply Preset_ofHex_gamut | apply Preset_ofHex_gamut
      | intensity_range | intensity_range | lra ] ].

Lemma colors_day_gamut : forall time : R, 0 <= time <= 24 ->
  Preset_in_gamut (TimeOfDaySystem.getColorsForTime time) /\
  1 / 10 <= Preset.sunIntensity (TimeOfDaySystem.getColorsForTime time) <= 2.
Proof.
  intros time Hrange.
  destruct (day_intervals time Hrange)
    as [H | [H | [H | [H | [H | [H | [H | [H | H]]]]]]]].
  - rewrite colors_0_5 by exact H. table_gamut.
  - rewrite colors_5_7 by exact H. table_gamut.
  - rewrite colors_7_9 by exact H. table_gamut.
  - rewrite colors_9_11 by exact H. table_gamut.
  - rewrite colors_11_15 by exact H. table_gamut.
  - rewrite colors_15_17 by exact H. table_gamut.
  - rewrite colors_17_19 by exact H. table_gamut.
  - rewrite colors_19_21 by exact H. table_gamut.
  - rewrite colors_else by lra. table_gamut.
Qed.

(** X5.  For every time from 0 to 24 the colours [getColorsForTime]
    returns have all channels between 0 and 1, and the interpolated sun
    intensity is between 0.1 and 2.  So with a non-negative global
    intensity the directional light's intensity is never negative. *)
Theorem colors_stay_in_gamut :
  forall time : R, 0 <= time <= 24 ->
    let colors := TimeOfDaySystem.getColorsForTime time in
    Color_in_gamut (Preset.sky colors) /\
    Color_in_gamut (Preset.sun colors) /\
    Color_in_gamut (Preset.ambient colors) /\
    Color_in_gamut (Preset.fog colors) /\
    1 / 10 <= Preset.sunIntensity colors <= 2 /\
    forall s : TimeOfDaySystem.t,
      TimeOfDaySystem.timeOfDay s = time ->
      0 <= TimeOfDaySystem.sunIntensity s ->
      0 <= TimeOfDaySystem.intensity
             (TimeOfDaySystem.directionalLight
                (TimeOfDaySystem.updateLighting s))
        <= 2 * TimeOfDaySystem.sunIntensity s.
Proof.
  intros time Hrange colors.
  assert (Hcolors :
    Color_in_gamut (Preset.sky colors) /\
    Color_in_gamut (Preset.sun colors) /\
    Color_in_gamut (Preset.ambient colors) /\
    Color_in_gamut (Preset.fog colors) /\
    1 / 10 <= Preset.sunIntensity colors <= 2).
  { subst colors.
    destruct (colors_day_gamut time Hrange) as ((H1 & H2 & H3 & H4) & H5).
    repeat (split; [assumption |]). exact H5. }
  destruct Hcolors as (Hsky & Hsun & Hamb & Hfog & Hint).
  repeat (split; [assumption |]).
  intros s Htime Hglobal.
  destruct (updateLighting_LitBy s) as (_ & _ & _ & Hi & _).
  rewrite Hi, Htime. fold colors.
  cbn [TimeOfDaySystem.sunIntensity TimeOfDaySystem.updateLighting
       TimeOfDaySystem.updateSunPosition].
  nra.
Qed.

(** The clock parameters survive any number of updates. *)
Lemma updates_parameters : forall (n : nat) (dt : R) (s : TimeOfDaySystem.t),
  TimeOfDaySystem.timeSpeed (TimeOfDaySystem.updates n dt s)
  = TimeOfDaySystem.timeSpeed s /\
  TimeOfDaySystem.enabled (TimeOfDaySystem.updates n dt s)
  = TimeOfDaySystem.enabled s.
Proof.
  induction n as [| n IH]; intros dt s; [split; reflexivity |].
  cbn [TimeOfDaySystem.updates].
  destruct (IH dt (TimeOfDaySystem.update dt s)) as (-> & ->).
  rewrite update_timeSpeed, update_enabled. split; reflexivity.
Qed.

(** X6.  With the cycle enabled, after [n] calls of [update(dt)] the
    stored time is the start time plus [n] advances minus 24 times a number
    of wraps that is at most [n] (one wrap per call at most).  As long as
    the advances are not negative and their sum stays below 24, there is no
    wrap: the time is the start time plus [n] advances. *)
Theorem updates_time_modulo_24 :
  forall (n : nat) (dt : R) (s : TimeOfDaySystem.t),
    TimeOfDaySystem.enabled s = true ->
    let advance := dt * TimeOfDaySystem.timeSpeed s / 3600 in
    (exists k : nat, (k <= n)%nat /\
       TimeOfDaySystem.timeOfDay (TimeOfDaySystem.updates n dt s)
       = TimeOfDaySystem.timeOfDay s + INR n * advance - 24 * INR k) /\
    (0 <= advance ->
     TimeOfDaySystem.timeOfDay s + INR n * advance < 24 ->
     TimeOfDaySystem.timeOfDay (TimeOfDaySystem.updates n dt s)
     = TimeOfDaySystem.timeOfDay s + INR n * advance).
Proof.
  induction n as [| n IH]; intros dt s Hen advance.
  - split.
    + exists 0%nat. split; [lia |]. cbn [TimeOfDaySystem.updates INR]. ring.
    + intros _ _. cbn [TimeOfDaySystem.updates INR]. ring.
  - cbn [TimeOfDaySystem.updates].
    assert (Hen1 : TimeOfDaySystem.enabled (TimeOfDaySystem.update dt s) = true)
      by (rewrite update_enabled; exact Hen).
    destruct (IH dt (TimeOfDaySystem.update dt s) Hen1) as (IHk & IHno).
    rewrite update_timeSpeed in IHk, IHno. fold advance in IHk, IHno.
    assert (Hone : TimeOfDaySystem.timeOfDay (TimeOfDaySystem.update dt s)
                   = if TimeOfDaySystem.timeOfDay s + advance >=? 24
                     then TimeOfDaySystem.timeOfDay s + advance - 24
                     else TimeOfDaySystem.timeOfDay s + advance).
    { rewrite update_timeOfDay, Hen. reflexivity. }
    rewrite S_INR. split.
    + destruct IHk as [k [Hk Hkeq]]. rewrite Hkeq, Hone.
      destruct (TimeOfDaySystem.timeOfDay s + advance >=? 24).
      * exists (S k). split; [lia |]. rewrite S_INR. ring.
      * exists k. split; [lia |]. ring.
    + intros Hadv Hlt.
      assert (Hn : 0 <= INR n) by apply pos_INR.
      assert (Hless : TimeOfDaySystem.timeOfDay s + advance < 24) by nra.
      rewrite Rgeb_false in Hone by exact Hless.
      rewrite IHno; [rewrite Hone; ring | exact Hadv | rewrite Hone; nra].
Qed.

(** X8.  Without orbit tilt the sun's path is symmetric about noon: at
    equal times before and after 12 the sun has the same height and
    opposite x.  It is highest at noon, at height [sunDistance]. *)
Theorem sun_path_symmetric_about_noon :
  forall d : R,
    THREE.y (TimeOfDaySystem.sunPosition noTilt (12 + d))
    = THREE.y (TimeOfDaySystem.sunPosition noTilt (12 - d)) /\
    THREE.x (TimeOfDaySystem.sunPosition noTilt (12 + d))
    = - THREE.x (TimeOfDaySystem.sunPosition noTilt (12 - d)) /\
    THREE.y (TimeOfDaySystem.sunPosition noTilt (12 + d))
    <= THREE.y (TimeOfDaySystem.sunPosition noTilt 12) /\
    THREE.y (TimeOfDaySystem.sunPosition noTilt 12)
    = TimeOfDaySystem.sunDistance.
Proof.
  intros d. rewrite !sunPosition_noTilt. cbn [THREE.x THREE.y].
  replace ((12 + d - 6) / 12 * PI) with (PI / 2 - (- (d * PI / 12)))
    by field.
  replace ((12 - d - 6) / 12 * PI) with (PI / 2 - d * PI / 12) by field.
  replace ((12 - 6) / 12 * PI) with (PI / 2) by field.
  rewrite !sin_shift, !cos_shift, sin_PI2, cos_neg, sin_neg.
  pose proof (COS_bound (d * PI / 12)) as Hb.
  unfold TimeOfDaySystem.sunDistance.
  repeat split; lra.
Qed.

(** ** The clock display *)

Section ClockDisplay.

Import String Ascii.

Lemma padStart_two_digits : forall n : Z,
  (0 <= n < 100)%Z ->
  TimeDisplay.padStart 2 "0" (TimeDisplay.toString n)
  = String.String (TimeDisplay.digit (n / 10))
      (String.String (TimeDisplay.digit (n mod 10)) String.EmptyString).
Proof.
  intros n Hn.
  assert (Hk : forall k : nat, (k < 100)%nat ->
            TimeDisplay.padStart 2 "0" (TimeDisplay.toString (Z.of_nat k))
            = String.String (TimeDisplay.digit (Z.of_nat k / 10))
                (String.String (TimeDisplay.digit (Z.of_nat k mod 10))
                   String.EmptyString)).
  { intros k Hk.
    do 100 (destruct k as [| k]; [vm_compute; reflexivity |]). lia. }
  rewrite <- (Z2Nat.id n) by lia. apply Hk. lia.
Qed.

Lemma Int_part_bounds : forall (x : R) (lo hi : Z),
  IZR lo <= x -> x < IZR hi -> (lo <= Int_part x < hi)%Z.
Proof.
  intros x lo hi Hlo Hhi. destruct (base_Int_part x) as [H1 H2].
  split.
  - apply Z.lt_succ_r. apply lt_IZR. rewrite succ_IZR. lra.
  - apply lt_IZR. lra.
Qed.

(** X9.  For a time of day in [0, 24) whose fractional part is at most
    [1 - 2^-53] (as it is for every double), and a rounding of the product
    by 60 with relative error at most [2^-53], [getTimeString] is the five
    characters HH:MM, two digits each, of the hour [h] in 0..23 the time
    has reached and of a minute [m] in 0..59.  The minute is the one
    reached, up to the rounding of the product: [60 h + m] minutes have
    passed and the next minute has not, within [2^-47] of a minute.  For a
    negative time the text starts with a minus sign. *)
Theorem getTimeString_format :
  forall (rnd : R -> R) (s : TimeOfDaySystem.t),
    let t := TimeOfDaySystem.timeOfDay s in
    (0 <= t < 24 ->
     TimeDisplay.rem1 t <= TimeDisplay.maxFraction ->
     Rabs (rnd (TimeDisplay.rem1 t * 60) - TimeDisplay.rem1 t * 60)
       <= TimeDisplay.rem1 t * 60 * TimeDisplay.unitRoundoff ->
     exists h m : Z,
       (0 <= h <= 23)%Z /\ (0 <= m <= 59)%Z /\
       IZR h <= t < IZR h + 1 /\
       IZR (60 * h + m) - TimeDisplay.minuteSlack <= 60 * t
         < IZR (60 * h + m) + 1 + TimeDisplay.minuteSlack /\
       TimeDisplay.getTimeString rnd s = TimeDisplay.clockText h m /\
       String.length (TimeDisplay.getTimeString rnd s) = 5%nat) /\
    (t < 0 ->
     exists rest : String.string,
       TimeDisplay.getTimeString rnd s = String.String "-" rest).
Proof.
  intros rnd s t. split.
  - intros Ht Hfrac Hrnd.
    pose proof (Int_part_bounds t 0 24 ltac:(lra) ltac:(lra)) as Hh.
    destruct (base_Int_part t) as [Hh1 Hh2].
    set (h := Int_part t) in *.
    assert (Hrem : TimeDisplay.rem1 t = t - IZR h).
    { unfold TimeDisplay.rem1. rewrite Rgeb_true by lra. reflexivity. }
    rewrite Hrem in Hfrac, Hrnd.
    unfold TimeDisplay.maxFraction in Hfrac.
    unfold TimeDisplay.unitRoundoff in Hrnd.
    set (x := (t - IZR h) * 60) in *.
    assert (Hx : 0 <= x <= 60 - 60 / 9007199254740992)
      by (unfold x; lra).
    pose proof (Rle_abs (rnd x - x)) as Hup.
    pose proof (Rle_abs (- (rnd x - x))) as Hdn.
    rewrite Rabs_Ropp in Hdn.
    pose proof (Int_part_bounds (rnd x) 0 60 ltac:(lra) ltac:(lra)) as Hm.
    destruct (base_Int_part (rnd x)) as [Hm1 Hm2].
    set (m := Int_part (rnd x)) in *.
    assert (Htext : TimeDisplay.getTimeString rnd s
                    = TimeDisplay.clockText h m).
    { unfold TimeDisplay.getTimeString, TimeDisplay.Math_floor. cbv zeta.
      fold t. rewrite Hrem. fold x. fold h. fold m.
      rewrite (padStart_two_digits h) by lia.
      rewrite (padStart_two_digits m) by lia.
      reflexivity. }
    exists h, m. split; [lia |]. split; [lia |]. split; [lra |]. split.
    + rewrite plus_IZR, mult_IZR. unfold TimeDisplay.minuteSlack.
      unfold x in *. lra.
    + split; [exact Htext |]. rewrite Htext. reflexivity.
  - intros Hneg.
    destruct (base_Int_part t) as [Hh1 Hh2].
    assert (Hh : (Int_part t < 0)%Z) by (apply lt_IZR; lra).
    unfold TimeDisplay.getTimeString, TimeDisplay.Math_floor. cbv zeta.
    fold t. destruct (Int_part t) as [| q | q]; try lia.
    unfold TimeDisplay.toString.
    cbn [Z.to_int DecimalString.NilZero.string_of_int].
    set (digits := DecimalString.NilZero.string_of_uint (Pos.to_uint q)).
    assert (Hdigits : exists c r, digits = String c r).
    { unfold digits. destruct (Pos.to_uint q); cbn; eauto. }
    destruct Hdigits as (c & r & ->).
    unfold TimeDisplay.padStart at 1. cbn [length Nat.leb append].
    eexists. reflexivity.
Qed.

End ClockDisplay.

(** * Further properties of camera and player *)

(** X10.  For every yaw the camera's forward and right vectors are
    horizontal unit vectors at a right angle. *)
Theorem camera_basis_orthonormal : forall c : CameraController.t,
  let f := CameraController.getForwardVector c in
  let r := CameraController.getRightVector c in
  THREE.length f = 1 /\ THREE.length r = 1 /\ dot f r = 0 /\
  THREE.y f = 0 /\ THREE.y r = 0.
Proof.
  intros c f r. subst f r.
  rewrite getForwardVector_eq, getRightVector_eq.
  pose proof (sin_cos_square (CameraController.yaw c)) as H.
  unfold THREE.length, dot. cbn [THREE.x THREE.y THREE.z].
  repeat split; try ring; apply sqrt_lem_1; nra.
Qed.

(** X11.  In third-person mode the camera is placed behind the player:
    its position is the player's minus [thirdPersonDistance] times the
    forward vector, raised by [thirdPersonHeight].  Its horizontal distance
    from the player is the absolute value of [thirdPersonDistance] for
    every yaw. *)
Theorem third_person_camera_behind_player :
  forall (p : Player.t) (c : CameraController.t),
    CameraController.currentMode c = CameraController.THIRD_PERSON ->
    let cam := CameraController.camera_position (CameraView.update p c) in
    let f := CameraController.getForwardVector c in
    let d := CameraController.thirdPersonDistance c in
    THREE.x cam = THREE.x (Player.position p) - d * THREE.x f /\
    THREE.y cam
    = THREE.y (Player.position p) + CameraController.thirdPersonHeight c /\
    THREE.z cam = THREE.z (Player.position p) - d * THREE.z f /\
    sqrt ((THREE.x cam - THREE.x (Player.position p))
            * (THREE.x cam - THREE.x (Player.position p))
          + (THREE.z cam - THREE.z (Player.position p))
            * (THREE.z cam - THREE.z (Player.position p)))
    = Rabs d.
Proof.
  intros p c Hmode cam f d. subst cam f d.
  unfold CameraView.update. rewrite Hmode.
  unfold CameraView.updateThirdPerson. rewrite getForwardVector_eq.
  cbn [CameraController.camera_position CameraController.with_camera_position
       THREE.add THREE.x THREE.y THREE.z].
  pose proof (sin_cos_square (CameraController.yaw c)) as H.
  repeat split; try ring.
  rewrite <- sqrt_Rsqr_abs. f_equal. unfold Rsqr.
  set (d := CameraController.thirdPersonDistance c) in *.
  set (sy := sin (CameraController.yaw c)) in *.
  set (cy := cos (CameraController.yaw c)) in *.
  transitivity ((sy * sy + cy * cy) * (d * d)); [ring | rewrite H; ring].
Qed.

Lemma step_grounded :
  forall (dt : R) (k : Keys.t) (p : Player.t) (c : CameraController.t),
    CameraController.currentMode c <> CameraController.FREE_CAMERA ->
    Player.position (fst (Viewer.step dt k (p, c)))
    = Player.position (Player.tick (Player.mkFrame dt k c) p) /\
    Player.eyeHeight (fst (Viewer.step dt k (p, c))) = Player.eyeHeight p /\
    Player.groundLevel (fst (Viewer.step dt k (p, c))) = Player.groundLevel p /\
    snd (Viewer.step dt k (p, c))
    = CameraView.update (fst (Viewer.step dt k (p, c))) c.
Proof.
  intros dt k p c Hmode. unfold Viewer.step, Player.tick, Player.update.
  cbn [Player.frame_dt Player.frame_keys Player.frame_camera].
  destruct (CameraController.currentMode c); try contradiction;
    repeat split.
Qed.

(** X12.  In first-person mode, after every frame (player update, then
    camera update) the camera is exactly [eyeHeight] above the player's
    position, so it is never lower than [groundLevel + eyeHeight]. *)
Theorem first_person_camera_above_ground :
  forall (dt : R) (k : Keys.t) (p : Player.t) (c : CameraController.t),
    CameraController.currentMode c = CameraController.FIRST_PERSON ->
    let p' := fst (Viewer.step dt k (p, c)) in
    let cam := CameraController.camera_position
                 (snd (Viewer.step dt k (p, c))) in
    THREE.x cam = THREE.x (Player.position p') /\
    THREE.y cam = THREE.y (Player.position p') + Player.eyeHeight p /\
    THREE.z cam = THREE.z (Player.position p') /\
    THREE.y cam >= Player.groundLevel p + Player.eyeHeight p.
Proof.
  intros dt k p c Hmode p' cam.
  assert (Hnf : CameraController.currentMode c <> CameraController.FREE_CAMERA)
    by (rewrite Hmode; discriminate).
  destruct (step_grounded dt k p c Hnf) as (Hpos & Heye & _ & Hcam).
  fold p' in Hpos, Heye, Hcam.
  assert (Hc : cam = THREE.mkVector3 (THREE.x (Player.position p'))
                       (THREE.y (Player.position p') + Player.eyeHeight p)
                       (THREE.z (Player.position p'))).
  { subst cam. rewrite Hcam. unfold CameraView.update. rewrite Hmode.
    unfold CameraView.updateFirstPerson. rewrite Heye. reflexivity. }
  rewrite Hc. cbn [THREE.x THREE.y THREE.z].
  repeat split.
  rewrite Hpos.
  destruct (tick_vertical (Player.mkFrame dt k c) p Hnf) as (-> & _ & _).
  match goal with
  | |- (if ?a <=? ?b then _ else _) + _ >= _ =>
      destruct (Rle_dec a b);
      [rewrite Rleb_true by assumption | rewrite Rleb_false by lra]; lra
  end.
Qed.

Lemma length_nonneg : forall v : THREE.Vector3, 0 <= THREE.length v.
Proof. intros v. unfold THREE.length. apply sqrt_pos. Qed.

Lemma length_zero_components : forall v : THREE.Vector3,
  ~ THREE.length v > 0 ->
  THREE.x v = 0 /\ THREE.y v = 0 /\ THREE.z v = 0.
Proof.
  intros v Hnot. pose proof (length_nonneg v) as H0.
  assert (Hz : THREE.length v = 0) by lra.
  pose proof (length_square v) as Hsq. rewrite Hz in Hsq.
  repeat split; nra.
Qed.

(** A normalised vector has length 1. *)
Lemma normalize_unit : forall v : THREE.Vector3,
  THREE.length v > 0 ->
  THREE.x (THREE.normalize v) * THREE.x (THREE.normalize v)
  + THREE.y (THREE.normalize v) * THREE.y (THREE.normalize v)
  + THREE.z (THREE.normalize v) * THREE.z (THREE.normalize v) = 1.
Proof.
  intros v Hpos. rewrite normalize_components by assumption.
  cbn [THREE.x THREE.y THREE.z].
  pose proof (length_square v) as Hsq.
  set (L := THREE.length v) in *.
  replace (THREE.x v * (1 / L) * (THREE.x v * (1 / L))
           + THREE.y v * (1 / L) * (THREE.y v * (1 / L))
           + THREE.z v * (1 / L) * (THREE.z v * (1 / L)))
    with ((THREE.x v * THREE.x v + THREE.y v * THREE.y v
           + THREE.z v * THREE.z v) / (L * L))
    by (field; lra).
  rewrite <- Hsq. field. lra.
Qed.

(** X13.  In free-camera mode a frame moves the camera by exactly the
    current speed times the time step (in absolute value) in three
    dimensions whenever the keys ask for some direction, and not at all
    otherwise: there is no gravity.  The player's position is the camera's
    after the frame, and the player's velocity and grounded flag are not
    touched. *)
Theorem free_camera_flight :
  forall (dt : R) (k : Keys.t) (p : Player.t) (c : CameraController.t),
    CameraController.currentMode c = CameraController.FREE_CAMERA ->
    let p' := fst (Viewer.step dt k (p, c)) in
    let c' := snd (Viewer.step dt k (p, c)) in
    let cur := if Keys.sprint k then Player.fastSpeed p else Player.speed p in
    Player.position p' = CameraController.camera_position c' /\
    Player.velocity p' = Player.velocity p /\
    Player.isGrounded p' = Player.isGrounded p /\
    (THREE.length (Player.freeDirection k c) > 0 ->
     distance (CameraController.camera_position c)
              (CameraController.camera_position c') = Rabs (cur * dt)) /\
    (~ THREE.length (Player.freeDirection k c) > 0 ->
     distance (CameraController.camera_position c)
              (CameraController.camera_position c') = 0).
Proof.
  intros dt k p c Hmode p' c' cur. subst p' c' cur.
  unfold Viewer.step, Player.update. rewrite Hmode.
  cbn [CameraController.Mode_eqb]. unfold Player.updateFreeCamera.
  cbn [Player.keys Player.with_keys Player.fastSpeed Player.speed
       Player.position Player.velocity Player.isGrounded fst snd].
  unfold CameraView.update.
  cbn [CameraController.currentMode CameraController.with_camera_position].
  rewrite Hmode. unfold CameraView.updateFreeCamera.
  cbn [CameraController.camera_position].
  split; [reflexivity |]. split; [reflexivity |]. split; [reflexivity |].
  set (m := Player.freeDirection k c).
  set (cur := if Keys.sprint k then Player.fastSpeed p else Player.speed p).
  unfold distance, THREE.length, THREE.sub, THREE.add, THREE.multiplyScalar,
    CameraController.with_camera_position.
  cbn [CameraController.camera_position THREE.x THREE.y THREE.z].
  split.
  - intros Hpos. rewrite Rgtb_true by exact Hpos.
    pose proof (normalize_unit m Hpos) as Hunit.
    set (n := THREE.normalize m) in *.
    rewrite <- sqrt_Rsqr_abs. f_equal. unfold Rsqr.
    transitivity ((THREE.x n * THREE.x n + THREE.y n * THREE.y n
                   + THREE.z n * THREE.z n) * (cur * dt * (cur * dt)));
      [ring | rewrite Hunit; ring].
  - intros Hnot. rewrite Rgtb_false by lra.
    destruct (length_zero_components m Hnot) as (-> & -> & ->).
    match goal with
    | |- sqrt ?e = 0 => replace e with 0 by ring
    end.
    apply sqrt_0.
Qed.

Lemma pitch_range_ordered :
  - PI / 2 < CameraLook.pitchMin /\ CameraLook.pitchMin < CameraLook.pitchMax
  /\ CameraLook.pitchMax < PI / 2.
Proof.
  pose proof PI2_1 as H. unfold CameraLook.pitchMin, CameraLook.pitchMax.
  repeat split; lra.
Qed.

Lemma clamp_in_range : forall x : R,
  CameraLook.pitchMin
  <= Rmax CameraLook.pitchMin (Rmin CameraLook.pitchMax x)
  <= CameraLook.pitchMax.
Proof.
  intros x. destruct pitch_range_ordered as (_ & Hlt & _). split.
  - apply Rmax_l.
  - apply Rmax_lub; [lra | apply Rmin_l].
Qed.

Lemma handle_keeps_pitch :
  forall (e : CameraLook.Event) (m : CameraLook.t),
    CameraLook.pitchMin <= CameraController.pitch (CameraLook.controller m)
      <= CameraLook.pitchMax ->
    CameraLook.pitchMin
    <= CameraController.pitch
         (CameraLook.controller (CameraLook.handle e m))
    <= CameraLook.pitchMax.
Proof.
  intros [dx dy | locked] m Hm; cbn [CameraLook.handle].
  - unfold CameraLook.onMouseMove.
    destruct (CameraLook.isPointerLocked m); cbn [negb]; [| exact Hm].
    cbn [CameraLook.controller CameraController.pitch]. apply clamp_in_range.
  - exact Hm.
Qed.

(** X14.  Mouse look.  A mouse move with the pointer locked turns the yaw
    by [movementX * mouseSensitivity] and leaves the pitch between
    [-PI/2 + 0.1] and [PI/2 - 0.1], whatever it was; inside that range a
    move changes the pitch by exactly [movementY * mouseSensitivity].  With
    the pointer free a move changes nothing.  So from a pitch in the range
    (the constructor's is 0) every sequence of events keeps it there, and
    its cosine stays positive: the view never flips over the pole. *)
Theorem mouse_look_keeps_pitch_in_range :
  (forall (dx dy : R) (m : CameraLook.t),
     CameraLook.isPointerLocked m = true ->
     let c := CameraLook.controller m in
     let c' := CameraLook.controller (CameraLook.onMouseMove dx dy m) in
     CameraController.yaw c'
     = CameraController.yaw c - dx * CameraLook.mouseSensitivity m /\
     CameraLook.pitchMin <= CameraController.pitch c' <= CameraLook.pitchMax /\
     (CameraLook.pitchMin
      <= CameraController.pitch c - dy * CameraLook.mouseSensitivity m
      <= CameraLook.pitchMax ->
      CameraController.pitch c'
      = CameraController.pitch c - dy * CameraLook.mouseSensitivity m)) /\
  (forall (dx dy : R) (m : CameraLook.t),
     CameraLook.isPointerLocked m = false ->
     CameraLook.onMouseMove dx dy m = m) /\
  (forall (es : list CameraLook.Event) (m : CameraLook.t),
     CameraLook.pitchMin <= CameraController.pitch (CameraLook.controller m)
       <= CameraLook.pitchMax ->
     let c' := CameraLook.controller (CameraLook.handleAll es m) in
     CameraLook.pitchMin <= CameraController.pitch c' <= CameraLook.pitchMax /\
     0 < cos (CameraController.pitch c')).
Proof.
  split; [| split].
  - intros dx dy m Hlock c c'. subst c c'. unfold CameraLook.onMouseMove.
    rewrite Hlock. cbn [negb CameraLook.controller CameraController.yaw
                        CameraController.pitch].
    split; [reflexivity |]. split; [apply clamp_in_range |].
    intros Hin. rewrite Rmin_right by lra. rewrite Rmax_right by lra.
    reflexivity.
  - intros dx dy m Hfree. unfold CameraLook.onMouseMove. rewrite Hfree.
    reflexivity.
  - induction es as [| e es IH]; intros m Hm c'.
    + subst c'. cbn [CameraLook.handleAll]. split; [exact Hm |].
      destruct pitch_range_ordered as (H1 & _ & H2).
      apply cos_gt_0; lra.
    + subst c'. cbn [CameraLook.handleAll]. apply IH.
      apply handle_keeps_pitch. exact Hm.
Qed.

(** X15.  [setGroundLevel(level)] stores the level and lifts a player
    that is below it up to it; it never lowers the player and never moves
    it sideways.  Afterwards [position.y >= groundLevel] holds, and a
    following first- or third-person update keeps the player at or above
    the new level. *)
Theorem setGroundLevel_lifts_only :
  forall (level : R) (p : Player.t),
    let p' := Player.setGroundLevel level p in
    Player.groundLevel p' = level /\
    THREE.y (Player.position p') = Rmax (THREE.y (Player.position p)) level /\
    THREE.y (Player.position p') >= level /\
    THREE.y (Player.position p') >= THREE.y (Player.position p) /\
    THREE.x (Player.position p') = THREE.x (Player.position p) /\
    THREE.z (Player.position p') = THREE.z (Player.position p) /\
    forall f : Player.Frame,
      CameraController.currentMode (Player.frame_camera f)
        <> CameraController.FREE_CAMERA ->
      THREE.y (Player.position (Player.tick f p')) >= level.
Proof.
  intros level p p'.
  assert (Hy : THREE.y (Player.position p')
               = Rmax (THREE.y (Player.position p)) level
               /\ THREE.x (Player.position p') = THREE.x (Player.position p)
               /\ THREE.z (Player.position p') = THREE.z (Player.position p)).
  { subst p'. unfold Player.setGroundLevel. cbn [Player.position].
    destruct (Rlt_dec (THREE.y (Player.position p)) level) as [Hlt | Hge].
    - rewrite Rltb_true by exact Hlt. cbn [THREE.x THREE.y THREE.z].
      rewrite Rmax_right by lra. repeat split.
    - rewrite Rltb_false by lra. rewrite Rmax_left by lra. repeat split. }
  destruct Hy as (Hy & Hx & Hz).
  pose proof (Rmax_l (THREE.y (Player.position p)) level).
  pose proof (Rmax_r (THREE.y (Player.position p)) level).
  split; [reflexivity |]. split; [exact Hy |].
  split; [lra |]. split; [lra |]. split; [exact Hx |]. split; [exact Hz |].
  intros f Hmode.
  destruct (tick_vertical f p' Hmode) as (-> & _ & _).
  change (Player.groundLevel p') with level.
  match goal with
  | |- (if ?a <=? ?b then _ else _) >= _ =>
      destruct (Rle_dec a b);
      [rewrite Rleb_true by assumption | rewrite Rleb_false by lra]; lra
  end.
Qed.

(** Without jump input the player follows the free fall as long as the
    free-fall height stays above the ground, from any start. *)
Lemma free_fall_closed_form :
  forall (frames : nat -> Player.Frame) (p : Player.t) (dt : R),
    (forall i : nat,
       Player.frame_dt (frames i) = dt /\
       Keys.jump (Player.frame_keys (frames i)) = false /\
       CameraController.currentMode (Player.frame_camera (frames i))
         <> CameraController.FREE_CAMERA) ->
    forall m : nat,
      (forall j : nat, (1 <= j <= m)%nat ->
         Player.groundLevel p
         < fallY (THREE.y (Player.position p)) (THREE.y (Player.velocity p))
                 (Player.gravity p) dt j) ->
      THREE.y (Player.position (Player.run frames m p))
        = fallY (THREE.y (Player.position p)) (THREE.y (Player.velocity p))
                (Player.gravity p) dt m /\
      THREE.y (Player.velocity (Player.run frames m p))
        = fallV (THREE.y (Player.velocity p)) (Player.gravity p) dt m /\
      Player.gravity (Player.run frames m p) = Player.gravity p /\
      Player.groundLevel (Player.run frames m p) = Player.groundLevel p.
Proof.
  intros frames p dt Hframes.
  induction m as [| m IH]; intros Habove.
  - cbn [Player.run]. rewrite fallY_0, fallV_0. repeat split.
  - destruct IH as (IHy & IHv & IHgrav & IHlevel).
    { intros j Hj. apply Habove. lia. }
    cbn [Player.run].
    destruct (Hframes m) as (Hdt & Hjump & Hmode).
    destruct (tick_parameters (frames m) (Player.run frames m p))
      as (Pg & Pl & _).
    destruct (tick_vertical (frames m) (Player.run frames m p) Hmode)
      as (Ty & Tv & _).
    rewrite Hjump in Ty, Tv. cbn [andb] in Ty, Tv.
    rewrite IHy, IHv, IHgrav, IHlevel, Hdt in Ty, Tv.
    rewrite <- fallV_S in Ty, Tv. rewrite <- fallY_S in Ty, Tv.
    assert (Hup : Player.groundLevel p
                  < fallY (THREE.y (Player.position p))
                      (THREE.y (Player.velocity p)) (Player.gravity p) dt (S m))
      by (apply Habove; lia).
    rewrite Rleb_false in Ty, Tv by lra.
    rewrite Ty, Tv, Pg, Pl. repeat split; assumption.
Qed.

(** A player resting on the ground keeps resting when the jump key is
    up. *)
Lemma rest_tick : forall (f : Player.Frame) (p : Player.t),
  CameraController.currentMode (Player.frame_camera f)
    <> CameraController.FREE_CAMERA ->
  Keys.jump (Player.frame_keys f) = false ->
  0 <= Player.frame_dt f -> Player.gravity p <= 0 ->
  THREE.y (Player.position p) = Player.groundLevel p ->
  THREE.y (Player.velocity p) = 0 ->
  THREE.y (Player.position (Player.tick f p)) = Player.groundLevel p /\
  THREE.y (Player.velocity (Player.tick f p)) = 0 /\
  Player.isGrounded (Player.tick f p) = true.
Proof.
  intros f p Hmode Hjump Hdt Hgrav Hy Hv.
  destruct (tick_vertical f p Hmode) as (Ty & Tv & Tg).
  rewrite Hjump in Ty, Tv, Tg. cbn [andb] in Ty, Tv, Tg.
  rewrite Hy, Hv in Ty, Tv, Tg.
  assert (Hland : Player.groundLevel p
                  + (0 + Player.gravity p * Player.frame_dt f)
                    * Player.frame_dt f <= Player.groundLevel p) by nra.
  rewrite Rleb_true in Ty, Tv, Tg by exact Hland.
  repeat split; assumption.
Qed.

(** X16.  Nobody floats.  In first- or third-person mode, with negative
    gravity, the same positive time step every frame and the jump key up,
    the player is on the ground after finitely many ticks, from any height
    and vertical velocity (in mid-air after the ground level was lowered,
    or below the ground), and stays there from then on:
    [position.y = groundLevel], [isGrounded] set, [velocity.y = 0]. *)
Theorem player_lands_and_rests :
  forall (frames : nat -> Player.Frame) (p : Player.t) (dt : R),
    0 < dt -> Player.gravity p < 0 ->
    (forall i : nat,
       Player.frame_dt (frames i) = dt /\
       Keys.jump (Player.frame_keys (frames i)) = false /\
       CameraController.currentMode (Player.frame_camera (frames i))
         <> CameraController.FREE_CAMERA) ->
    exists n : nat, forall m : nat, (n <= m)%nat ->
      THREE.y (Player.position (Player.run frames m p)) = Player.groundLevel p
      /\ Player.isGrounded (Player.run frames m p) = true
      /\ THREE.y (Player.velocity (Player.run frames m p)) = 0.
Proof.
  intros frames p dt Hdt Hgrav Hframes.
  set (y0 := THREE.y (Player.position p)).
  set (v0 := THREE.y (Player.velocity p)).
  set (P := fun j : nat =>
              fallY y0 v0 (Player.gravity p) dt (S j) <= Player.groundLevel p).
  assert (Hdec : forall j, P j \/ ~ P j).
  { intros j. unfold P.
    destruct (Rle_dec (fallY y0 v0 (Player.gravity p) dt (S j))
                      (Player.groundLevel p)); [left | right]; assumption. }
  destruct (fall_reaches_ground (y0 + v0 * dt + Player.gravity p * dt * dt)
              (v0 + Player.gravity p * dt) (Player.gravity p) dt
              (Player.groundLevel p) Hgrav Hdt) as [N HN].
  assert (HPN : P N).
  { unfold P. revert HN. unfold fallY. rewrite S_INR. intros HN.
    replace (y0 + (INR N + 1) * v0 * dt
             + Player.gravity p * dt * dt * ((INR N + 1) * (INR N + 1 + 1) / 2))
      with (y0 + v0 * dt + Player.gravity p * dt * dt
            + INR N * (v0 + Player.gravity p * dt) * dt
            + Player.gravity p * dt * dt * (INR N * (INR N + 1) / 2))
      by field.
    exact HN. }
  destruct (first_index P Hdec N HPN) as [n0 [Hn0 Hfirst]].
  destruct (free_fall_closed_form frames p dt Hframes n0)
    as (Cy & Cv & Cgrav & Cl).
  { intros j Hj. destruct j as [| j]; [lia |].
    apply Rnot_le_lt. apply (Hfirst j). lia. }
  fold y0 v0 in Cy, Cv.
  assert (Hland :
    THREE.y (Player.position (Player.run frames (S n0) p))
      = Player.groundLevel p /\
    Player.isGrounded (Player.run frames (S n0) p) = true /\
    THREE.y (Player.velocity (Player.run frames (S n0) p)) = 0).
  { cbn [Player.run].
    destruct (Hframes n0) as (Fdt & Fjump & Fmode).
    destruct (tick_vertical (frames n0) (Player.run frames n0 p) Fmode)
      as (Ty & Tv & Tg).
    rewrite Fjump in Ty, Tv, Tg. cbn [andb] in Ty, Tv, Tg.
    rewrite Cy, Cv, Cgrav, Cl, Fdt in Ty, Tv, Tg.
    rewrite <- fallV_S in Ty, Tv, Tg. rewrite <- fallY_S in Ty, Tv, Tg.
    unfold P in Hn0. rewrite Rleb_true in Ty, Tv, Tg by exact Hn0.
    repeat split; assumption. }
  exists (S n0). intros m Hm.
  assert (Hinv :
    THREE.y (Player.position (Player.run frames m p)) = Player.groundLevel p
    /\ Player.isGrounded (Player.run frames m p) = true
    /\ THREE.y (Player.velocity (Player.run frames m p)) = 0
    /\ Player.gravity (Player.run frames m p) = Player.gravity p
    /\ Player.groundLevel (Player.run frames m p) = Player.groundLevel p).
  { induction m as [| m IH]; [lia |].
    destruct (Nat.eq_dec (S m) (S n0)) as [Heq | Hne].
    - rewrite Heq. destruct Hland as (L1 & L2 & L3).
      repeat split; try assumption.
      + cbn [Player.run].
        destruct (tick_parameters (frames n0) (Player.run frames n0 p))
          as (-> & _). exact Cgrav.
      + cbn [Player.run].
        destruct (tick_parameters (frames n0) (Player.run frames n0 p))
          as (_ & -> & _). exact Cl.
    - destruct IH as (IHy & IHg & IHv & IHgrav & IHl); [lia |].
      cbn [Player.run].
      destruct (Hframes m) as (Fdt & Fjump & Fmode).
      destruct (tick_parameters (frames m) (Player.run frames m p))
        as (Pg & Pl & _).
      destruct (rest_tick (frames m) (Player.run frames m p) Fmode Fjump)
        as (R1 & R2 & R3).
      + rewrite Fdt. lra.
      + rewrite IHgrav. lra.
      + rewrite IHl. exact IHy.
      + exact IHv.
      + rewrite R1, R2, R3, Pg, Pl, IHgrav, IHl. repeat split. }
  destruct Hinv as (H1 & H2 & H3 & _). repeat split; assumption.
Qed.

(** When no direction is asked for, a grounded tick does not move the
    player horizontally. *)
Lemma horizontalDisplacement_tick_still :
  forall (f : Player.Frame) (p : Player.t),
    CameraController.currentMode (Player.frame_camera f)
      <> CameraController.FREE_CAMERA ->
    ~ THREE.length (Player.horizontalDirection (Player.frame_keys f)
                      (Player.frame_camera f)) > 0 ->
    THREE.x (Player.position (Player.tick f p)) = THREE.x (Player.position p)
    /\ THREE.z (Player.position (Player.tick f p))
       = THREE.z (Player.position p)
    /\ horizontalDisplacement p (Player.tick f p) = 0.
Proof.
  intros f p Hmode Hnot.
  destruct (tick_horizontal f p Hmode) as (Hx & Hz).
  rewrite Rgtb_false in Hx, Hz by lra.
  destruct (length_zero_components _ Hnot) as (Mx & _ & Mz).
  rewrite Mx in Hx. rewrite Mz in Hz.
  assert (Hx' : THREE.x (Player.position (Player.tick f p))
                = THREE.x (Player.position p)) by (rewrite Hx; ring).
  assert (Hz' : THREE.z (Player.position (Player.tick f p))
                = THREE.z (Player.position p)) by (rewrite Hz; ring).
  split; [exact Hx' |]. split; [exact Hz' |].
  unfold horizontalDisplacement. cbv zeta. rewrite Hx', Hz'.
  match goal with
  | |- sqrt ?e = 0 => replace e with 0 by ring
  end.
  apply sqrt_0.
Qed.

(** X17.  After [setSpeed(v)], sprinting is exactly twice as fast as
    walking: for the same keys, camera and time step the horizontal
    displacement of a first- or third-person tick with the sprint key down
    is twice the one with the sprint key up. *)
Theorem sprint_doubles_displacement :
  forall (v dt : R) (k : Keys.t) (c : CameraController.t) (p : Player.t),
    CameraController.currentMode c <> CameraController.FREE_CAMERA ->
    let q := Player.setSpeed v p in
    horizontalDisplacement q
      (Player.tick (Player.mkFrame dt (with_sprint true k) c) q)
    = 2 * horizontalDisplacement q
            (Player.tick (Player.mkFrame dt (with_sprint false k) c) q).
Proof.
  intros v dt k c p Hmode q.
  destruct (Rgt_dec (THREE.length (Player.horizontalDirection k c)) 0)
    as [Hpos | Hnot].
  - rewrite !horizontalDisplacement_tick
      by (try exact Hmode; exact Hpos).
    cbn [Player.frame_keys Player.frame_dt with_sprint Keys.sprint].
    subst q. cbn [Player.setSpeed Player.fastSpeed Player.speed].
    replace (v * 2 * dt) with (2 * (v * dt)) by ring.
    rewrite Rabs_mult, (Rabs_pos_eq 2) by lra. reflexivity.
  - destruct (horizontalDisplacement_tick_still
                (Player.mkFrame dt (with_sprint true k) c) q Hmode Hnot)
      as (_ & _ & ->).
    destruct (horizontalDisplacement_tick_still
                (Player.mkFrame dt (with_sprint false k) c) q Hmode Hnot)
      as (_ & _ & ->).
    ring.
Qed.

(** X18.  Opposite keys cancel.  In first- or third-person mode, when
    forward and backward are in the same state and left and right are in
    the same state (all up, or pressed in opposite pairs), a tick does not
    move the player horizontally, whatever the yaw, speed and time step. *)
Theorem opposite_keys_cancel :
  forall (f : Player.Frame) (p : Player.t),
    CameraController.currentMode (Player.frame_camera f)
      <> CameraController.FREE_CAMERA ->
    Keys.forward (Player.frame_keys f) = Keys.backward (Player.frame_keys f) ->
    Keys.left (Player.frame_keys f) = Keys.right (Player.frame_keys f) ->
    THREE.x (Player.position (Player.tick f p)) = THREE.x (Player.position p)
    /\ THREE.z (Player.position (Player.tick f p))
       = THREE.z (Player.position p)
    /\ horizontalDisplacement p (Player.tick f p) = 0.
Proof.
  intros f p Hmode Hfb Hlr.
  apply horizontalDisplacement_tick_still; [exact Hmode |].
  assert (Hzero : THREE.length
                    (Player.horizontalDirection (Player.frame_keys f)
                       (Player.frame_camera f)) = 0).
  { unfold Player.horizontalDirection.
    rewrite getForwardVector_eq, getRightVector_eq, Hfb, Hlr.
    unfold THREE.length.
    destruct (Keys.backward (Player.frame_keys f)),
             (Keys.right (Player.frame_keys f));
      three_arith;
      match goal with
      | |- sqrt ?e = 0 => replace e with 0 by ring
      end; apply sqrt_0. }
  rewrite Hzero. lra.
Qed.

(** While the player has not been grounded, it follows the free fall. *)
Lemma airborne_run_closed_form :
  forall (frames : nat -> Player.Frame) (p : Player.t) (dt : R),
    (forall i : nat,
       Player.frame_dt (frames i) = dt /\
       CameraController.currentMode (Player.frame_camera (frames i))
         <> CameraController.FREE_CAMERA) ->
    forall m : nat,
      (forall j : nat, (j <= m)%nat ->
         Player.isGrounded (Player.run frames j p) = false) ->
      THREE.y (Player.position (Player.run frames m p))
        = fallY (THREE.y (Player.position p)) (THREE.y (Player.velocity p))
                (Player.gravity p) dt m /\
      THREE.y (Player.velocity (Player.run frames m p))
        = fallV (THREE.y (Player.velocity p)) (Player.gravity p) dt m /\
      Player.gravity (Player.run frames m p) = Player.gravity p /\
      Player.groundLevel (Player.run frames m p) = Player.groundLevel p.
Proof.
  intros frames p dt Hframes.
  induction m as [| m IH]; intros Hair.
  - cbn [Player.run]. rewrite fallY_0, fallV_0. repeat split.
  - destruct IH as (IHy & IHv & IHgrav & IHlevel).
    { intros j Hj. apply Hair. lia. }
    pose proof (Hair m (Nat.le_succ_diag_r m)) as Hm.
    pose proof (Hair (S m) (Nat.le_refl _)) as HSm.
    cbn [Player.run] in HSm |- *.
    destruct (Hframes m) as (Hdt & Hmode).
    destruct (tick_parameters (frames m) (Player.run frames m p))
      as (Pg & Pl & _).
    destruct (tick_vertical (frames m) (Player.run frames m p) Hmode)
      as (Ty & Tv & Tg).
    rewrite Hm, andb_false_r, IHy, IHv, IHgrav, IHlevel, Hdt in Ty, Tv, Tg.
    rewrite <- fallV_S in Ty, Tv, Tg. rewrite <- fallY_S in Ty, Tv, Tg.
    rewrite HSm in Tg.
    destruct (fallY (THREE.y (Player.position p))
                (THREE.y (Player.velocity p)) (Player.gravity p) dt (S m)
              <=? Player.groundLevel p); [discriminate Tg |].
    rewrite Ty, Tv, Pg, Pl. repeat split; assumption.
Qed.

(** The free-fall height never exceeds the apex of the parabola. *)
Lemma fallY_below_apex : forall (y0 v0 g dt : R) (m : nat),
  g < 0 -> 0 <= dt ->
  fallY y0 v0 g dt m <= y0 + v0 * v0 / (2 * - g).
Proof.
  intros y0 v0 g dt m Hg Hdt. unfold fallY.
  pose proof (pos_INR m) as Hm.
  set (n := INR m) in *. set (u := n * dt).
  assert (Hu : 0 <= u) by (unfold u; apply Rmult_le_pos; lra).
  assert (Hsq : 0 <= (v0 + g * u) * (v0 + g * u))
    by (pose proof (Rle_0_sqr (v0 + g * u)) as H; exact H).
  assert (Hextra : g * dt * dt * n <= 0).
  { assert (H1 : 0 <= dt * dt) by (apply Rmult_le_pos; lra).
    assert (H2 : 0 <= dt * dt * n) by (apply Rmult_le_pos; lra).
    replace (g * dt * dt * n) with (- (- g * (dt * dt * n))) by ring.
    assert (0 <= - g * (dt * dt * n)) by (apply Rmult_le_pos; lra).
    lra. }
  assert (Hapex : v0 * u + g * u * u / 2 <= v0 * v0 / (2 * - g)).
  { apply Rmult_le_reg_r with (2 * - g); [lra |].
    replace (v0 * v0 / (2 * - g) * (2 * - g)) with (v0 * v0) by (field; lra).
    replace ((v0 * u + g * u * u / 2) * (2 * - g))
      with (v0 * v0 - (v0 + g * u) * (v0 + g * u)) by field.
    lra. }
  replace (y0 + n * v0 * dt + g * dt * dt * (n * (n + 1) / 2))
    with (y0 + (v0 * u + g * u * u / 2) + g * dt * dt * n / 2)
    by (unfold u; field).
  lra.
Qed.

(** One tick in the air that does not reach the ground. *)
Lemma airborne_tick : forall (f : Player.Frame) (p : Player.t),
  CameraController.currentMode (Player.frame_camera f)
    <> CameraController.FREE_CAMERA ->
  Player.isGrounded p = false ->
  let vy := THREE.y (Player.velocity p)
            + Player.gravity p * Player.frame_dt f in
  Player.groundLevel p < THREE.y (Player.position p) + vy * Player.frame_dt f ->
  THREE.y (Player.position (Player.tick f p))
    = THREE.y (Player.position p) + vy * Player.frame_dt f /\
  THREE.y (Player.velocity (Player.tick f p)) = vy /\
  Player.isGrounded (Player.tick f p) = false /\
  Player.gravity (Player.tick f p) = Player.gravity p /\
  Player.groundLevel (Player.tick f p) = Player.groundLevel p.
Proof.
  intros f p Hmode Hair vy Habove.
  destruct (tick_vertical f p Hmode) as (Ty & Tv & Tg).
  destruct (tick_parameters f p) as (Pg & Pl & _).
  rewrite Hair, andb_false_r in Ty, Tv, Tg. fold vy in Ty, Tv, Tg.
  rewrite Rleb_false in Ty, Tv, Tg by lra.
  repeat split; assumption.
Qed.

(** X19.  A jump is bounded.  After the tick that starts a jump (as in
    C6), as long as the player has not been grounded again it is never
    higher than the take-off height plus the first tick's rise
    [jumpForce * dt] plus [jumpForce^2 / (2 * |gravity|)], the apex of the
    parabola: the discrete integrator never overshoots it. *)
Theorem jump_height_bounded :
  forall (p : Player.t) (c : CameraController.t) (k : Keys.t) (dt : R)
         (frames : nat -> Player.Frame),
    CameraController.currentMode c <> CameraController.FREE_CAMERA ->
    Keys.jump k = true -> Player.isGrounded p = true ->
    Player.groundLevel p <= THREE.y (Player.position p) ->
    0 < Player.jumpForce p -> 0 < dt -> Player.gravity p < 0 ->
    (forall i : nat,
       Player.frame_dt (frames i) = dt /\
       CameraController.currentMode (Player.frame_camera (frames i))
         <> CameraController.FREE_CAMERA) ->
    let p1 := Player.tick (Player.mkFrame dt k c) p in
    forall m : nat,
      (forall j : nat, (j <= m)%nat ->
         Player.isGrounded (Player.run frames j p1) = false) ->
      THREE.y (Player.position (Player.run frames m p1))
      <= THREE.y (Player.position p) + Player.jumpForce p * dt
         + Player.jumpForce p * Player.jumpForce p
           / (2 * - Player.gravity p).
Proof.
  intros p c k dt frames Hmode Hjump Hg Hy Hforce Hdt Hgrav Hframes p1 m Hair.
  destruct (jump_tick p c k dt Hmode Hjump Hg Hy Hforce Hdt)
    as (Jy & Jv & _).
  fold p1 in Jy, Jv.
  destruct (tick_parameters (Player.mkFrame dt k c) p) as (Pg & _).
  fold p1 in Pg.
  destruct (airborne_run_closed_form frames p1 dt Hframes m Hair)
    as (-> & _).
  rewrite Jy, Jv, Pg.
  apply fallY_below_apex; lra.
Qed.

(** * Properties of the post-processing manager *)

Lemma Pass_eqb_eq : forall a b : PostProcessingManager.Pass,
  PostProcessingManager.Pass_eqb a b = true <-> a = b.
Proof. intros [] []; cbn; split; intros H; try reflexivity; discriminate. Qed.

(** Removing a pass that occurs only at the end removes the end. *)
Lemma removePass_last :
  forall (ps : list PostProcessingManager.Pass)
         (x : PostProcessingManager.Pass),
    ~ In x ps -> PostProcessingManager.removePass x (ps ++ [x]) = ps.
Proof.
  induction ps as [| q ps IH]; intros x Hnot.
  - cbn. destruct (PostProcessingManager.Pass_eqb x x) eqn:E; [reflexivity |].
    assert (PostProcessingManager.Pass_eqb x x = true)
      by (apply Pass_eqb_eq; reflexivity).
    congruence.
  - cbn. destruct (PostProcessingManager.Pass_eqb q x) eqn:E.
    + apply Pass_eqb_eq in E. subst q. exfalso. apply Hnot. left. reflexivity.
    + rewrite IH; [reflexivity |]. intros Hin. apply Hnot. right. exact Hin.
Qed.

Lemma removeEffectPasses_keeps_first :
  forall (rest : list PostProcessingManager.Pass)
         (first : PostProcessingManager.Pass),
    NoDup (first :: rest) ->
    PostProcessingManager.removeEffectPasses (length (first :: rest))
      (first :: rest) = [first].
Proof.
  induction rest as [| x rest IH] using rev_ind; intros first Hnd.
  - reflexivity.
  - assert (Hlen : length (first :: rest ++ [x]) = S (length (first :: rest)))
      by (cbn; rewrite length_app; cbn; lia).
    rewrite Hlen. cbn [PostProcessingManager.removeEffectPasses].
    assert (Hlong : (1 <? length (first :: rest ++ [x]))%nat = true)
      by (apply Nat.ltb_lt; rewrite Hlen; cbn; lia).
    rewrite Hlong.
    change (first :: rest ++ [x]) with ((first :: rest) ++ [x]) in *.
    rewrite last_last.
    assert (Hsplit : NoDup (first :: rest) /\ ~ In x (first :: rest)).
    { apply NoDup_remove in Hnd. rewrite app_nil_r in Hnd. exact Hnd. }
    destruct Hsplit as (Hnd' & Hnot).
    rewrite removePass_last by exact Hnot.
    apply IH. exact Hnd'.
Qed.

(** X20.  The loop that clears the effect passes ends with one pass left,
    and on a list without repetitions that pass is the first one: the
    render pass is never removed.  (One round per pass is enough; every
    round removes the last pass.) *)
Theorem updatePasses_keeps_render_pass :
  forall s : PostProcessingManager.t,
    NoDup (PostProcessingManager.passes s) ->
    hd_error (PostProcessingManager.passes s)
      = Some PostProcessingManager.RenderPass ->
    PostProcessingManager.removeEffectPasses
      (length (PostProcessingManager.passes s))
      (PostProcessingManager.passes s) = [PostProcessingManager.RenderPass]
    /\ PostProcessingManager.passes (PostProcessingManager.updatePasses s)
       = PostProcessingManager.chainFor s.
Proof.
  intros s Hnd Hhd.
  destruct (PostProcessingManager.passes s) as [| first rest] eqn:Hps;
    [discriminate Hhd |].
  cbn in Hhd. injection Hhd as ->.
  pose proof (removeEffectPasses_keeps_first rest _ Hnd) as Hloop.
  split; [exact Hloop |].
  unfold PostProcessingManager.updatePasses, PostProcessingManager.chainFor.
  rewrite Hps, Hloop.
  destruct (PostProcessingManager.enabled s),
           (PostProcessingManager.bloomEnabled s),
           (PostProcessingManager.ssaoEnabled s),
           (PostProcessingManager.isActive (PostProcessingManager.glitchEffect s));
    reflexivity.
Qed.

Lemma chainFor_NoDup : forall s : PostProcessingManager.t,
  NoDup (PostProcessingManager.chainFor s).
Proof.
  intros s. unfold PostProcessingManager.chainFor.
  destruct (PostProcessingManager.enabled s),
           (PostProcessingManager.bloomEnabled s),
           (PostProcessingManager.ssaoEnabled s),
           (PostProcessingManager.isActive (PostProcessingManager.glitchEffect s));
    cbn; repeat constructor; cbn; intuition discriminate.
Qed.

Lemma perform_chain :
  forall (c : PostProcessingManager.Call) (s : PostProcessingManager.t),
    PostProcessingManager.passes s = PostProcessingManager.chainFor s ->
    PostProcessingManager.passes (PostProcessingManager.perform c s)
    = PostProcessingManager.chainFor (PostProcessingManager.perform c s).
Proof.
  intros c s Hs.
  assert (Hup : forall s1 : PostProcessingManager.t,
            PostProcessingManager.passes s1 = PostProcessingManager.passes s ->
            PostProcessingManager.passes (PostProcessingManager.updatePasses s1)
            = PostProcessingManager.chainFor
                (PostProcessingManager.updatePasses s1)).
  { intros s1 H1.
    destruct (updatePasses_keeps_render_pass s1) as (_ & ->).
    - rewrite H1, Hs. apply chainFor_NoDup.
    - rewrite H1, Hs. reflexivity.
    - destruct s1 as [en bl ss ps bp sp gp [ia ag ut ud ud2 us ui]].
      destruct en, bl, ss, ia; reflexivity. }
  destruct c; cbn [PostProcessingManager.perform];
    unfold PostProcessingManager.setEnabled,
      PostProcessingManager.setBloomEnabled,
      PostProcessingManager.setSSAOEnabled,
      PostProcessingManager.setGlitchEnabled;
    apply Hup; reflexivity.
Qed.

(** X21.  The pass list depends on the current switches only.  After any
    sequence of [setEnabled], [setBloomEnabled], [setSSAOEnabled] and
    [setGlitchEnabled] calls on a fresh manager, the composer's passes are
    the render pass, then (if post-processing is enabled) bloom if switched
    on, SSAO if switched on, the enhanced pass, and the glitch pass if the
    glitch is active, in this order and without repetition; when
    post-processing is disabled the render pass is alone. *)
Theorem pass_chain_follows_switches :
  forall cs : list PostProcessingManager.Call,
    let s := PostProcessingManager.performAll cs
               PostProcessingManager.constructor in
    PostProcessingManager.passes s = PostProcessingManager.chainFor s /\
    NoDup (PostProcessingManager.passes s) /\
    (PostProcessingManager.enabled s = false ->
     PostProcessingManager.passes s = [PostProcessingManager.RenderPass]).
Proof.
  intros cs s.
  assert (Hinv : forall (cs : list PostProcessingManager.Call)
                        (s0 : PostProcessingManager.t),
            PostProcessingManager.passes s0
              = PostProcessingManager.chainFor s0 ->
            PostProcessingManager.passes
              (PostProcessingManager.performAll cs s0)
            = PostProcessingManager.chainFor
                (PostProcessingManager.performAll cs s0)).
  { clear. induction cs as [| c cs IH]; intros s0 H0; [exact H0 |].
    cbn [PostProcessingManager.performAll]. apply IH.
    apply perform_chain. exact H0. }
  assert (Hs : PostProcessingManager.passes s
               = PostProcessingManager.chainFor s)
    by (apply Hinv; reflexivity).
  split; [exact Hs |]. split.
  - rewrite Hs. apply chainFor_NoDup.
  - intros Hoff. rewrite Hs. unfold PostProcessingManager.chainFor.
    rewrite Hoff. reflexivity.
Qed.

(** * Properties of the keyboard input *)

Lemma getKey_setKey :
  forall (a b : PlayerInput.Action) (v : bool) (k : Keys.t),
    PlayerInput.getKey a (PlayerInput.setKey b v k)
    = if PlayerInput.Action_eqb b a then v else PlayerInput.getKey a k.
Proof. intros [] [] v k; reflexivity. Qed.

(** X22.  Each entry of [keys] is what the most recent key event mapped to
    that entry did: pressed after a [keydown], released after a [keyup],
    unchanged if no event concerned it; events with a code outside the key
    map change nothing.  Both shift keys drive the one [sprint] entry, so
    releasing either shift key clears [sprint] even while the other is
    still held. *)
Theorem keys_follow_last_event :
  (forall (es : list PlayerInput.KeyEvent) (k : Keys.t)
          (a : PlayerInput.Action),
     PlayerInput.getKey a (PlayerInput.onKeys es k)
     = PlayerInput.lastFor a es (PlayerInput.getKey a k)) /\
  (forall (e : PlayerInput.KeyEvent) (k : Keys.t),
     PlayerInput.keyMap (PlayerInput.code e) = None ->
     PlayerInput.onKey e k = k) /\
  (forall k : Keys.t,
     Keys.sprint
       (PlayerInput.onKeys
          [PlayerInput.keyDown PlayerInput.shiftLeft;
           PlayerInput.keyDown PlayerInput.shiftRight;
           PlayerInput.keyUp PlayerInput.shiftRight] k) = false).
Proof.
  split; [| split].
  - induction es as [| e es IH]; intros k a; [reflexivity |].
    cbn [PlayerInput.onKeys PlayerInput.lastFor]. rewrite IH.
    unfold PlayerInput.onKey.
    destruct (PlayerInput.keyMap (PlayerInput.code e)) as [b |];
      [rewrite getKey_setKey |]; reflexivity.
  - intros e k Hnone. unfold PlayerInput.onKey. rewrite Hnone. reflexivity.
  - intros k. reflexivity.
Qed.

(** * Properties of the path-tracing settings *)

Lemma clamp_between : forall lo hi x : R,
  lo <= hi -> lo <= Rmax lo (Rmin hi x) <= hi.
Proof.
  intros lo hi x Hle. split.
  - apply Rmax_l.
  - apply Rmax_lub; [exact Hle | apply Rmin_l].
Qed.

Lemma clamp_inside : forall lo hi x : R,
  lo <= x <= hi -> Rmax lo (Rmin hi x) = x.
Proof.
  intros lo hi x Hx. rewrite Rmin_right by lra. apply Rmax_right. lra.
Qed.

Lemma perform_InRange :
  forall (c : PathTracingRenderer.Call) (s : PathTracingRenderer.t),
    PathTracingRenderer.InRange s ->
    PathTracingRenderer.InRange (PathTracingRenderer.perform c s).
Proof.
  intros c [rs b tb fg tx ty pt] (H1 & H2 & H3 & H4).
  cbn [PathTracingRenderer.renderScale PathTracingRenderer.bounces
       PathTracingRenderer.transmissiveBounces
       PathTracingRenderer.filterGlossyFactor] in *.
  destruct c as [x | x | x | x y | x], pt as [pt |];
    unfold PathTracingRenderer.InRange; cbn;
    repeat split; try lra;
    try (apply clamp_between; lra).
Qed.

(** X23.  The clamped path-tracing settings stay in range.  After any
    sequence of setter calls on a fresh renderer, [renderScale] is in
    [0.1, 1], [bounces] and [transmissiveBounces] are in [1, 20] and
    [filterGlossyFactor] is in [0, 1]; a value given inside its range is
    stored as it is, and one outside is replaced by the nearer bound. *)
Theorem path_tracing_settings_in_range :
  (forall cs : list PathTracingRenderer.Call,
     PathTracingRenderer.InRange
       (PathTracingRenderer.performAll cs PathTracingRenderer.constructor)) /\
  (forall (x : R) (s : PathTracingRenderer.t),
     (1 / 10 <= x <= 1 ->
      PathTracingRenderer.renderScale
        (PathTracingRenderer.setRenderScale x s) = x) /\
     (x < 1 / 10 ->
      PathTracingRenderer.renderScale
        (PathTracingRenderer.setRenderScale x s) = 1 / 10) /\
     (1 < x ->
      PathTracingRenderer.renderScale
        (PathTracingRenderer.setRenderScale x s) = 1) /\
     (1 <= x <= 20 ->
      PathTracingRenderer.bounces (PathTracingRenderer.setBounces x s) = x) /\
     (0 <= x <= 1 ->
      PathTracingRenderer.filterGlossyFactor
        (PathTracingRenderer.setFilterGlossyFactor x s) = x)).
Proof.
  split.
  - assert (Hinv : forall cs s, PathTracingRenderer.InRange s ->
              PathTracingRenderer.InRange
                (PathTracingRenderer.performAll cs s)).
    { induction cs as [| c cs IH]; intros s Hs; [exact Hs |].
      cbn [PathTracingRenderer.performAll]. apply IH.
      apply perform_InRange. exact Hs. }
    intros cs. apply Hinv.
    unfold PathTracingRenderer.InRange. cbn. repeat split; lra.
  - intros x [rs b tb fg tx ty pt].
    assert (Hrs : PathTracingRenderer.renderScale
                    (PathTracingRenderer.setRenderScale x
                       (PathTracingRenderer.mk rs b tb fg tx ty pt))
                  = Rmax (1 / 10) (Rmin 1 x))
      by (destruct pt; reflexivity).
    assert (Hb : PathTracingRenderer.bounces
                   (PathTracingRenderer.setBounces x
                      (PathTracingRenderer.mk rs b tb fg tx ty pt))
                 = Rmax 1 (Rmin 20 x))
      by (destruct pt; reflexivity).
    assert (Hf : PathTracingRenderer.filterGlossyFactor
                   (PathTracingRenderer.setFilterGlossyFactor x
                      (PathTracingRenderer.mk rs b tb fg tx ty pt))
                 = Rmax 0 (Rmin 1 x))
      by (destruct pt; reflexivity).
    rewrite Hrs, Hb, Hf.
    split; [intros H; apply clamp_inside; exact H |].
    split; [intros H; rewrite Rmin_right by lra; apply Rmax_left; lra |].
    split; [intros H; rewrite Rmin_left by lra; apply Rmax_right; lra |].
    split; intros H; apply clamp_inside; exact H.
Qed.

Lemma perform_Synced :
  forall (c : PathTracingRenderer.Call) (s : PathTracingRenderer.t),
    PathTracerSynced s -> PathTracerSynced (PathTracingRenderer.perform c s).
Proof.
  intros c [rs b tb fg tx ty [pt |]] Hs;
    destruct c; cbn in *; try exact I;
    destruct Hs as (H1 & H2 & H3 & H4 & H5 & H6); repeat split;
    assumption.
Qed.

(** X24.  The path tracer never lags behind the settings: if it carries
    the renderer's settings (as it does when created), it still does after
    any sequence of setter calls.  Every setter but
    [setFilterGlossyFactor] restarts the sampling (sample count 0);
    [setFilterGlossyFactor] leaves the sample count as it is. *)
Theorem path_tracer_follows_settings :
  (forall (cs : list PathTracingRenderer.Call) (s : PathTracingRenderer.t),
     PathTracerSynced s ->
     PathTracerSynced (PathTracingRenderer.performAll cs s)) /\
  (forall (c : PathTracingRenderer.Call) (s : PathTracingRenderer.t),
     samplesOf (PathTracingRenderer.perform c s)
     = match c with
       | PathTracingRenderer.SetFilterGlossyFactor _ => samplesOf s
       | _ => O
       end).
Proof.
  split.
  - induction cs as [| c cs IH]; intros s Hs; [exact Hs |].
    cbn [PathTracingRenderer.performAll]. apply IH.
    apply perform_Synced. exact Hs.
  - intros c [rs b tb fg tx ty [pt |]]; destruct c; reflexivity.
Qed.

(** * Instances of the further properties *)

Lemma lighting_never_stale_witness :
  TimeOfDayAPI.recomputes (TimeOfDayAPI.SetTime 7) = true /\
  TimeOfDaySystem.updateLighting
    (TimeOfDayAPI.performAll [TimeOfDayAPI.SetTimeSpeed 100]
       (TimeOfDayAPI.perform (TimeOfDayAPI.SetTime 7) sampleSystem))
  = TimeOfDayAPI.performAll [TimeOfDayAPI.SetTimeSpeed 100]
      (TimeOfDayAPI.perform (TimeOfDayAPI.SetTime 7) sampleSystem).
Proof.
  split; [reflexivity |].
  exact (proj1 (lighting_never_stale (TimeOfDayAPI.SetTime 7)
                  [TimeOfDayAPI.SetTimeSpeed 100] sampleSystem eq_refl)).
Defined.

Lemma wrap_does_not_move_the_sun_witness :
  TimeOfDaySystem.enabled (clockAt (239 / 10) 3600) = true /\
  TimeOfDaySystem.light_position
    (TimeOfDaySystem.directionalLight
       (TimeOfDaySystem.update 1 (clockAt (239 / 10) 3600)))
  = TimeOfDaySystem.sunPosition
      (TimeOfDaySystem.orbitRotation (clockAt (239 / 10) 3600))
      (TimeOfDaySystem.timeOfDay (clockAt (239 / 10) 3600)
       + 1 * TimeOfDaySystem.timeSpeed (clockAt (239 / 10) 3600) / 3600).
Proof.
  split; [reflexivity |].
  exact (proj1 (proj2 wrap_does_not_move_the_sun 1
                  (clockAt (239 / 10) 3600) eq_refl)).
Defined.

Lemma colors_stay_in_gamut_witness :
  0 <= 6 <= 24 /\
  1 / 10 <= Preset.sunIntensity (TimeOfDaySystem.getColorsForTime 6) <= 2.
Proof.
  assert (H : 0 <= 6 <= 24) by lra.
  split; [exact H |].
  destruct (colors_stay_in_gamut 6 H) as (_ & _ & _ & _ & Hint & _).
  exact Hint.
Defined.

Lemma updates_time_modulo_24_witness :
  TimeOfDaySystem.enabled (clockAt 12 3600) = true /\
  TimeOfDaySystem.timeOfDay (TimeOfDaySystem.updates 3 1 (clockAt 12 3600))
  = TimeOfDaySystem.timeOfDay (clockAt 12 3600)
    + INR 3 * (1 * TimeOfDaySystem.timeSpeed (clockAt 12 3600) / 3600).
Proof.
  split; [reflexivity |].
  apply (proj2 (updates_time_modulo_24 3 1 (clockAt 12 3600) eq_refl)).
  - change (0 <= 1 * 3600 / 3600). lra.
  - change (12 + (1 + 1 + 1) * (1 * 3600 / 3600) < 24). lra.
Defined.

Lemma getTimeString_format_witness :
  0 <= TimeOfDaySystem.timeOfDay sampleSystem < 24 /\
  String.length (TimeDisplay.getTimeString (fun x : R => x) sampleSystem)
  = 5%nat.
Proof.
  assert (H : 0 <= TimeOfDaySystem.timeOfDay sampleSystem < 24)
    by (change (0 <= 12 < 24); lra).
  assert (Hrem : TimeDisplay.rem1 (TimeOfDaySystem.timeOfDay sampleSystem)
                 = 0).
  { change (TimeOfDaySystem.timeOfDay sampleSystem) with 12.
    unfold TimeDisplay.rem1. rewrite Rgeb_true by lra.
    rewrite <- (Int_part_spec 12 12) by lra. lra. }
  split; [exact H |].
  destruct (proj1 (getTimeString_format (fun x : R => x) sampleSystem) H)
    as (h & m & _ & _ & _ & _ & _ & Hlen).
  - rewrite Hrem. unfold TimeDisplay.maxFraction. lra.
  - rewrite Hrem. rewrite Rminus_diag, Rabs_R0. lra.
  - exact Hlen.
Defined.

Lemma third_person_camera_behind_player_witness :
  CameraController.currentMode thirdPersonCamera
    = CameraController.THIRD_PERSON /\
  THREE.y (CameraController.camera_position
             (CameraView.update standingPlayer thirdPersonCamera))
  = THREE.y (Player.position standingPlayer)
    + CameraController.thirdPersonHeight thirdPersonCamera.
Proof.
  split; [reflexivity |].
  exact (proj1 (proj2 (third_person_camera_behind_player standingPlayer
                         thirdPersonCamera eq_refl))).
Defined.

Lemma first_person_camera_above_ground_witness :
  CameraController.currentMode sampleCamera = CameraController.FIRST_PERSON /\
  THREE.y (CameraController.camera_position
             (snd (Viewer.step (1 / 60) jumpKeys
                     (standingPlayer, sampleCamera))))
  >= Player.groundLevel standingPlayer + Player.eyeHeight standingPlayer.
Proof.
  split; [reflexivity |].
  exact (proj2 (proj2 (proj2 (first_person_camera_above_ground (1 / 60)
                                jumpKeys standingPlayer sampleCamera
                                eq_refl)))).
Defined.

Lemma free_camera_flight_witness :
  CameraController.currentMode freeCamera = CameraController.FREE_CAMERA /\
  Player.position (fst (Viewer.step (1 / 60) upDownKeys
                          (standingPlayer, freeCamera)))
  = CameraController.camera_position
      (snd (Viewer.step (1 / 60) upDownKeys (standingPlayer, freeCamera))).
Proof.
  split; [reflexivity |].
  exact (proj1 (free_camera_flight (1 / 60) upDownKeys standingPlayer
                  freeCamera eq_refl)).
Defined.

Lemma mouse_look_keeps_pitch_in_range_witness :
  CameraLook.isPointerLocked lockedLook = true /\
  CameraLook.pitchMin
  <= CameraController.pitch
       (CameraLook.controller (CameraLook.onMouseMove 10 5000 lockedLook))
  <= CameraLook.pitchMax.
Proof.
  split; [reflexivity |].
  exact (proj1 (proj2 (proj1 mouse_look_keeps_pitch_in_range 10 5000
                         lockedLook eq_refl))).
Defined.

Lemma setGroundLevel_lifts_only_witness :
  CameraController.currentMode sampleCamera <> CameraController.FREE_CAMERA /\
  THREE.y (Player.position
             (Player.tick (Player.mkFrame (1 / 60) Keys.none sampleCamera)
                (Player.setGroundLevel 1 standingPlayer))) >= 1.
Proof.
  assert (H : CameraController.currentMode sampleCamera
              <> CameraController.FREE_CAMERA) by (cbn; discriminate).
  split; [exact H |].
  destruct (setGroundLevel_lifts_only 1 standingPlayer)
    as (_ & _ & _ & _ & _ & _ & Htick).
  exact (Htick (Player.mkFrame (1 / 60) Keys.none sampleCamera) H).
Defined.

Lemma player_lands_and_rests_witness :
  Player.gravity Player.constructor < 0 /\
  exists n : nat, forall m : nat, (n <= m)%nat ->
    THREE.y (Player.position
               (Player.run (constantFrames (1 / 60) Keys.none sampleCamera) m
                  Player.constructor))
    = Player.groundLevel Player.constructor.
Proof.
  assert (Hg : Player.gravity Player.constructor < 0) by (cbn; lra).
  split; [exact Hg |].
  destruct (player_lands_and_rests
              (constantFrames (1 / 60) Keys.none sampleCamera)
              Player.constructor (1 / 60)) as [n Hn].
  - lra.
  - exact Hg.
  - intros i. split; [reflexivity |]. split; [reflexivity |].
    cbn. discriminate.
  - exists n. intros m Hm. exact (proj1 (Hn m Hm)).
Defined.

Lemma sprint_doubles_displacement_witness :
  CameraController.currentMode sampleCamera <> CameraController.FREE_CAMERA /\
  horizontalDisplacement (Player.setSpeed 1 standingPlayer)
    (Player.tick
       (Player.mkFrame 1
          (with_sprint true (forwardKeys false false false false))
          sampleCamera) (Player.setSpeed 1 standingPlayer))
  = 2 * horizontalDisplacement (Player.setSpeed 1 standingPlayer)
          (Player.tick
             (Player.mkFrame 1
                (with_sprint false (forwardKeys false false false false))
                sampleCamera) (Player.setSpeed 1 standingPlayer)).
Proof.
  assert (H : CameraController.currentMode sampleCamera
              <> CameraController.FREE_CAMERA) by (cbn; discriminate).
  split; [exact H |].
  exact (sprint_doubles_displacement 1 1
           (forwardKeys false false false false) sampleCamera standingPlayer
           H).
Defined.

Lemma opposite_keys_cancel_witness :
  horizontalDisplacement standingPlayer
    (Player.tick
       (Player.mkFrame 1 (Keys.mk true true false false false false false
                            false) sampleCamera) standingPlayer) = 0.
Proof.
  refine (proj2 (proj2 (opposite_keys_cancel
            (Player.mkFrame 1 (Keys.mk true true false false false false false
                                 false) sampleCamera) standingPlayer
            _ eq_refl eq_refl))).
  cbn. discriminate.
Defined.

Lemma jump_height_bounded_witness :
  Player.isGrounded standingPlayer = true /\
  Player.isGrounded
    (Player.run (constantFrames (1 / 10) Keys.none sampleCamera) 2
       (Player.tick (Player.mkFrame (1 / 10) jumpKeys sampleCamera)
          standingPlayer)) = false /\
  THREE.y (Player.position
             (Player.run (constantFrames (1 / 10) Keys.none sampleCamera) 2
                (Player.tick (Player.mkFrame (1 / 10) jumpKeys sampleCamera)
                   standingPlayer)))
  <= THREE.y (Player.position standingPlayer)
     + Player.jumpForce standingPlayer * (1 / 10)
     + Player.jumpForce standingPlayer * Player.jumpForce standingPlayer
       / (2 * - Player.gravity standingPlayer).
Proof.
  assert (Hmode : CameraController.currentMode sampleCamera
                  <> CameraController.FREE_CAMERA) by (cbn; discriminate).
  assert (Hy : Player.groundLevel standingPlayer
               <= THREE.y (Player.position standingPlayer)) by (cbn; lra).
  assert (Hf : 0 < Player.jumpForce standingPlayer) by (cbn; lra).
  assert (Hdt : 0 < 1 / 10) by lra.
  set (frames := constantFrames (1 / 10) Keys.none sampleCamera).
  set (p1 := Player.tick (Player.mkFrame (1 / 10) jumpKeys sampleCamera)
               standingPlayer).
  destruct (jump_tick standingPlayer sampleCamera jumpKeys (1 / 10)
              Hmode eq_refl eq_refl Hy Hf Hdt) as (Y1 & V1 & G1).
  fold p1 in Y1, V1, G1.
  destruct (tick_parameters (Player.mkFrame (1 / 10) jumpKeys sampleCamera)
              standingPlayer) as (Pg1 & Pl1 & _).
  fold p1 in Pg1, Pl1.
  change (THREE.y (Player.position standingPlayer)) with (30 / 100) in Y1.
  change (Player.jumpForce standingPlayer) with (3 / 10) in Y1, V1.
  change (Player.gravity standingPlayer) with (-1) in Pg1.
  change (Player.groundLevel standingPlayer) with (30 / 100) in Pl1.
  destruct (airborne_tick (frames 0%nat) p1 Hmode G1) as (Y2 & V2 & G2 & Pg2 & Pl2).
  { cbn [frames constantFrames Player.frame_dt]. rewrite Pl1, Y1, V1, Pg1. lra. }
  cbn [frames constantFrames Player.frame_dt] in Y2, V2.
  rewrite ?Y1, ?V1, ?Pg1 in Y2, V2. rewrite Pg1 in Pg2. rewrite Pl1 in Pl2.
  set (p2 := Player.tick (frames 0%nat) p1) in *.
  destruct (airborne_tick (frames 1%nat) p2 Hmode G2) as (Y3 & V3 & G3 & _).
  { cbn [frames constantFrames Player.frame_dt]. rewrite Pl2, Y2, V2, Pg2. lra. }
  assert (Hair : forall j : nat, (j <= 2)%nat ->
            Player.isGrounded (Player.run frames j p1) = false).
  { intros j Hj.
    destruct j as [| [| [| j]]]; [exact G1 | exact G2 | exact G3 | lia]. }
  split; [reflexivity |]. split; [exact (Hair 2%nat (Nat.le_refl 2)) |].
  apply (jump_height_bounded standingPlayer sampleCamera jumpKeys (1 / 10)
           frames Hmode eq_refl eq_refl Hy Hf Hdt).
  - cbn. lra.
  - intros i. split; [reflexivity | exact Hmode].
  - exact Hair.
Defined.

Lemma updatePasses_keeps_render_pass_witness :
  PostProcessingManager.passes fullManager
  = [PostProcessingManager.RenderPass; PostProcessingManager.BloomPass;
     PostProcessingManager.SSAOPass; PostProcessingManager.EnhancedPass] /\
  NoDup (PostProcessingManager.passes fullManager) /\
  PostProcessingManager.removeEffectPasses
    (length (PostProcessingManager.passes fullManager))
    (PostProcessingManager.passes fullManager)
  = [PostProcessingManager.RenderPass].
Proof.
  assert (Hp : PostProcessingManager.passes fullManager
               = [PostProcessingManager.RenderPass;
                  PostProcessingManager.BloomPass;
                  PostProcessingManager.SSAOPass;
                  PostProcessingManager.EnhancedPass]) by reflexivity.
  assert (H : NoDup (PostProcessingManager.passes fullManager)).
  { rewrite Hp. repeat constructor; cbn; intuition discriminate. }
  split; [exact Hp |]. split; [exact H |].
  apply (updatePasses_keeps_render_pass fullManager H).
  rewrite Hp. reflexivity.
Defined.

Lemma pass_chain_follows_switches_witness :
  PostProcessingManager.passes
    (PostProcessingManager.performAll
       [PostProcessingManager.SetBloomEnabled true;
        PostProcessingManager.SetEnabled true;
        PostProcessingManager.SetEnabled false]
       PostProcessingManager.constructor)
  = [PostProcessingManager.RenderPass].
Proof.
  exact (proj2 (proj2 (pass_chain_follows_switches
                         [PostProcessingManager.SetBloomEnabled true;
                          PostProcessingManager.SetEnabled true;
                          PostProcessingManager.SetEnabled false]))
           eq_refl).
Defined.

Lemma keys_follow_last_event_witness :
  PlayerInput.onKey
    (PlayerInput.keyDown PlayerInput.shiftLeft) Keys.none
  <> Keys.none /\
  PlayerInput.onKey (PlayerInput.mkKeyEvent true String.EmptyString) Keys.none
  = Keys.none.
Proof.
  split; [cbn; discriminate |].
  exact (proj1 (proj2 keys_follow_last_event)
           (PlayerInput.mkKeyEvent true String.EmptyString) Keys.none
           eq_refl).
Defined.

Lemma path_tracing_settings_in_range_witness :
  1 / 10 <= 1 / 2 <= 1 /\
  PathTracingRenderer.renderScale
    (PathTracingRenderer.setRenderScale (1 / 2)
       PathTracingRenderer.constructor) = 1 / 2.
Proof.
  assert (H : 1 / 10 <= 1 / 2 <= 1) by lra.
  split; [exact H |].
  exact (proj1 (proj2 path_tracing_settings_in_range (1 / 2)
                  PathTracingRenderer.constructor) H).
Defined.

Lemma path_tracer_follows_settings_witness :
  PathTracerSynced tracingRenderer /\
  PathTracerSynced
    (PathTracingRenderer.performAll
       [PathTracingRenderer.SetBounces 8; PathTracingRenderer.SetTiles 3 3]
       tracingRenderer).
Proof.
  assert (H : PathTracerSynced tracingRenderer)
    by (cbv [PathTracerSynced tracingRenderer
             PathTracingRenderer.pathTracer]; cbn; repeat split).
  split; [exact H |].
  exact (proj1 path_tracer_follows_settings
           [PathTracingRenderer.SetBounces 8; PathTracingRenderer.SetTiles 3 3]
           tracingRenderer H).
Defined.

(** * Further properties of the colour curve and of the tilted orbit *)

(** X25.  The lighting changes slowly.  Between two times of the same day
    (0 to 24) every colour channel and the interpolated sun intensity
    differ by at most half the time difference in hours.  Hence the colour
    curve is continuous at every time strictly between 0 and 24, not only
    at the interval boundaries. *)
Theorem colors_change_slowly :
  (forall s t : R, 0 <= s <= 24 -> 0 <= t <= 24 ->
     Preset_near (Rabs (t - s) / 2)
       (TimeOfDaySystem.getColorsForTime s)
       (TimeOfDaySystem.getColorsForTime t)) /\
  (forall b : R, 0 < b < 24 ->
     continuous_at TimeOfDaySystem.getColorsForTime b).
Proof.
  assert (Hlip : forall s t : R, 0 <= s <= 24 -> 0 <= t <= 24 ->
            Preset_near (Rabs (t - s) / 2)
              (TimeOfDaySystem.getColorsForTime s)
              (TimeOfDaySystem.getColorsForTime t)).
  { intros s t Hs Ht. destruct (Rle_dec s t) as [Hle | Hgt].
    - rewrite Rabs_pos_eq by lra.
      apply colors_lipschitz_ordered; lra.
    - rewrite Rabs_left by lra.
      replace (- (t - s)) with (s - t) by ring.
      apply Preset_near_sym. apply colors_lipschitz_ordered; lra. }
  split; [exact Hlip |].
  intros b Hb eps Heps.
  exists (Rmin eps (Rmin b (24 - b))). split.
  - repeat apply Rmin_glb_lt; lra.
  - intros t Ht.
    pose proof (Rmin_l eps (Rmin b (24 - b))) as M1.
    pose proof (Rmin_r eps (Rmin b (24 - b))) as M2.
    pose proof (Rmin_l b (24 - b)) as M3.
    pose proof (Rmin_r b (24 - b)) as M4.
    apply (Preset_near_within (Rabs (t - b) / 2)).
    + assert (Rabs (t - b) < eps) by (apply Rabs_def1; lra). lra.
    + apply Preset_near_sym. apply Hlip; lra.
Qed.



Lemma colors_change_slowly_witness :
  0 <= 6 <= 24 /\ 0 <= 7 <= 24 /\
  Preset_near (Rabs (7 - 6) / 2)
    (TimeOfDaySystem.getColorsForTime 6) (TimeOfDaySystem.getColorsForTime 7).
Proof.
  assert (H6 : 0 <= 6 <= 24) by lra.
  assert (H7 : 0 <= 7 <= 24) by lra.
  split; [exact H6 |]. split; [exact H7 |].
  exact (proj1 colors_change_slowly 6 7 H6 H7).
Defined.


(** * The two versions of the day/night class *)

(** X27.  With the orbit rotation at zero (as the constructor and the reset
    button leave it) an [update] of the class with orbit controls and an
    [update] of the class without them agree on the clock, the scene, the
    two lights' colours and intensity, the sun mesh's colour and
    visibility, and the x and y of the sun.  They differ in the sun's z
    only: 0 with orbit controls, [sunDistance * 0.5 = 25] without, where
    the sun is therefore farther than [sunDistance] from the origin
    (squared distance 3125, not 2500). *)
Theorem orbit_controls_extend_fixed_orbit :
  forall (dt : R) (s : TimeOfDaySystem.t),
    TimeOfDaySystem.orbitRotation s = noTilt ->
    let new := TimeOfDaySystem.update dt s in
    let old := FixedOrbit.update dt s in
    let sun := TimeOfDaySystem.light_position
                 (TimeOfDaySystem.directionalLight new) in
    let sun0 := TimeOfDaySystem.light_position
                  (TimeOfDaySystem.directionalLight old) in
    TimeOfDaySystem.timeOfDay new = TimeOfDaySystem.timeOfDay old /\
    TimeOfDaySystem.scene new = TimeOfDaySystem.scene old /\
    TimeOfDaySystem.hemisphereLight new = TimeOfDaySystem.hemisphereLight old /\
    TimeOfDaySystem.light_color (TimeOfDaySystem.directionalLight new)
    = TimeOfDaySystem.light_color (TimeOfDaySystem.directionalLight old) /\
    TimeOfDaySystem.intensity (TimeOfDaySystem.directionalLight new)
    = TimeOfDaySystem.intensity (TimeOfDaySystem.directionalLight old) /\
    TimeOfDaySystem.material_color (TimeOfDaySystem.sunMesh new)
    = TimeOfDaySystem.material_color (TimeOfDaySystem.sunMesh old) /\
    TimeOfDaySystem.visible (TimeOfDaySystem.sunMesh new)
    = TimeOfDaySystem.visible (TimeOfDaySystem.sunMesh old) /\
    TimeOfDaySystem.mesh_position (TimeOfDaySystem.sunMesh new) = sun /\
    TimeOfDaySystem.mesh_position (TimeOfDaySystem.sunMesh old) = sun0 /\
    THREE.x sun = THREE.x sun0 /\ THREE.y sun = THREE.y sun0 /\
    THREE.z sun = 0 /\ THREE.z sun0 = 25 /\
    THREE.length sun0 * THREE.length sun0 = 3125.
Proof.
  intros dt s Htilt new old sun sun0.
  subst sun sun0 new old.
  unfold TimeOfDaySystem.update, FixedOrbit.update.
  match goal with
  | |- context [TimeOfDaySystem.updateLighting ?e] => set (s1 := e)
  end.
  assert (Htilt1 : TimeOfDaySystem.orbitRotation s1 = noTilt).
  { subst s1. cbv zeta.
    destruct (TimeOfDaySystem.enabled s); [| exact Htilt].
    match goal with
    | |- context [if ?c then _ else _] => destruct c
    end; exact Htilt. }
  clearbody s1.
  rewrite length_square.
  unfold TimeOfDaySystem.updateLighting, FixedOrbit.updateLighting,
    TimeOfDaySystem.updateSunPosition, FixedOrbit.updateSunPosition.
  cbn [TimeOfDaySystem.scene TimeOfDaySystem.directionalLight
       TimeOfDaySystem.hemisphereLight TimeOfDaySystem.timeOfDay
       TimeOfDaySystem.orbitRotation TimeOfDaySystem.sunMesh
       TimeOfDaySystem.light_color TimeOfDaySystem.intensity
       TimeOfDaySystem.light_position TimeOfDaySystem.mesh_position
       TimeOfDaySystem.material_color TimeOfDaySystem.visible].
  rewrite Htilt1, sunPosition_noTilt.
  unfold FixedOrbit.sunPosition, TimeOfDaySystem.sunDistance.
  cbn [THREE.x THREE.y THREE.z].
  pose proof (sin2_cos2 ((TimeOfDaySystem.timeOfDay s1 - 6) / 12 * PI))
    as Hunit.
  unfold Rsqr in Hunit.
  repeat split; try reflexivity; try lra; nra.
Qed.

Lemma orbit_controls_extend_fixed_orbit_witness :
  TimeOfDaySystem.orbitRotation sampleSystem = noTilt /\
  THREE.z (TimeOfDaySystem.light_position
             (TimeOfDaySystem.directionalLight
                (TimeOfDaySystem.update 1 sampleSystem))) = 0 /\
  THREE.z (TimeOfDaySystem.light_position
             (TimeOfDaySystem.directionalLight
                (FixedOrbit.update 1 sampleSystem))) = 25.
Proof.
  assert (Htilt : TimeOfDaySystem.orbitRotation sampleSystem = noTilt)
    by reflexivity.
  split; [exact Htilt |].
  pose proof (orbit_controls_extend_fixed_orbit 1 sampleSystem Htilt) as H.
  cbv zeta in H.
  destruct H as (_ & _ & _ & _ & _ & _ & _ & _ & _ & _ & _ & Hz & Hz0 & _).
  split; [exact Hz | exact Hz0].
Defined.
